(** * Auto-heal for ALB/NLB targets: decision logic and lambda handlers

    A shallow embedding of the Python sources

      - [src/decision_engine/repair_priority.py]
      - [src/decision_engine/decision_model.py]
      - [src/lambda/utils/helpers.py]
      - [src/lambda/diagnostics/handler.py]
      - [src/lambda/auto_heal/handler.py]
      - [src/lambda/verify/handler.py]
      - [src/lambda/target_monitor/handler.py]

    Python dictionaries are finite maps from strings to dynamically typed
    values; exceptions are an explicit error result; calls to AWS are
    answered by an environment record and logged in a trace of issued
    requests. *)

From Stdlib Require Import ZArith QArith Lqa List Ascii String.
From stdpp Require Import base option gmap strings list.

Local Open Scope Z_scope.

(** ** Python values *)

(** A Python number (an [int], a [Decimal] or a finite [float]) is
    represented by its mathematical value; the three non-finite floats are
    kept apart.  Comparisons between Python numbers, also of different
    types, are by mathematical value.  The arithmetic the modelled code
    performs on such numbers is taken to be exact: it is for the integer
    penalties subtracted from [100.0], and for the cooldown, where minutes
    are multiplied by [60] and a time difference is turned into seconds, up
    to the rounding of a float. *)
Inductive number : Type :=
  | Fin (q : Q)
  | PosInf
  | NegInf
  | NaN.

Definition Qltb (x y : Q) : bool :=
  Qnum x * QDen y <? Qnum y * QDen x.

(** [a < b] on Python numbers: false as soon as one side is NaN. *)
Definition num_ltb (a b : number) : bool :=
  match a, b with
  | NaN, _ | _, NaN => false
  | Fin x, Fin y => Qltb x y
  | Fin _, PosInf => true
  | Fin _, NegInf => false
  | PosInf, _ => false
  | NegInf, NegInf => false
  | NegInf, _ => true
  end.

(** [a <= b] on Python numbers. *)
Definition num_leb (a b : number) : bool :=
  match a, b with
  | NaN, _ | _, NaN => false
  | Fin x, Fin y => negb (Qltb y x)
  | Fin _, PosInf => true
  | Fin _, NegInf => false
  | PosInf, PosInf => true
  | PosInf, _ => false
  | NegInf, _ => true
  end.

(** [a == b] on Python numbers. *)
Definition num_eqb (a b : number) : bool :=
  match a, b with
  | Fin x, Fin y => Qeq_bool x y
  | PosInf, PosInf => true
  | NegInf, NegInf => true
  | _, _ => false
  end.

Definition num_of_Z (z : Z) : number := Fin (inject_Z z).

Coercion num_of_Z : Z >-> number.

(** The values that are stored in the dictionaries of this program: JSON
    scalars.  [bool] is a subtype of [int] in Python, which [as_number]
    accounts for. *)
Inductive value : Type :=
  | VNone
  | VBool (b : bool)
  | VNum (n : number)
  | VStr (s : string).

#[export] Instance value_inhabited : Inhabited value := populate VNone.

Abbreviation dict := (gmap string value).

(** [bool(v)] *)
Definition truthy (v : value) : bool :=
  match v with
  | VNone => false
  | VBool b => b
  | VNum (Fin q) => negb (Qeq_bool q 0)
  | VNum _ => true
  | VStr s => negb (String.eqb s EmptyString)
  end.

Definition as_number (v : value) : option number :=
  match v with
  | VBool true => Some (Fin 1)
  | VBool false => Some (Fin 0)
  | VNum n => Some n
  | VNone | VStr _ => None
  end.

(** [v == w] *)
Definition py_eqb (v w : value) : bool :=
  match v, w with
  | VNone, VNone => true
  | VStr s, VStr t => String.eqb s t
  | VNone, _ | _, VNone | VStr _, _ | _, VStr _ => false
  | _, _ =>
      match as_number v, as_number w with
      | Some a, Some b => num_eqb a b
      | _, _ => false
      end
  end.

(** [d.get(key, dflt)] *)
Definition get (d : dict) (key : string) (dflt : value) : value :=
  default dflt (d !! key).

(** A formatted string literal is kept as its template together with the
    values that are formatted into it. *)
Record text : Type := fstring {
  template : string;
  args : list value
}.

Definition literal (s : string) : text := fstring s [].

(** ** Exceptions *)

Inductive exn : Type :=
  | TypeError
  | ValueError
  | KeyError
  | IndexError
  | AttributeError
  | ClientError (msg : string).

Inductive result (A : Type) : Type :=
  | Ok (a : A)
  | Raise (e : exn).

Arguments Ok {A} a.
Arguments Raise {A} e.

#[export] Instance result_ret : MRet result := fun A a => Ok a.

#[export] Instance result_bind : MBind result := fun A B k m =>
  match m with
  | Ok a => k a
  | Raise e => Raise e
  end.

#[export] Instance result_fmap : FMap result := fun A B f m =>
  match m with
  | Ok a => Ok (f a)
  | Raise e => Raise e
  end.

(** [try: body except Exception: handler] *)
Definition try_except {A : Type} (body : result A) (handler : exn → A) : A :=
  match body with
  | Ok a => a
  | Raise e => handler e
  end.

(** ** Builtins, events and AWS requests *)

(** Library functions the handlers call, and the process environment. *)
Class Runtime : Type := {
  (** [json.loads], applied to the [detail] of an event *)
  json_loads : string → result dict;
  (** [datetime.fromisoformat], in microseconds since the epoch *)
  fromisoformat : string → result Z;
  (** [float(s)] *)
  float : string → result number;
  (** [int(s)] *)
  parse_int : string → result Z;
  (** [os.environ] *)
  environ : gmap string string
}.

(** [os.environ.get(key, dflt)] *)
Definition environ_get `{Runtime} (key dflt : string) : string :=
  default dflt (environ !! key).

(** The [detail] of an EventBridge event is an object or its JSON text. *)
Inductive Detail : Type :=
  | DetailDict (d : dict)
  | DetailStr (s : string).

(** The [event] a handler is invoked with: its scalar entries and, when
    present, its [detail]. *)
Record Event : Type := {
  fields : dict;
  detail : option Detail
}.

(** Requests to AWS that change something, with the arguments that tell
    them apart; of an item or an event only the scalar entries the
    properties refer to are kept. *)
Inductive call : Type :=
  | PutItem (table : string) (instance_id : value)
  | PutEvents (source detail_type : string) (detail : dict)
  | DeregisterTargets (target_group_arn instance_id : value)
  | RegisterTargets (target_group_arn instance_id : value)
  | StartAutomationExecution (document : string) (instance_id classification : value)
  | SendCommand (instance_id : value)
  | TerminateInstances (instance_id : value)
  | SetDesiredCapacity (asg_name : value) (desired_capacity : Z)
  | Publish (topic_arn : string) (instance_id : value).

(** A handler step gives a result or an exception, together with the
    requests it issued, in order. *)
Definition io (A : Type) : Type := result A * list call.

#[export] Instance io_ret : MRet io := fun A a => (Ok a, []).

#[export] Instance io_bind : MBind io := fun A B k m =>
  match m with
  | (Ok a, t) => let (r, t') := k a in (r, t ++ t')
  | (Raise e, t) => (Raise e, t)
  end.

Definition lift {A : Type} (r : result A) : io A := (r, []).

(** Issue request [c]; AWS answers with [answer]. *)
Definition request {A : Type} (c : call) (answer : result A) : io A :=
  (answer, [c]).

(** [try: body except Exception as e: handler(e)] *)
Definition try_io {A : Type} (body : io A) (handler : exn → io A) : io A :=
  match body with
  | (Ok a, t) => (Ok a, t)
  | (Raise e, t) => let (r, t') := handler e in (r, t ++ t')
  end.

Definition run {A : Type} (m : io A) : result A * list call := m.

(** What a handler returns: a status code and a body, which is a text or
    the JSON of a payload. *)
Record Response (A : Type) : Type := {
  statusCode : Z;
  body : string + A
}.

Arguments statusCode {A} _.
Arguments body {A} _.

(** [_extract_instance_id], the same in the diagnostics, auto-heal and
    verify handlers. *)
Definition _extract_instance_id `{Runtime} (event : Event) : result value :=
  match fields event !! "instance_id" with
  | Some instance_id => Ok instance_id
  | None =>
      match detail event with
      | Some (DetailDict d) => Ok (get d "instance_id" VNone)
      | Some (DetailStr s) => d ← json_loads s; Ok (get d "instance_id" VNone)
      | None => Ok VNone
      end
  end.

(** ** [decision_engine/repair_priority.py] *)

Module RepairPriority.

Inductive FailurePriority : Type :=
  | CRITICAL
  | HIGH
  | MEDIUM
  | LOW
  | UNKNOWN.

(** The integer of an [IntEnum] member. *)
Definition int (p : FailurePriority) : Z :=
  match p with
  | CRITICAL => 1
  | HIGH => 2
  | MEDIUM => 3
  | LOW => 4
  | UNKNOWN => 0
  end.

Definition PRIORITY_MAP : gmap string FailurePriority :=
  {[ "Application Failure" := CRITICAL;
     "OS-level Failure" := CRITICAL;
     "Disk Corruption" := CRITICAL;
     "Agent Failure" := HIGH;
     "Resource Bottleneck" := MEDIUM;
     "Network Degradation" := MEDIUM;
     "Unknown State" := UNKNOWN ]}.

(** [min(a, b)] on enum members compares their integers and keeps the
    first argument on a tie. *)
Definition min (a b : FailurePriority) : FailurePriority :=
  if int b <? int a then b else a.

Definition calculate_repair_priority
    (classification : string) (diagnostic_score : number)
    (repair_attempts : Z) : Z :=
  let base_priority := default UNKNOWN (PRIORITY_MAP !! classification) in
  let base_priority :=
    if num_ltb diagnostic_score 20 then CRITICAL
    else if num_ltb diagnostic_score 40 then min base_priority HIGH
    else base_priority in
  let base_priority :=
    if 2 <=? repair_attempts then CRITICAL else base_priority in
  int base_priority.

Definition should_skip_repair
    (classification : string) (diagnostic_score : number)
    (instance_config : dict) : bool :=
  if truthy (get instance_config "skip_recovery" (VBool false)) then true
  else if num_ltb diagnostic_score 10 then true
  else if bool_decide (classification ∈ ["OS-level Failure"; "Disk Corruption"])
  then true
  else false.

Definition timeouts : gmap string Z :=
  {[ "Application Failure" := 300;
     "Resource Bottleneck" := 600;
     "Agent Failure" := 900;
     "Network Degradation" := 600;
     "OS-level Failure" := 0;
     "Disk Corruption" := 0;
     "Unknown State" := 300 ]}.

Definition get_repair_timeout (classification : string) : Z :=
  default 300 (timeouts !! classification).

End RepairPriority.

(** ** [decision_engine/decision_model.py] *)

Module DecisionModel.
Import RepairPriority.

Definition should_replace_instance
    (diagnostic_score : number) (repair_attempts : Z) : bool :=
  if num_ltb diagnostic_score 30 then true
  else if 2 <=? repair_attempts then true
  else false.

Record Decision : Type := {
  instance_id : string;
  action : option string;
  reason : text;
  priority : Z;
  timeout_seconds : Z;
  skip : bool
}.

Definition decide
    (self_instance_id self_classification : string)
    (self_diagnostic_score : number) (self_repair_attempts : Z)
    (self_instance_config : dict) : Decision :=
  let decision :=
    {| instance_id := self_instance_id;
       action := None;
       reason := literal EmptyString;
       priority := 0;
       timeout_seconds := 0;
       skip := false |} in
  if should_skip_repair self_classification self_diagnostic_score
       self_instance_config
  then
    {| instance_id := instance_id decision;
       action := action decision;
       reason := literal "Skipped per configuration or unrecoverable state";
       priority := priority decision;
       timeout_seconds := timeout_seconds decision;
       skip := true |}
  else
    let priority' :=
      calculate_repair_priority self_classification self_diagnostic_score
        self_repair_attempts in
    let should_replace :=
      should_replace_instance self_diagnostic_score self_repair_attempts in
    if should_replace then
      {| instance_id := instance_id decision;
         action := Some "replace";
         reason :=
           fstring "Diagnostic score {:.1f} and {} repair attempts indicate replacement needed"
             [VNum self_diagnostic_score; VNum self_repair_attempts];
         priority := priority';
         timeout_seconds := 1800;
         skip := skip decision |}
    else
      {| instance_id := instance_id decision;
         action := Some "repair";
         reason :=
           fstring "Attempting repair for {} (score: {:.1f})"
             [VStr self_classification; VNum self_diagnostic_score];
         priority := priority';
         timeout_seconds := get_repair_timeout self_classification;
         skip := skip decision |}.

Definition make_decision := decide.

End DecisionModel.

(** ** [lambda/utils/helpers.py] *)

Module Helpers.

(** [v > n] for a dictionary value [v]; comparing [None] or a string with a
    number raises [TypeError]. *)
Definition gt (v : value) (n : number) : result bool :=
  match as_number v with
  | Some a => Ok (num_ltb n a)
  | None => Raise TypeError
  end.

(** The body of the [for i in range(1, len(health_history))] loop. *)
Definition flapping_step (state_key : string) (dflt : value)
    (health_history : list dict) (state_changes : Z) (i : nat) : Z :=
  let prev_state := get (health_history !!! (i - 1)%nat) state_key dflt in
  let curr_state := get (health_history !!! i) state_key dflt in
  if negb (py_eqb prev_state curr_state) then state_changes + 1
  else state_changes.

Definition check_flapping (health_history : list dict) (threshold : Z) : bool :=
  if Z.of_nat (length health_history) <? threshold * 2 then false
  else
    let state_changes :=
      foldl (flapping_step "state" (VStr EmptyString) health_history) 0
        (seq 1 (length health_history - 1)) in
    threshold <=? state_changes.

(** [max(a, b)] returns [a] unless [b] is greater. *)
Definition max (a b : Q) : Q := if Qltb a b then b else a.

(** The score is a float that starts at [100.0] and only has integers
    subtracted from it, so it is finite: it is returned as a rational. *)
Definition calculate_diagnostic_score (diagnostics : dict) : result Q :=
  let score := 100%Q in
  let score :=
    if truthy (get diagnostics "application_failure" (VBool false))
    then (score - 40)%Q else score in
  let cpu_usage := get diagnostics "cpu_usage" (VNum 0) in
  above90 ← gt cpu_usage 90;
  score ←
    (if above90 : bool then Ok (score - 20)%Q
     else above80 ← gt cpu_usage 80;
          Ok (if above80 : bool then (score - 10)%Q else score));
  let memory_usage := get diagnostics "memory_usage" (VNum 0) in
  above90 ← gt memory_usage 90;
  score ←
    (if above90 : bool then Ok (score - 20)%Q
     else above80 ← gt memory_usage 80;
          Ok (if above80 : bool then (score - 10)%Q else score));
  let score :=
    if truthy (get diagnostics "disk_corruption" (VBool false))
    then (score - 30)%Q else score in
  let score :=
    if truthy (get diagnostics "network_degradation" (VBool false))
    then (score - 15)%Q else score in
  let score :=
    if truthy (get diagnostics "ssm_agent_failure" (VBool false))
    then (score - 25)%Q else score in
  let score :=
    if truthy (get diagnostics "cloudwatch_agent_failure" (VBool false))
    then (score - 10)%Q else score in
  Ok (max 0 score).

Definition should_replace_instance
    (diagnostic_score : number) (repair_attempts : Z) : bool :=
  if num_ltb diagnostic_score 30 then true
  else if 2 <=? repair_attempts then true
  else false.

End Helpers.

(** ** [lambda/diagnostics/handler.py] *)

Module Diagnostics.

(** What AWS answers during one invocation.  [_run_ssm_diagnostics] gathers
    its findings through SSM and EC2 and catches their failures; the
    dictionary it returns is taken from the environment. *)
Record Env : Type := {
  run_ssm_diagnostics : dict;
  put_item : result unit;
  put_events : result unit
}.

Definition DIAGNOSTICS_TABLE `{Runtime} : string :=
  environ_get "DIAGNOSTICS_TABLE" "DiagnosticsHistory".

Definition _classify_failure (diagnostics : dict) : string :=
  if truthy (get diagnostics "application_failure" VNone) then "Application Failure"
  else if truthy (get diagnostics "disk_corruption" VNone) then "Disk Corruption"
  else if truthy (get diagnostics "os_level_failure" VNone) then "OS-level Failure"
  else if truthy (get diagnostics "network_degradation" VNone) then "Network Degradation"
  else if truthy (get diagnostics "agent_failure" VNone) then "Agent Failure"
  else if truthy (get diagnostics "resource_bottleneck" VNone) then "Resource Bottleneck"
  else if truthy (get diagnostics "unknown_state" VNone) then "Unknown State"
  else "Unknown State".

Definition _store_diagnostics `{Runtime} (env : Env) (instance_id : value) : io unit :=
  try_io (request (PutItem DIAGNOSTICS_TABLE instance_id) (put_item env))
    (fun _ => mret tt).

Definition _trigger_auto_heal `{Runtime} (env : Env)
    (instance_id target_group_arn : value) (classification : string)
    (score : Q) : io unit :=
  try_io
    (request
       (PutEvents "auto-heal.diagnostics" "Diagnostics Complete"
          {[ "instance_id" := instance_id;
             "target_group_arn" := target_group_arn;
             "classification" := VStr classification;
             "diagnostic_score" := VNum (Fin score) ]})
       (put_events env))
    (fun _ => mret tt).

(** The payload of the response of a completed run. *)
Record Report : Type := {
  report_instance_id : value;
  report_classification : string;
  report_diagnostic_score : Q;
  report_diagnostics : dict
}.

Definition lambda_handler `{Runtime} (env : Env) (event : Event)
    : io (Response Report) :=
  instance_id ← lift (_extract_instance_id event);
  let target_group_arn := get (fields event) "target_group_arn" (VStr EmptyString) in
  if negb (truthy instance_id) then
    mret {| statusCode := 400; body := inl "Missing instance_id" |}
  else
    let diagnostics_result := run_ssm_diagnostics env in
    let failure_classification := _classify_failure diagnostics_result in
    diagnostic_score ← lift (Helpers.calculate_diagnostic_score diagnostics_result);
    _store_diagnostics env instance_id;;
    (if Qltb diagnostic_score 70
        || bool_decide (failure_classification ∈
             ["Application Failure"; "OS-level Failure"; "Disk Corruption"])
     then _trigger_auto_heal env instance_id target_group_arn
            failure_classification diagnostic_score
     else mret tt);;
    mret {| statusCode := 200;
            body := inr {| report_instance_id := instance_id;
                           report_classification := failure_classification;
                           report_diagnostic_score := diagnostic_score;
                           report_diagnostics := diagnostics_result |} |}.

End Diagnostics.

(** ** [lambda/target_monitor/handler.py] *)

Module TargetMonitor.

(** The answer to the query for the recent health events of the target. *)
Record Env : Type := {
  query : result (list dict)
}.

(** [sum(1 for i in range(1, len(states)) if states[i] != states[i-1])] *)
Definition changes (states : list value) : Z :=
  foldl Z.add 0
    (map (fun _ => 1)
       (List.filter
          (fun i => negb (py_eqb (states !!! i) (states !!! (i - 1)%nat)))
          (seq 1 (length states - 1)))).

Definition _check_target_flapping (env : Env) : bool :=
  try_except
    (health_history ← query env;
     if Z.of_nat (length health_history) <? 6 then Ok false
     else
       let states := map (fun item => get item "State" VNone) health_history in
       Ok (3 <=? changes states))
    (fun _ => false).

End TargetMonitor.

(** ** [lambda/auto_heal/handler.py] *)

Module AutoHeal.

Record AutoScalingGroup : Type := {
  MinSize : Z;
  DesiredCapacity : Z
}.

(** What AWS answers during one invocation, and the clock. *)
Record Env : Type := {
  (** [datetime.utcnow()], in microseconds since the epoch *)
  utcnow : Z;
  (** the [Item] of the instance's configuration, when there is one *)
  get_item : result (option dict);
  (** the [Items] of the query for the last recorded action *)
  query_last_action : result (list dict);
  (** the [Items] of the query for the recorded repairs *)
  query_repairs : result (list dict);
  deregister_targets : result unit;
  (** the [AutomationExecutionId] *)
  start_automation_execution : result value;
  (** the [AutoScalingInstances] *)
  describe_auto_scaling_instances : result (list dict);
  (** the [AutoScalingGroups] *)
  describe_auto_scaling_groups : result (list AutoScalingGroup);
  terminate_instances : result unit;
  set_desired_capacity : result unit;
  put_item : result unit;
  put_events : result unit
}.

Definition AUTO_HEAL_TABLE `{Runtime} : string :=
  environ_get "AUTO_HEAL_TABLE" "AutoHealHistory".

Definition SSM_REPAIR_DOCUMENT `{Runtime} : string :=
  environ_get "SSM_REPAIR_DOCUMENT" "AutoHeal-RepairServices".

Definition EVENT_BUS_NAME `{Runtime} : string :=
  environ_get "EVENT_BUS_NAME" "default".

Definition _get_instance_config (env : Env) : dict :=
  try_except
    (response ← get_item env; Ok (default ∅ response))
    (fun _ => ∅).

(** [s.replace('Z', '+00:00')] *)
Fixpoint replace_Z (s : string) : string :=
  match s with
  | EmptyString => EmptyString
  | String c s' =>
      if Ascii.eqb c "Z"%char then String.append "+00:00" (replace_Z s')
      else String c (replace_Z s')
  end.

(** [n * 60] *)
Definition times60 (n : number) : number :=
  match n with
  | Fin q => Fin (q * 60)
  | other => other
  end.

(** [timedelta.total_seconds()] of a difference in microseconds *)
Definition total_seconds (microseconds : Z) : number :=
  Fin (microseconds # 1000000).

Definition _is_in_cooldown `{Runtime} (env : Env) (config : dict) : bool :=
  let cooldown_minutes := get config "cooldown_minutes" (VNum 15) in
  try_except
    (items ← query_last_action env;
     match items with
     | [] => Ok false
     | item :: _ =>
         timestamp ← from_option Ok (Raise KeyError) (item !! "Timestamp");
         last_action_time ←
           match timestamp with
           | VStr s => fromisoformat (replace_Z s)
           | _ => Raise TypeError
           end;
         let time_since_last_action := utcnow env - last_action_time in
         match as_number cooldown_minutes with
         | Some minutes =>
             Ok (num_ltb (total_seconds time_since_last_action) (times60 minutes))
         | None => Raise TypeError
         end
     end)
    (fun _ => false).

Definition _get_repair_attempts (env : Env) : Z :=
  try_except
    (items ← query_repairs env; Ok (Z.of_nat (length items)))
    (fun _ => 0).

(** An entry of [result['steps']]. *)
Record Step : Type := {
  step : string;
  status : string;
  step_error : option exn;
  automation_execution_id : option value
}.

(** The [result] dictionary of a repair or a replacement. *)
Record Result : Type := {
  action : string;
  success : bool;
  steps : list Step;
  error : option text;
  asg_name : option value
}.

Definition succeeded (name st : string) : Step :=
  {| step := name; status := st; step_error := None;
     automation_execution_id := None |}.

Definition failed (name : string) (e : exn) : Step :=
  {| step := name; status := "failed"; step_error := Some e;
     automation_execution_id := None |}.

(** Step 1 of a repair, step 2 of a replacement. *)
Definition deregister (env : Env) (instance_id target_group_arn : value) : io Step :=
  try_io
    (request (DeregisterTargets target_group_arn instance_id)
       (deregister_targets env);;
     mret (succeeded "deregister_target" "success"))
    (fun e => mret (failed "deregister_target" e)).

Definition _repair_instance `{Runtime} (env : Env)
    (instance_id target_group_arn classification : value) : io Result :=
  step1 ← deregister env instance_id target_group_arn;
  step2 ←
    try_io
      (id ← request
              (StartAutomationExecution SSM_REPAIR_DOCUMENT instance_id classification)
              (start_automation_execution env);
       mret ({| step := "ssm_repair"; status := "initiated"; step_error := None;
                automation_execution_id := Some id |}, true))
      (fun e => mret (failed "ssm_repair" e, false));
  mret {| action := "repair";
          success := step2.2;
          steps := [step1; step2.1];
          error := None;
          asg_name := None |}.

Definition _get_asg_for_instance (env : Env) : value :=
  try_except
    (instances ← describe_auto_scaling_instances env;
     match instances with
     | instance :: _ => Ok (get instance "AutoScalingGroupName" VNone)
     | [] => Ok VNone
     end)
    (fun _ => VNone).

Definition exn_text (e : exn) : text :=
  match e with
  | TypeError => literal "TypeError"
  | ValueError => literal "ValueError"
  | KeyError => literal "KeyError"
  | IndexError => literal "IndexError"
  | AttributeError => literal "AttributeError"
  | ClientError msg => literal msg
  end.

Definition _replace_instance (env : Env)
    (instance_id target_group_arn : value) : io Result :=
  let result :=
    {| action := "replace"; success := false; steps := []; error := None;
       asg_name := None |} in
  let asg := _get_asg_for_instance env in
  if negb (truthy asg) then
    mret {| action := action result; success := false; steps := [];
            error := Some (literal "No ASG found for instance");
            asg_name := None |}
  else
    step2 ← deregister env instance_id target_group_arn;
    match describe_auto_scaling_groups env with
    | Raise e =>
        mret {| action := action result; success := false; steps := [step2];
                error := Some (exn_text e); asg_name := Some asg |}
    | Ok [] =>
        mret {| action := action result; success := false; steps := [step2];
                error := Some (literal "list index out of range");
                asg_name := Some asg |}
    | Ok (group :: _) =>
        let min_size := MinSize group in
        let desired_capacity := DesiredCapacity group in
        step4 ←
          try_io
            (request (TerminateInstances instance_id) (terminate_instances env);;
             mret (succeeded "terminate_instance" "success", true))
            (fun e => mret (failed "terminate_instance" e, false));
        if negb step4.2 then
          mret {| action := action result; success := false;
                  steps := [step2; step4.1]; error := None;
                  asg_name := Some asg |}
        else
          let step5 := succeeded "wait_for_replacement" "initiated" in
          step6 ←
            (if desired_capacity <=? min_size then
               try_io
                 (request (SetDesiredCapacity asg (desired_capacity + 1))
                    (set_desired_capacity env);;
                  mret [succeeded "increase_capacity" "success"])
                 (fun _ => mret [])
             else mret []);
          mret {| action := action result; success := true;
                  steps := [step2; step4.1; step5] ++ step6; error := None;
                  asg_name := Some asg |}
    end.

Definition _record_auto_heal_action `{Runtime} (env : Env) (instance_id : value)
    : io unit :=
  try_io (request (PutItem AUTO_HEAL_TABLE instance_id) (put_item env))
    (fun _ => mret tt).

Definition _trigger_verification (env : Env)
    (instance_id target_group_arn : value) (result : Result) : io unit :=
  try_io
    (request
       (PutEvents "auto-heal.auto-heal" "Auto-Heal Complete"
          {[ "instance_id" := instance_id;
             "target_group_arn" := target_group_arn;
             "action" := VStr (action result) ]})
       (put_events env))
    (fun _ => mret tt).

(** [should_replace_instance(diagnostic_score, repair_attempts)] on the
    entry of the event: its first comparison raises [TypeError] when the
    entry is not a number. *)
Definition should_replace_instance (diagnostic_score : value)
    (repair_attempts : Z) : result bool :=
  match as_number diagnostic_score with
  | Some score => Ok (Helpers.should_replace_instance score repair_attempts)
  | None => Raise TypeError
  end.

Definition lambda_handler `{Runtime} (env : Env) (event : Event)
    : io (Response Result) :=
  instance_id ← lift (_extract_instance_id event);
  let target_group_arn := get (fields event) "target_group_arn" (VStr EmptyString) in
  let diagnostic_score := get (fields event) "diagnostic_score" (VNum 100) in
  let classification := get (fields event) "classification" (VStr "Unknown State") in
  if negb (truthy instance_id) then
    mret {| statusCode := 400; body := inl "Missing instance_id" |}
  else
    let instance_config := _get_instance_config env in
    if truthy (get instance_config "skip_recovery" (VBool false)) then
      mret {| statusCode := 200; body := inl "Recovery skipped per configuration" |}
    else if _is_in_cooldown env instance_config then
      mret {| statusCode := 200; body := inl "Instance in cooldown period" |}
    else
      let repair_attempts := _get_repair_attempts env in
      should_replace ← lift (should_replace_instance diagnostic_score repair_attempts);
      result ←
        (if should_replace : bool
         then _replace_instance env instance_id target_group_arn
         else _repair_instance env instance_id target_group_arn classification);
      _record_auto_heal_action env instance_id;;
      (if success result
       then _trigger_verification env instance_id target_group_arn result
       else mret tt);;
      mret {| statusCode := 200; body := inr result |}.

End AutoHeal.

(** ** [lambda/verify/handler.py] *)

Module Verify.

(** What AWS answers during one invocation, one field for each place a
    request is made from.  [_wait_for_instance_ready] polls EC2 against the
    clock; whether it returns or raises is taken from the environment. *)
Record Env : Type := {
  wait_for_instance_ready : result unit;
  (** the [InstanceInformationList] *)
  describe_instance_information : result (list dict);
  (** the first instance of the first of the [Reservations], when there is
      one: in [_check_app_health_endpoint], in [_simulate_lb_health_check] *)
  app_describe_instances : result (option dict);
  lb_describe_instances : result (option dict);
  (** the [CommandId] and the invocation of the command of each check *)
  app_send_command : result value;
  app_get_command_invocation : result dict;
  resource_send_command : result value;
  resource_get_command_invocation : result dict;
  log_send_command : result value;
  log_get_command_invocation : result dict;
  (** the [TargetGroups] *)
  describe_target_groups : result (list dict);
  register_targets : result unit;
  put_item : result unit;
  publish : result unit
}.

Definition VERIFICATION_TABLE `{Runtime} : string :=
  environ_get "VERIFICATION_TABLE" "VerificationHistory".

(** The characters [str.strip] removes, among the ASCII ones. *)
Definition isspace (c : ascii) : bool :=
  let n := nat_of_ascii c in
  ((9 <=? n) && (n <=? 13) || (28 <=? n) && (n <=? 32))%nat.

Fixpoint lstrip (s : string) : string :=
  match s with
  | String c s' => if isspace c then lstrip s' else s
  | EmptyString => EmptyString
  end.

Fixpoint rstrip (s : string) : string :=
  match s with
  | String c s' =>
      match rstrip s' with
      | EmptyString => if isspace c then EmptyString else String c EmptyString
      | rest => String c rest
      end
  | EmptyString => EmptyString
  end.

(** [s.strip()] *)
Definition strip (s : string) : string := rstrip (lstrip s).

(** [s.split('\n')] *)
Fixpoint split_lines (s : string) : list string :=
  match s with
  | EmptyString => [EmptyString]
  | String c s' =>
      if Ascii.eqb c "010"%char then EmptyString :: split_lines s'
      else
        match split_lines s' with
        | line :: lines => String c line :: lines
        | [] => [String c EmptyString]
        end
  end.

(** [s.startswith('2')] *)
Definition startswith2 (s : string) : bool :=
  match s with
  | String c _ => Ascii.eqb c "2"%char
  | EmptyString => false
  end.

(** A method of [str] called on a dictionary value. *)
Definition as_str (v : value) : result string :=
  match v with
  | VStr s => Ok s
  | _ => Raise AttributeError
  end.

(** The dictionary a check returns. *)
Record CheckResult : Type := {
  check : string;
  passed : bool;
  message : text;
  cpu_usage : option number;
  memory_usage : option number
}.

Definition outcome (name : string) (ok : bool) (msg : text) : CheckResult :=
  {| check := name; passed := ok; message := msg;
     cpu_usage := None; memory_usage := None |}.

Definition exn_value (e : exn) : value :=
  match e with
  | TypeError => VStr "TypeError"
  | ValueError => VStr "ValueError"
  | KeyError => VStr "KeyError"
  | IndexError => VStr "IndexError"
  | AttributeError => VStr "AttributeError"
  | ClientError msg => VStr msg
  end.

(** The [try] block of [_check_ssm_online]. *)
Definition ssm_online_probe (env : Env) : io CheckResult :=
  instance_info ← lift (describe_instance_information env);
  match instance_info with
  | info :: _ =>
      let ping_status := get info "PingStatus" (VStr EmptyString) in
      if py_eqb ping_status (VStr "Online") then
        mret (outcome "ssm_online" true (literal "SSM agent is online"))
      else
        mret (outcome "ssm_online" false
                (fstring "SSM agent status: {}" [ping_status]))
  | [] => mret (outcome "ssm_online" false (literal "SSM agent not found"))
  end.

Definition _check_ssm_online (env : Env) : io CheckResult :=
  try_io (ssm_online_probe env)
    (fun e => mret (outcome "ssm_online" false
                      (fstring "Error checking SSM: {}" [exn_value e]))).

(** The [try] block of [_check_app_health_endpoint]. *)
Definition app_health_probe (env : Env) (instance_id : value) : io CheckResult :=
  reservation ← lift (app_describe_instances env);
  match reservation with
  | None => mret (outcome "app_health" false (literal "Instance not found"))
  | Some instance =>
      let private_ip := get instance "PrivateIpAddress" (VStr EmptyString) in
      if negb (truthy private_ip) then
        mret (outcome "app_health" false (literal "No private IP found"))
      else
        command_id ← request (SendCommand instance_id) (app_send_command env);
        try_io
          (cmd_result ← lift (app_get_command_invocation env);
           output ← lift (strip <$>
                      as_str (get cmd_result "StandardOutputContent" (VStr EmptyString)));
           if String.eqb output "200" || startswith2 output then
             mret (outcome "app_health" true
                     (fstring "Health endpoint returned {}" [VStr output]))
           else
             mret (outcome "app_health" false
                     (fstring "Health endpoint returned {}" [VStr output])))
          (fun e => mret (outcome "app_health" false
                            (fstring "Error getting command result: {}" [exn_value e])))
  end.

Definition _check_app_health_endpoint (env : Env) (instance_id : value)
    : io CheckResult :=
  try_io (app_health_probe env instance_id)
    (fun e => mret (outcome "app_health" false
                      (fstring "Error checking app health: {}" [exn_value e]))).

(** The [try] block of [_check_resource_usage]. *)
Definition resource_usage_probe `{Runtime} (env : Env) (instance_id : value)
    : io CheckResult :=
  command_id ← request (SendCommand instance_id) (resource_send_command env);
  cmd_result ← lift (resource_get_command_invocation env);
  output ← lift (strip <$>
             as_str (get cmd_result "StandardOutputContent" (VStr EmptyString)));
  match split_lines output with
  | line0 :: line1 :: _ =>
      cpu ← lift (float (strip line0));
      memory ← lift (float (strip line1));
      if num_ltb cpu 90 && num_ltb memory 90 then
        mret {| check := "resource_usage"; passed := true;
                message := fstring "CPU: {}%, Memory: {}%" [VNum cpu; VNum memory];
                cpu_usage := Some cpu; memory_usage := Some memory |}
      else
        mret {| check := "resource_usage"; passed := false;
                message := fstring "High resource usage - CPU: {}%, Memory: {}%"
                             [VNum cpu; VNum memory];
                cpu_usage := Some cpu; memory_usage := Some memory |}
  | _ => mret (outcome "resource_usage" false (literal EmptyString))
  end.

Definition _check_resource_usage `{Runtime} (env : Env) (instance_id : value)
    : io CheckResult :=
  try_io (resource_usage_probe env instance_id)
    (fun e => mret (outcome "resource_usage" false
                      (fstring "Error checking resource usage: {}" [exn_value e]))).

(** The [try] block of [_check_log_anomalies]. *)
Definition log_anomalies_probe `{Runtime} (env : Env) (instance_id : value)
    : io CheckResult :=
  command_id ← request (SendCommand instance_id) (log_send_command env);
  cmd_result ← lift (log_get_command_invocation env);
  output ← lift (strip <$>
             as_str (get cmd_result "StandardOutputContent" (VStr "0")));
  error_count ← lift (parse_int output);
  if error_count <? 10 then
    mret (outcome "log_anomalies" true
            (fstring "Found {} recent errors (acceptable)" [VNum error_count]))
  else
    mret (outcome "log_anomalies" false
            (fstring "Found {} recent errors (high)" [VNum error_count])).

(** If the logs cannot be checked, the check counts as passed. *)
Definition _check_log_anomalies `{Runtime} (env : Env) (instance_id : value)
    : io CheckResult :=
  try_io (log_anomalies_probe env instance_id)
    (fun e => mret (outcome "log_anomalies" true
                      (fstring "Could not check logs: {}" [exn_value e]))).

(** The [try] block of [_simulate_lb_health_check]. *)
Definition lb_health_probe (env : Env) : io CheckResult :=
  target_groups ← lift (describe_target_groups env);
  tg ← lift (from_option Ok (Raise IndexError) (head target_groups));
  reservation ← lift (lb_describe_instances env);
  match reservation with
  | None =>
      mret (outcome "lb_health_simulation" false (literal "Instance not found"))
  | Some instance =>
      mret (outcome "lb_health_simulation" true
              (literal "LB health check simulation passed"))
  end.

Definition _simulate_lb_health_check (env : Env) : io CheckResult :=
  try_io (lb_health_probe env)
    (fun e => mret (outcome "lb_health_simulation" false
                      (fstring "Error simulating LB health check: {}" [exn_value e]))).

(** The dictionary [_run_verification_checks] returns. *)
Record Verification : Type := {
  all_checks_passed : bool;
  checks : gmap string CheckResult;
  failed_checks : list string
}.

(** [checks['checks'][name] = result], and [name] appended to the failed
    checks unless the result passed. *)
Definition record_check (name : string) (result : CheckResult)
    (v : Verification) : Verification :=
  {| all_checks_passed := all_checks_passed v;
     checks := <[name := result]> (checks v);
     failed_checks :=
       if negb (passed result) then failed_checks v ++ [name]
       else failed_checks v |}.

Definition _run_verification_checks `{Runtime} (env : Env) (instance_id : value)
    : io Verification :=
  let v := {| all_checks_passed := false; checks := ∅; failed_checks := [] |} in
  ssm_online ← _check_ssm_online env;
  let v := record_check "ssm_online" ssm_online v in
  app_health ← _check_app_health_endpoint env instance_id;
  let v := record_check "app_health" app_health v in
  resource_usage ← _check_resource_usage env instance_id;
  let v := record_check "resource_usage" resource_usage v in
  log_anomalies ← _check_log_anomalies env instance_id;
  let v := record_check "log_anomalies" log_anomalies v in
  lb_health_simulation ← _simulate_lb_health_check env;
  let v := record_check "lb_health_simulation" lb_health_simulation v in
  mret {| all_checks_passed := Nat.eqb (length (failed_checks v)) 0;
          checks := checks v;
          failed_checks := failed_checks v |}.

Definition _store_verification_result `{Runtime} (env : Env) (instance_id : value)
    : io unit :=
  try_io (request (PutItem VERIFICATION_TABLE instance_id) (put_item env))
    (fun _ => mret tt).

(** A failure to register is logged and raised again. *)
Definition _reregister_target (env : Env) (instance_id target_group_arn : value)
    : io unit :=
  request (RegisterTargets target_group_arn instance_id) (register_targets env).

Definition _send_verification_notification `{Runtime} (env : Env)
    (instance_id : value) : io unit :=
  let topic_arn := environ_get "SNS_TOPIC_ARN" EmptyString in
  if String.eqb topic_arn EmptyString then mret tt
  else
    try_io (request (Publish topic_arn instance_id) (publish env))
      (fun _ => mret tt).

Definition lambda_handler `{Runtime} (env : Env) (event : Event)
    : io (Response Verification) :=
  instance_id ← lift (_extract_instance_id event);
  let target_group_arn := get (fields event) "target_group_arn" (VStr EmptyString) in
  let action := get (fields event) "action" (VStr "repair") in
  if negb (truthy instance_id) then
    mret {| statusCode := 400; body := inl "Missing instance_id" |}
  else
    (if py_eqb action (VStr "replace")
     then lift (wait_for_instance_ready env)
     else mret tt);;
    verification_result ← _run_verification_checks env instance_id;
    _store_verification_result env instance_id;;
    (if all_checks_passed verification_result
     then _reregister_target env instance_id target_group_arn
     else mret tt);;
    _send_verification_notification env instance_id;;
    mret {| statusCode := 200; body := inr verification_result |}.

End Verify.

(** ** Notions the properties are stated with *)

Import RepairPriority.

(** [PRIORITY_MAP.get(classification, FailurePriority.UNKNOWN)] *)
Definition base_priority (classification : string) : FailurePriority :=
  default UNKNOWN (PRIORITY_MAP !! classification).

(** The member of [FailurePriority] an integer stands for. *)
Definition of_int (n : Z) : FailurePriority :=
  if n =? 1 then CRITICAL
  else if n =? 2 then HIGH
  else if n =? 3 then MEDIUM
  else if n =? 4 then LOW
  else UNKNOWN.

(** The rank of a priority in the order of urgency
    CRITICAL < HIGH < MEDIUM < LOW < UNKNOWN: the lower, the more urgent. *)
Definition urgency (p : FailurePriority) : nat :=
  match p with
  | CRITICAL => 0
  | HIGH => 1
  | MEDIUM => 2
  | LOW => 3
  | UNKNOWN => 4
  end.

(** The more urgent of two priorities. *)
Definition more_urgent (a b : FailurePriority) : FailurePriority :=
  if (urgency b <? urgency a)%nat then b else a.

(** A condition of the penalty table holds when its entry is present and
    true. *)
Definition flag (d : dict) (key : string) : bool :=
  truthy (get d key (VBool false)).

(** The penalty for a usage: 20 above 90, 10 above 80 and up to 90. *)
Definition usage_penalty (usage : number) : Z :=
  (if num_ltb 90 usage then 20 else 0) +
  (if num_ltb 80 usage && num_leb usage 90 then 10 else 0).

(** The sum of the penalties that apply to a report with the given CPU and
    memory usage. *)
Definition penalties (d : dict) (cpu memory : number) : Z :=
  (if flag d "application_failure" then 40 else 0) +
  usage_penalty cpu +
  usage_penalty memory +
  (if flag d "disk_corruption" then 30 else 0) +
  (if flag d "network_degradation" then 15 else 0) +
  (if flag d "ssm_agent_failure" then 25 else 0) +
  (if flag d "cloudwatch_agent_failure" then 10 else 0).

(** The flags of a report in their order of precedence, each with the
    classification it stands for. *)
Definition precedence : list (string * string) :=
  [("application_failure", "Application Failure");
   ("disk_corruption", "Disk Corruption");
   ("os_level_failure", "OS-level Failure");
   ("network_degradation", "Network Degradation");
   ("agent_failure", "Agent Failure");
   ("resource_bottleneck", "Resource Bottleneck");
   ("unknown_state", "Unknown State")].

(** A flag is set when its entry is present and true. *)
Definition is_set (d : dict) (key : string) : bool :=
  truthy (get d key VNone).

(** The classification of the first flag that is set, Unknown State when
    there is none. *)
Definition first_match (d : dict) : string :=
  match List.find (fun entry => is_set d entry.1) precedence with
  | Some entry => entry.2
  | None => "Unknown State"
  end.

(** The states of a health history, read under [key]. *)
Definition states_of (key : string) (dflt : value) (history : list dict)
    : list value :=
  map (fun item => get item key dflt) history.

(** The number of transitions: adjacent samples whose states differ. *)
Fixpoint transitions (states : list value) : nat :=
  match states with
  | prev :: (curr :: _) as rest =>
      (if py_eqb prev curr then 0 else 1) + transitions rest
  | _ => 0
  end.

(** The state changes from every sample to the next. *)
Fixpoint alternating (states : list value) : Prop :=
  match states with
  | prev :: (curr :: _) as rest => py_eqb prev curr = false ∧ alternating rest
  | _ => True
  end.

(** The payload of the response of a run, when it returned one. *)
Definition payload {A : Type} (r : result (Response A) * list call) : option A :=
  match r.1 with
  | Ok response =>
      match body response with
      | inr a => Some a
      | inl _ => None
      end
  | Raise _ => None
  end.

(** The requests a run issued, in order. *)
Definition requests {A : Type} (r : result A * list call) : list call := r.2.

(** The event the diagnostics handler sends to start auto-heal. *)
Definition trigger (id tg : value) (c : string) (score : Q) : call :=
  PutEvents "auto-heal.diagnostics" "Diagnostics Complete"
    {[ "instance_id" := id;
       "target_group_arn" := tg;
       "classification" := VStr c;
       "diagnostic_score" := VNum (Fin score) ]}.


(** The result of [try: body except Exception as e: return h(e)]. *)
Definition recovered {A : Type} (body : io A) (h : exn → A) : A :=
  match body.1 with
  | Ok a => a
  | Raise e => h e
  end.

(** The verification that results from the five checks. *)
Definition summary (c1 c2 c3 c4 c5 : Verify.CheckResult) : Verify.Verification :=
  let failed :=
    (if Verify.passed c1 then [] else ["ssm_online"]) ++
    (if Verify.passed c2 then [] else ["app_health"]) ++
    (if Verify.passed c3 then [] else ["resource_usage"]) ++
    (if Verify.passed c4 then [] else ["log_anomalies"]) ++
    (if Verify.passed c5 then [] else ["lb_health_simulation"]) in
  {| Verify.all_checks_passed := Nat.eqb (length failed) 0;
     Verify.checks :=
       <["lb_health_simulation" := c5]>
         (<["log_anomalies" := c4]>
            (<["resource_usage" := c3]>
               (<["app_health" := c2]> (<["ssm_online" := c1]> ∅))));
     Verify.failed_checks := failed |}.

Definition is_send_command (c : call) : Prop :=
  match c with
  | SendCommand _ => True
  | _ => False
  end.

(** *** Concrete invocations of the handlers *)


Module Scenario.

(** No environment variable is set; the parsers are not called. *)
Definition runtime : Runtime :=
  {| json_loads := fun _ => Raise ValueError;
     fromisoformat := fun _ => Raise ValueError;
     float := fun _ => Raise ValueError;
     parse_int := fun _ => Raise ValueError;
     environ := ∅ |}.

(** Every request succeeds; the instance has no configuration item and no
    recorded action, and belongs to an Auto Scaling group. *)
Definition aws : AutoHeal.Env :=
  {| AutoHeal.utcnow := 0;
     AutoHeal.get_item := Ok None;
     AutoHeal.query_last_action := Ok [];
     AutoHeal.query_repairs := Ok [];
     AutoHeal.deregister_targets := Ok tt;
     AutoHeal.start_automation_execution := Ok (VStr "exec-1");
     AutoHeal.describe_auto_scaling_instances :=
       Ok [{[ "AutoScalingGroupName" := VStr "web-asg" ]}];
     AutoHeal.describe_auto_scaling_groups :=
       Ok [{| AutoHeal.MinSize := 1; AutoHeal.DesiredCapacity := 2 |}];
     AutoHeal.terminate_instances := Ok tt;
     AutoHeal.set_desired_capacity := Ok tt;
     AutoHeal.put_item := Ok tt;
     AutoHeal.put_events := Ok tt |}.

(** The event for instance [i-0abc] with the given score and classification. *)
Definition event (score : Z) (classification : string) : Event :=
  {| fields :=
       {[ "instance_id" := VStr "i-0abc";
          "target_group_arn" := VStr "tg-web";
          "diagnostic_score" := VNum score;
          "classification" := VStr classification ]};
     detail := None |}.

(** The diagnostics found an application failure. *)
Definition diagnosed : Diagnostics.Env :=
  {| Diagnostics.run_ssm_diagnostics :=
       {[ "application_failure" := VBool true; "agent_failure" := VBool false ]};
     Diagnostics.put_item := Ok tt;
     Diagnostics.put_events := Ok tt |}.

(** The instance is online and answers its health endpoint with 200; CPU
    and memory usage cannot be parsed unless [float] is given, and the
    command that counts the errors in the log cannot be sent. *)
Definition logs_unreachable : Verify.Env :=
  {| Verify.wait_for_instance_ready := Ok tt;
     Verify.describe_instance_information :=
       Ok [{[ "PingStatus" := VStr "Online" ]}];
     Verify.app_describe_instances :=
       Ok (Some {[ "PrivateIpAddress" := VStr "10.0.0.7" ]});
     Verify.lb_describe_instances :=
       Ok (Some {[ "PrivateIpAddress" := VStr "10.0.0.7" ]});
     Verify.app_send_command := Ok (VStr "cmd-1");
     Verify.app_get_command_invocation :=
       Ok {[ "StandardOutputContent" := VStr "200" ]};
     Verify.resource_send_command := Ok (VStr "cmd-2");
     Verify.resource_get_command_invocation :=
       Ok {[ "StandardOutputContent" := VStr ("12.5" +:+ String "010"%char "40.25") ]};
     Verify.log_send_command := Raise (ClientError "ThrottlingException");
     Verify.log_get_command_invocation := Raise (ClientError "InvocationDoesNotExist");
     Verify.describe_target_groups := Ok [{[ "HealthCheckPath" := VStr "/health" ]}];
     Verify.register_targets := Ok tt;
     Verify.put_item := Ok tt;
     Verify.publish := Ok tt |}.


(** The event that asks for the verification of instance [i-0abc] after a
    repair. *)
Definition repaired : Event :=
  {| fields :=
       {[ "instance_id" := VStr "i-0abc";
          "target_group_arn" := VStr "tg-web";
          "action" := VStr "repair" ]};
     detail := None |}.

(** A runtime whose [float] reads the two usages above. *)
Definition runtime_with_float : Runtime :=
  {| json_loads := fun _ => Raise ValueError;
     fromisoformat := fun _ => Raise ValueError;
     float := fun s =>
       if String.eqb s "12.5" then Ok (Fin (25 # 2))
       else if String.eqb s "40.25" then Ok (Fin (161 # 4))
       else Raise ValueError;
     parse_int := fun _ => Raise ValueError;
     environ := ∅ |}.

End Scenario.

(** ** More of [lambda/utils/helpers.py] *)

Module Metrics.

(** [s.split(sep)], for a separator of one character *)
Fixpoint split (sep : ascii) (s : string) : list string :=
  match s with
  | EmptyString => [EmptyString]
  | String c s' =>
      if Ascii.eqb c sep then EmptyString :: split sep s'
      else
        match split sep s' with
        | part :: parts => String c part :: parts
        | [] => [String c EmptyString]
        end
  end.

(** [get_env_var(key, default)]: the default is [None] when not given. *)
Definition get_env_var `{Runtime} (key : string) (dflt : option string)
    : result string :=
  let value := match environ !! key with Some v => Some v | None => dflt end in
  match value with
  | None => Raise ValueError
  | Some v => Ok v
  end.

(** [parts[i]] *)
Definition item (parts : list string) (i : nat) : result string :=
  from_option Ok (Raise IndexError) (parts !! i).

Definition parse_target_arn (target_arn : string) : result (gmap string string) :=
  let parts := split ":" target_arn in
  region ← item parts 3;
  account_id ← item parts 4;
  target_group ←
    (fun part => List.last (split "/" part) EmptyString) <$> item parts 5;
  target_id ← item parts 6;
  Ok {[ "region" := region;
        "account_id" := account_id;
        "target_group" := target_group;
        "target_id" := target_id ]}.

(** What CloudWatch answers to the four [get_metric_statistics] requests of
    [get_target_health_metrics]: the [Datapoints]. *)
Record CloudWatch : Type := {
  UnHealthyHostCount : result (list dict);
  HealthyHostCount : result (list dict);
  TargetResponseTime : result (list dict);
  HTTPCode_Target_5XX_Count : result (list dict)
}.

(** One [try] block of [get_target_health_metrics]: the datapoints under
    [name], or the text of the exception under [name_error]. *)
Definition metric (name : string) (answer : result (list dict))
    (metrics : gmap string (list dict + value)) : gmap string (list dict + value) :=
  match answer with
  | Ok datapoints => <[name := inl datapoints]> metrics
  | Raise e => <[name +:+ "_error" := inr (Verify.exn_value e)]> metrics
  end.

Definition get_target_health_metrics (cw : CloudWatch)
    : gmap string (list dict + value) :=
  let metrics := ∅ in
  let metrics := metric "unhealthy_host_count" (UnHealthyHostCount cw) metrics in
  let metrics := metric "healthy_host_count" (HealthyHostCount cw) metrics in
  let metrics := metric "target_response_time" (TargetResponseTime cw) metrics in
  let metrics := metric "http_5xx_count" (HTTPCode_Target_5XX_Count cw) metrics in
  metrics.

End Metrics.

(** ** Strings *)

Module Text.

(** [c.lower()], for the ASCII letters *)
Definition lower_char (c : ascii) : ascii :=
  let n := nat_of_ascii c in
  if ((65 <=? n) && (n <=? 90))%nat then ascii_of_nat (n + 32) else c.

(** [s.lower()] *)
Fixpoint lower (s : string) : string :=
  match s with
  | EmptyString => EmptyString
  | String c s' => String (lower_char c) (lower s')
  end.

(** [needle in s] *)
Fixpoint contains (needle s : string) : bool :=
  String.prefix needle s ||
  match s with
  | EmptyString => false
  | String _ s' => contains needle s'
  end.

End Text.

(** ** More of [lambda/diagnostics/handler.py] *)

Module Probes.

(** The first instance [describe_instances] answers with. *)
Record Instance : Type := {
  (** [instance.get('State', {})] *)
  State : dict;
  (** its other entries *)
  attributes : dict
}.

(** What AWS answers while [_run_ssm_diagnostics] runs, and the clock. *)
Record Env : Type := {
  (** [datetime.utcnow().isoformat() + 'Z'] *)
  timestamp : string;
  (** the [InstanceInformationList] *)
  describe_instance_information : result (list dict);
  (** the first instance of the first of the [Reservations], when there is
      one *)
  describe_instances : result (option Instance);
  (** the [AutomationExecutionId], [None] when the answer has none *)
  start_automation_execution : result value;
  (** the [CommandId] of the fallback command, [None] when the answer has
      none *)
  fallback_send_command : result value;
  get_command_invocation : result dict;
  (** the answers to the commands of the four checks *)
  service_send_command : result value;
  resource_send_command : result value;
  network_send_command : result value;
  logs_send_command : result value
}.

Definition _execute_ssm_command (env : Env) : value :=
  try_except
    (start_automation_execution env)
    (fun _ => try_except (fallback_send_command env) (fun _ => VNone)).

Definition _get_ssm_command_results (env : Env) : dict :=
  let results : dict := ∅ in
  match get_command_invocation env with
  | Raise _ => results
  | Ok response =>
      let status := get response "Status" (VStr EmptyString) in
      let output := get response "StandardOutputContent" (VStr EmptyString) in
      let results := <["ssm_command_status" := status]> results in
      let results := <["ssm_command_output" := output]> results in
      match output with
      | VStr text =>
          if Text.contains "error" (Text.lower text)
             || py_eqb status (VStr "Failed")
          then <["application_failure" := VBool true]> results
          else results
      | _ => results
      end
  end.

(** [_check_service_status], [_check_resource_usage], [_check_network_stats]
    and [_check_logs]: each sends one command and reports that it did, or
    the text of the exception. *)
Definition initiated (name : string) (answer : result value) : dict :=
  match answer with
  | Ok _ => {[ name +:+ "_check_initiated" := VBool true ]}
  | Raise e => {[ name +:+ "_check_error" := Verify.exn_value e ]}
  end.

Definition _check_service_status (env : Env) : dict :=
  initiated "service" (service_send_command env).

Definition _check_resource_usage (env : Env) : dict :=
  initiated "resource" (resource_send_command env).

Definition _check_network_stats (env : Env) : dict :=
  initiated "network" (network_send_command env).

Definition _check_logs (env : Env) : dict :=
  initiated "log" (logs_send_command env).

(** [d.update(new)] *)
Definition update (d new : dict) : dict := new ∪ d.

(** The [except] branch of [_run_ssm_diagnostics]. *)
Definition failed (e : exn) (diagnostics : dict) : dict :=
  <["unknown_state" := VBool true]>
    (<["error" := Verify.exn_value e]> diagnostics).

Definition _run_ssm_diagnostics (env : Env) (instance_id : value) : dict :=
  let diagnostics : dict :=
    {[ "instance_id" := instance_id;
       "timestamp" := VStr (timestamp env);
       "ssm_available" := VBool false;
       "application_failure" := VBool false;
       "resource_bottleneck" := VBool false;
       "agent_failure" := VBool false;
       "os_level_failure" := VBool false;
       "network_degradation" := VBool false;
       "disk_corruption" := VBool false;
       "unknown_state" := VBool false ]} in
  match describe_instance_information env with
  | Raise e => failed e diagnostics
  | Ok [] =>
      <["unknown_state" := VBool true]>
        (<["agent_failure" := VBool true]>
           (<["ssm_available" := VBool false]> diagnostics))
  | Ok (_ :: _) =>
      let diagnostics := <["ssm_available" := VBool true]> diagnostics in
      match describe_instances env with
      | Raise e => failed e diagnostics
      | Ok reservation =>
          let diagnostics :=
            match reservation with
            | Some instance =>
                <["instance_type" :=
                    get (attributes instance) "InstanceType" (VStr EmptyString)]>
                  (<["instance_state" :=
                       get (State instance) "Name" (VStr EmptyString)]>
                     diagnostics)
            | None => diagnostics
            end in
          let command_id := _execute_ssm_command env in
          let diagnostics :=
            if truthy command_id
            then update diagnostics (_get_ssm_command_results env)
            else diagnostics in
          let diagnostics := update diagnostics (_check_service_status env) in
          let diagnostics := update diagnostics (_check_resource_usage env) in
          let diagnostics := update diagnostics (_check_network_stats env) in
          let diagnostics := update diagnostics (_check_logs env) in
          diagnostics
      end
  end.

(** The environment of the handler when the diagnostics are gathered by
    [_run_ssm_diagnostics]. *)
Definition handler_env (env : Env) (instance_id : value)
    (put_item put_events : result unit) : Diagnostics.Env :=
  {| Diagnostics.run_ssm_diagnostics := _run_ssm_diagnostics env instance_id;
     Diagnostics.put_item := put_item;
     Diagnostics.put_events := put_events |}.

End Probes.

(** ** More of [lambda/target_monitor/handler.py] *)

Module Monitor.

(** An entry of [TargetHealthDescriptions]. *)
Record TargetDescription : Type := {
  (** [target.get('Target', {})] *)
  Target : dict;
  (** [target.get('TargetHealth', {})] *)
  TargetHealth : dict
}.

(** What AWS answers while one target group is monitored.  The targets are
    numbered from 0 in the order of the answer.
    [_check_aggregate_metrics] compares CloudWatch datapoints, which are
    floats, and catches its exceptions; whether it reports an issue, and
    with which count and percentage, is taken from the environment. *)
Record GroupEnv : Type := {
  (** the [TargetHealthDescriptions] *)
  describe_target_health : result (list TargetDescription);
  (** the answer to the [put_item] for each target *)
  put_item : nat → result unit;
  (** the answer to the query for the health events of each target *)
  health_events : nat → TargetMonitor.Env;
  (** [unhealthy_count] and [percentage] of the issue
      [_check_aggregate_metrics] reports, when it reports one *)
  aggregate : option (value * value)
}.

(** The event of the target monitor. *)
Record MonitorEvent : Type := {
  (** [event['target_groups']], when present *)
  target_groups : option (list value);
  (** [event.get('source')] *)
  source : value;
  (** [event.get('detail', {}).get('configuration', {}).get('dimensions', [])] *)
  dimensions : list dict
}.

(** What AWS answers during one invocation: for each target group, numbered
    from 0 in the order they are monitored, and for each event sent. *)
Record Env : Type := {
  group : nat → GroupEnv;
  put_events : nat → result unit
}.

Definition TARGET_HEALTH_TABLE `{Runtime} : string :=
  environ_get "TARGET_HEALTH_TABLE" "TargetHealthEvents".

Definition EVENT_BUS_NAME `{Runtime} : string :=
  environ_get "EVENT_BUS_NAME" "default".

Definition _get_target_groups `{Runtime} (event : MonitorEvent) : list value :=
  match target_groups event with
  | Some groups => groups
  | None =>
      let env_tgs := environ_get "TARGET_GROUP_ARNS" EmptyString in
      if negb (String.eqb env_tgs EmptyString) then
        map (fun tg => VStr (Verify.strip tg)) (Metrics.split "," env_tgs)
      else if py_eqb (source event) (VStr "aws.cloudwatch") then
        match
          List.find (fun dim => py_eqb (get dim "name" VNone) (VStr "TargetGroup"))
            (dimensions event)
        with
        | Some dim => [get dim "value" VNone]
        | None => []
        end
      else []
  end.

Definition _record_health_event `{Runtime} (answer : result unit)
    (instance_id : value) : io unit :=
  try_io (request (PutItem TARGET_HEALTH_TABLE instance_id) answer)
    (fun _ => mret tt).

(** [needle in v]: [v] must be a string. *)
Definition contains_in (needle : string) (v : value) : result bool :=
  match v with
  | VStr s => Ok (Text.contains needle s)
  | _ => Raise TypeError
  end.

(** [needle in v.lower()]: [v] must be a string. *)
Definition contains_in_lower (needle : string) (v : value) : result bool :=
  match v with
  | VStr s => Ok (Text.contains needle (Text.lower s))
  | _ => Raise AttributeError
  end.

(** An issue; its [timestamp], read from the clock, is left out. *)
Definition issue (target_group_arn : value) (issue_type : string)
    (entries : dict) : dict :=
  <["target_group_arn" := target_group_arn]>
    (<["issue_type" := VStr issue_type]> entries).

(** The [if]/[elif] chain on the state of a target: the issues it appends. *)
Definition state_issues (target_group_arn instance_id state reason description : value)
    : result (list dict) :=
  if py_eqb state (VStr "unhealthy") then
    Ok [issue target_group_arn "unhealthy_target"
          {[ "instance_id" := instance_id; "state" := state;
             "reason" := reason; "description" := description ]}]
  else
    unused ←
      (if py_eqb state (VStr "unused") then contains_in "NotInUse" reason
       else Ok false);
    if unused : bool then
      Ok [issue target_group_arn "unused_target"
            {[ "instance_id" := instance_id; "state" := state;
               "reason" := reason; "description" := description ]}]
    else
      degraded ←
        (if py_eqb state (VStr "draining") then Ok true
         else contains_in_lower "degraded" reason);
      if degraded : bool then
        Ok [issue target_group_arn "degraded_target"
              {[ "instance_id" := instance_id; "state" := state;
                 "reason" := reason ]}]
      else Ok [].

(** The flapping check on a target: the issues it appends. *)
Definition flapping_issues (target_group_arn instance_id state : value)
    (events : TargetMonitor.Env) : list dict :=
  if TargetMonitor._check_target_flapping events then
    [issue target_group_arn "flapping_target"
       {[ "instance_id" := instance_id; "state" := state ]}]
  else [].

(** The [for target in targets] loop from target number [i] on, with the
    issues found so far.  An exception ends the loop; the issues found by
    then are kept. *)
Fixpoint monitor_targets `{Runtime} (env : GroupEnv) (target_group_arn : value)
    (i : nat) (targets : list TargetDescription) (issues : list dict)
    : (list dict * result unit) * list call :=
  match targets with
  | [] => ((issues, Ok tt), [])
  | target :: rest =>
      let target_info := Target target in
      let health := TargetHealth target in
      let instance_id := get target_info "Id" VNone in
      let state := get health "State" (VStr EmptyString) in
      let reason := get health "Reason" (VStr EmptyString) in
      let description := get health "Description" (VStr EmptyString) in
      let recorded := (_record_health_event (put_item env i) instance_id).2 in
      match state_issues target_group_arn instance_id state reason description with
      | Raise e => ((issues, Raise e), recorded)
      | Ok found =>
          let issues := issues ++ found in
          let issues :=
            issues ++ flapping_issues target_group_arn instance_id state
                        (health_events env i) in
          let '((issues, outcome), t) :=
            monitor_targets env target_group_arn (S i) rest issues in
          ((issues, outcome), recorded ++ t)
      end
  end.

(** What [_check_aggregate_metrics] returns. *)
Definition _check_aggregate_metrics (env : GroupEnv) (target_group_arn : value)
    (targets : list TargetDescription) : list dict :=
  match aggregate env with
  | Some (max_unhealthy, unhealthy_percentage) =>
      [issue target_group_arn "high_unhealthy_percentage"
         {[ "unhealthy_count" := max_unhealthy;
            "total_targets" := VNum (Z.of_nat (length targets));
            "percentage" := unhealthy_percentage ]}]
  | None => []
  end.

(** The issues of a target group and the requests issued for it. *)
Definition _monitor_target_group `{Runtime} (env : GroupEnv)
    (target_group_arn : value) : list dict * list call :=
  match describe_target_health env with
  | Raise _ => ([], [])
  | Ok targets =>
      match monitor_targets env target_group_arn 0 targets [] with
      | ((issues, Ok _), t) =>
          (issues ++ _check_aggregate_metrics env target_group_arn targets, t)
      | ((issues, Raise _), t) => (issues, t)
      end
  end.

(** [issue.get('issue_type', 'target_health_issue')], the [DetailType] of
    the event; the issues built here have a string there. *)
Definition detail_type (an_issue : dict) : string :=
  match get an_issue "issue_type" (VStr "target_health_issue") with
  | VStr s => s
  | _ => EmptyString
  end.

Definition _send_issue_event (answer : result unit) (an_issue : dict) : io unit :=
  try_io
    (request (PutEvents "auto-heal.target-monitor" (detail_type an_issue) an_issue)
       answer)
    (fun _ => mret tt).

(** The first loop of [lambda_handler], from target group number [i] on. *)
Fixpoint monitor_groups `{Runtime} (env : Env) (i : nat) (groups : list value)
    : list dict * list call :=
  match groups with
  | [] => ([], [])
  | tg_arn :: rest =>
      let (issues, t) := _monitor_target_group (group env i) tg_arn in
      let (more, t') := monitor_groups env (S i) rest in
      (issues ++ more, t ++ t')
  end.

(** The second loop of [lambda_handler], from issue number [i] on. *)
Fixpoint send_issues (env : Env) (i : nat) (issues : list dict) : list call :=
  match issues with
  | [] => []
  | an_issue :: rest =>
      (_send_issue_event (put_events env i) an_issue).2 ++ send_issues env (S i) rest
  end.

(** The payload of the response of the monitor. *)
Record Summary : Type := {
  issues_detected : Z;
  issues : list dict
}.

Definition lambda_handler `{Runtime} (env : Env) (event : MonitorEvent)
    : io (Response Summary) :=
  let groups := _get_target_groups event in
  match groups with
  | [] => mret {| statusCode := 200; body := inl "No target groups to monitor" |}
  | _ =>
      let (found, t) := monitor_groups env 0 groups in
      (Ok {| statusCode := 200;
             body := inr {| issues_detected := Z.of_nat (length found);
                            issues := found |} |},
       t ++ send_issues env 0 found)
  end.

End Monitor.

(** ** More notions the properties are stated with *)

(** The number of occurrences of a character in a string. *)
Fixpoint count_char (c : ascii) (s : string) : nat :=
  match s with
  | EmptyString => 0
  | String c' s' => (if Ascii.eqb c' c then 1 else 0) + count_char c s'
  end.

(** The entries of [metrics] for a request: the datapoints of an answer, the
    text of an exception. *)
Definition reported (name : string) (answer : result (list dict))
    (metrics : gmap string (list dict + value)) : Prop :=
  match answer with
  | Ok datapoints =>
      metrics !! name = Some (inl datapoints) ∧
      metrics !! (name +:+ "_error") = None
  | Raise e =>
      metrics !! name = None ∧
      metrics !! (name +:+ "_error") = Some (inr (Verify.exn_value e))
  end.

(** The entries of a report that its score and classification are read
    from. *)
Definition finding_keys : list string :=
  ["application_failure"; "disk_corruption"; "os_level_failure";
   "network_degradation"; "agent_failure"; "resource_bottleneck";
   "unknown_state"; "cpu_usage"; "memory_usage"; "ssm_agent_failure";
   "cloudwatch_agent_failure"].

(** A report with the seven flags and nothing else: three as given, the
    others false. *)
Definition flags (application agent unknown : bool) : dict :=
  {[ "application_failure" := VBool application;
     "resource_bottleneck" := VBool false;
     "agent_failure" := VBool agent;
     "os_level_failure" := VBool false;
     "network_degradation" := VBool false;
     "disk_corruption" := VBool false;
     "unknown_state" := VBool unknown ]}.

(** Two reports agree on the entries the score and the classification are
    read from. *)
Definition same_findings (d d' : dict) : Prop :=
  ∀ key : string, key ∈ finding_keys → d !! key = d' !! key.

(** *** More concrete inputs *)

Module Examples.

(** The ARN of a target group, as the load balancer gives it. *)
Definition target_group_arn : string :=
  "arn:aws:elasticloadbalancing:us-east-1:123456789012:targetgroup/web/73e2d6bc24d8a067".

(** The instance is not registered with SSM. *)
Definition no_agent : Probes.Env :=
  {| Probes.timestamp := "2024-05-01T10:00:00Z";
     Probes.describe_instance_information := Ok [];
     Probes.describe_instances := Ok None;
     Probes.start_automation_execution := Ok (VStr "exec-1");
     Probes.fallback_send_command := Ok (VStr "cmd-1");
     Probes.get_command_invocation := Ok ∅;
     Probes.service_send_command := Ok VNone;
     Probes.resource_send_command := Ok VNone;
     Probes.network_send_command := Ok VNone;
     Probes.logs_send_command := Ok VNone |}.

End Examples.

(** ** Notions for the remediation, the verification and the monitor *)

(** The event that asks for the verification of an action. *)
Definition completed (id tg : value) (action : string) : call :=
  PutEvents "auto-heal.auto-heal" "Auto-Heal Complete"
    {[ "instance_id" := id; "target_group_arn" := tg; "action" := VStr action ]}.

(** The requests of a repair or a replacement. *)
Definition is_remediation (c : call) : bool :=
  match c with
  | DeregisterTargets _ _ | StartAutomationExecution _ _ _
  | TerminateInstances _ | SetDesiredCapacity _ _ => true
  | _ => false
  end.

Module Remediation.

(** As [Scenario.aws], with recovery switched off in the configuration of
    the instance. *)
Definition opted_out : AutoHeal.Env :=
  {| AutoHeal.utcnow := 0;
     AutoHeal.get_item := Ok (Some {[ "skip_recovery" := VBool true ]});
     AutoHeal.query_last_action := Ok [];
     AutoHeal.query_repairs := Ok [];
     AutoHeal.deregister_targets := Ok tt;
     AutoHeal.start_automation_execution := Ok (VStr "exec-1");
     AutoHeal.describe_auto_scaling_instances :=
       Ok [{[ "AutoScalingGroupName" := VStr "web-asg" ]}];
     AutoHeal.describe_auto_scaling_groups :=
       Ok [{| AutoHeal.MinSize := 1; AutoHeal.DesiredCapacity := 2 |}];
     AutoHeal.terminate_instances := Ok tt;
     AutoHeal.set_desired_capacity := Ok tt;
     AutoHeal.put_item := Ok tt;
     AutoHeal.put_events := Ok tt |}.



(** As [Scenario.aws], for an instance that belongs to no Auto Scaling
    group. *)
Definition no_group : AutoHeal.Env :=
  {| AutoHeal.utcnow := 0;
     AutoHeal.get_item := Ok None;
     AutoHeal.query_last_action := Ok [];
     AutoHeal.query_repairs := Ok [];
     AutoHeal.deregister_targets := Ok tt;
     AutoHeal.start_automation_execution := Ok (VStr "exec-1");
     AutoHeal.describe_auto_scaling_instances := Ok [];
     AutoHeal.describe_auto_scaling_groups := Ok [];
     AutoHeal.terminate_instances := Ok tt;
     AutoHeal.set_desired_capacity := Ok tt;
     AutoHeal.put_item := Ok tt;
     AutoHeal.put_events := Ok tt |}.

(** The event of [Scenario.event 5 "Application Failure"] as EventBridge
    delivers it: its entries are under [detail]. *)
Definition delivered : Event :=
  {| fields := {[ "source" := VStr "auto-heal.diagnostics" ]};
     detail :=
       Some (DetailDict
               {[ "instance_id" := VStr "i-0abc";
                  "target_group_arn" := VStr "tg-web";
                  "diagnostic_score" := VNum 5;
                  "classification" := VStr "Application Failure" ]}) |}.

(** An event that names no instance. *)
Definition anonymous : Event :=
  {| fields := {[ "target_group_arn" := VStr "tg-web" ]}; detail := None |}.

End Remediation.

(** The names of the verification checks, in the order they are run. *)
Definition check_names : list string :=
  ["ssm_online"; "app_health"; "resource_usage"; "log_anomalies";
   "lb_health_simulation"].

(** The notification of a verification: none unless [SNS_TOPIC_ARN] is set. *)
Definition notification `{Runtime} (id : value) : list call :=
  if String.eqb (environ_get "SNS_TOPIC_ARN" EmptyString) EmptyString then []
  else [Publish (environ_get "SNS_TOPIC_ARN" EmptyString) id].

Module Verified.

(** The event that asks for the verification of instance [i-0abc] after a
    replacement. *)
Definition replaced : Event :=
  {| fields :=
       {[ "instance_id" := VStr "i-0abc";
          "target_group_arn" := VStr "tg-web";
          "action" := VStr "replace" ]};
     detail := None |}.

(** As [Scenario.logs_unreachable], for an instance that does not come up
    and cannot be registered. *)
Definition not_ready : Verify.Env :=
  {| Verify.wait_for_instance_ready :=
       Raise (ClientError "Timeout waiting for instance to be ready");
     Verify.describe_instance_information :=
       Verify.describe_instance_information Scenario.logs_unreachable;
     Verify.app_describe_instances :=
       Verify.app_describe_instances Scenario.logs_unreachable;
     Verify.lb_describe_instances :=
       Verify.lb_describe_instances Scenario.logs_unreachable;
     Verify.app_send_command := Verify.app_send_command Scenario.logs_unreachable;
     Verify.app_get_command_invocation :=
       Verify.app_get_command_invocation Scenario.logs_unreachable;
     Verify.resource_send_command :=
       Verify.resource_send_command Scenario.logs_unreachable;
     Verify.resource_get_command_invocation :=
       Verify.resource_get_command_invocation Scenario.logs_unreachable;
     Verify.log_send_command := Verify.log_send_command Scenario.logs_unreachable;
     Verify.log_get_command_invocation :=
       Verify.log_get_command_invocation Scenario.logs_unreachable;
     Verify.describe_target_groups :=
       Verify.describe_target_groups Scenario.logs_unreachable;
     Verify.register_targets := Raise (ClientError "TargetGroupNotFound");
     Verify.put_item := Ok tt;
     Verify.publish := Ok tt |}.

End Verified.

(** The reason of the health of a target is a text, as [describe_target_health]
    gives it. *)
Definition reason_is_text (target : Monitor.TargetDescription) : Prop :=
  ∃ s : string,
    get (Monitor.TargetHealth target) "Reason" (VStr EmptyString) = VStr s.

(** The health event recorded for a target. *)
Definition health_event `{Runtime} (target : Monitor.TargetDescription) : call :=
  PutItem Monitor.TARGET_HEALTH_TABLE (get (Monitor.Target target) "Id" VNone).

(** The issue reported for an unhealthy target. *)
Definition unhealthy (target_group_arn : value)
    (target : Monitor.TargetDescription) : dict :=
  Monitor.issue target_group_arn "unhealthy_target"
    {[ "instance_id" := get (Monitor.Target target) "Id" VNone;
       "state" := get (Monitor.TargetHealth target) "State" (VStr EmptyString);
       "reason" := get (Monitor.TargetHealth target) "Reason" (VStr EmptyString);
       "description" :=
         get (Monitor.TargetHealth target) "Description" (VStr EmptyString) ]}.

(** The event sent for an issue. *)
Definition issue_event (an_issue : dict) : call :=
  PutEvents "auto-heal.target-monitor" (Monitor.detail_type an_issue) an_issue.

Definition is_put_item (c : call) : Prop :=
  match c with
  | PutItem _ _ => True
  | _ => False
  end.

Module Monitored.

(** A target that fails its health checks. *)
Definition failing : Monitor.TargetDescription :=
  {| Monitor.Target := {[ "Id" := VStr "i-0abc" ]};
     Monitor.TargetHealth :=
       {[ "State" := VStr "unhealthy";
          "Reason" := VStr "Target.FailedHealthChecks" ]} |}.

(** A target group with that target alone, with no recorded health events
    and no datapoints. *)
Definition one_failing : Monitor.GroupEnv :=
  {| Monitor.describe_target_health := Ok [failing];
     Monitor.put_item := fun _ => Ok tt;
     Monitor.health_events := fun _ => {| TargetMonitor.query := Ok [] |};
     Monitor.aggregate := None |}.

End Monitored.

(** ** Properties of [repair_priority.py] *)

Lemma Qltb_lt (x y : Q) : Qltb x y = true ↔ (x < y)%Q.
Proof. unfold Qltb, Qlt. apply Z.ltb_lt. Qed.

Lemma Qltb_ge (x y : Q) : Qltb x y = false ↔ (y <= x)%Q.
Proof. unfold Qltb, Qle. rewrite Z.ltb_ge. reflexivity. Qed.

Lemma num_leb_ltb (a b : number) : num_leb a b = true → num_ltb b a = false.
Proof.
  destruct a, b; simpl; try congruence.
  intros H. apply negb_true_iff in H. exact H.
Qed.

Lemma num_ltb_trans (a b c : number) :
  num_ltb a b = true → num_ltb b c = true → num_ltb a c = true.
Proof.
  destruct a, b, c; simpl; try congruence.
  rewrite !Qltb_lt. apply Qlt_trans.
Qed.

Lemma PRIORITY_MAP_lookup (c : string) (p : FailurePriority) :
  PRIORITY_MAP !! c = Some p →
  (c = "Application Failure" ∧ p = CRITICAL) ∨
  (c = "OS-level Failure" ∧ p = CRITICAL) ∨
  (c = "Disk Corruption" ∧ p = CRITICAL) ∨
  (c = "Agent Failure" ∧ p = HIGH) ∨
  (c = "Resource Bottleneck" ∧ p = MEDIUM) ∨
  (c = "Network Degradation" ∧ p = MEDIUM) ∨
  (c = "Unknown State" ∧ p = UNKNOWN).
Proof.
  unfold PRIORITY_MAP. intros H.
  repeat (apply lookup_insert_Some in H as [[<- <-]|[_ H]]; [tauto|]).
  apply lookup_singleton_Some in H as [<- <-]. tauto.
Qed.

Lemma base_priority_cases (c : string) :
  base_priority c = CRITICAL ∨ base_priority c = HIGH ∨
  base_priority c = MEDIUM ∨ base_priority c = UNKNOWN.
Proof.
  unfold base_priority.
  destruct (PRIORITY_MAP !! c) as [p|] eqn:E; simpl; [|tauto].
  apply PRIORITY_MAP_lookup in E.
  decompose [and or] E; subst; auto.
Qed.

(** The function in terms of the base priority. *)
Lemma calculate_repair_priority_unfold (c : string) (s : number) (a : Z) :
  calculate_repair_priority c s a =
  int (if 2 <=? a then CRITICAL
       else if num_ltb s 20 then CRITICAL
       else if num_ltb s 40 then RepairPriority.min (base_priority c) HIGH
       else base_priority c).
Proof.
  unfold calculate_repair_priority, base_priority.
  destruct (2 <=? a), (num_ltb s 20), (num_ltb s 40); reflexivity.
Qed.

(** C2: for every classification, score and number of repair attempts, the
    priority [calculate_repair_priority] returns is one of 0, 1, 2, 3, 4, and
    with two or more repair attempts it is 1 (CRITICAL), whatever the
    classification and the score. *)
Theorem calculate_repair_priority_range (c : string) (s : number) (a : Z) :
  calculate_repair_priority c s a ∈ [0; 1; 2; 3; 4] ∧
  (2 ≤ a → calculate_repair_priority c s a = 1).
Proof.
  rewrite calculate_repair_priority_unfold. split.
  - destruct (base_priority_cases c) as [E|[E|[E|E]]]; rewrite E;
      destruct (2 <=? a), (num_ltb s 20), (num_ltb s 40); simpl;
      set_solver.
  - intros Ha. apply Z.leb_le in Ha. rewrite Ha. reflexivity.
Qed.

Lemma calculate_repair_priority_range_witness :
  2 ≤ 2 ∧ calculate_repair_priority "Network Degradation" 80 2 = 1.
Proof.
  split; [lia|].
  apply (proj2 (calculate_repair_priority_range "Network Degradation" 80 2)).
  lia.
Defined.

(** C10: [calculate_repair_priority] never returns 4 (LOW): no entry of
    [PRIORITY_MAP] is LOW, every result is one of 0, 1, 2, 3, and each of
    these four is the result for some input. *)
Theorem calculate_repair_priority_never_low :
  (∀ c : string, PRIORITY_MAP !! c ≠ Some LOW) ∧
  (∀ (c : string) (s : number) (a : Z),
     calculate_repair_priority c s a ≠ 4 ∧
     calculate_repair_priority c s a ∈ [0; 1; 2; 3]) ∧
  calculate_repair_priority "Unknown State" 80 0 = 0 ∧
  calculate_repair_priority "Application Failure" 80 0 = 1 ∧
  calculate_repair_priority "Agent Failure" 80 0 = 2 ∧
  calculate_repair_priority "Resource Bottleneck" 80 0 = 3.
Proof.
  split; [|split].
  - intros c E. apply PRIORITY_MAP_lookup in E.
    decompose [and or] E; discriminate.
  - intros c s a. rewrite calculate_repair_priority_unfold.
    destruct (base_priority_cases c) as [E|[E|[E|E]]]; rewrite E;
      destruct (2 <=? a), (num_ltb s 20), (num_ltb s 40); simpl;
      (split; [discriminate | set_solver]).
  - repeat split; vm_compute; reflexivity.
Qed.

(** C5, counterexample: for a score from 20 up to 40 and an unknown
    classification the result is 0 (UNKNOWN), the integer minimum, and not
    2 (HIGH), the more urgent of UNKNOWN and HIGH. *)
Lemma unknown_state_is_not_raised_to_high :
  (0 < 2 ∧ num_leb 20 30 = true ∧ num_ltb 30 40 = true) ∧
  base_priority "Unknown State" = UNKNOWN ∧
  more_urgent (base_priority "Unknown State") HIGH = HIGH ∧
  calculate_repair_priority "Unknown State" 30 0 = 0 ∧
  calculate_repair_priority "Unknown State" 30 0
    ≠ int (more_urgent (base_priority "Unknown State") HIGH).
Proof. vm_compute. repeat split; discriminate. Qed.

(** C5 (amended): with fewer than two repair attempts the overrides never
    loosen the priority: the result is at least as urgent as the base
    priority of the classification, in the order
    CRITICAL < HIGH < MEDIUM < LOW < UNKNOWN.  For a score from 20 up to 40
    the result is the minimum of the integers of the base priority and of
    HIGH; this is the more urgent of the two unless the base priority is
    UNKNOWN, whose integer is 0 and which stays UNKNOWN. *)
Theorem overrides_only_tighten (c : string) (s : number) (a : Z) :
  a < 2 →
  (urgency (of_int (calculate_repair_priority c s a))
     ≤ urgency (base_priority c))%nat ∧
  (num_leb 20 s = true → num_ltb s 40 = true →
   calculate_repair_priority c s a = Z.min (int (base_priority c)) (int HIGH) ∧
   (base_priority c ≠ UNKNOWN →
    calculate_repair_priority c s a = int (more_urgent (base_priority c) HIGH)) ∧
   (base_priority c = UNKNOWN →
    calculate_repair_priority c s a = int UNKNOWN)).
Proof.
  intros Ha. apply Z.leb_gt in Ha.
  rewrite calculate_repair_priority_unfold, Ha. split.
  - destruct (base_priority_cases c) as [E|[E|[E|E]]]; rewrite E;
      destruct (num_ltb s 20), (num_ltb s 40); simpl; lia.
  - intros H20 H40. apply num_leb_ltb in H20. rewrite H20, H40.
    destruct (base_priority_cases c) as [E|[E|[E|E]]]; rewrite E;
      (split; [reflexivity | split; intros ?; first [reflexivity | congruence]]).
Qed.

Lemma overrides_only_tighten_witness :
  0 < 2 ∧ num_leb 20 35 = true ∧ num_ltb 35 40 = true ∧
  calculate_repair_priority "Resource Bottleneck" 35 0
  = Z.min (int (base_priority "Resource Bottleneck")) (int HIGH).
Proof.
  split; [lia|]. split; [reflexivity|]. split; [reflexivity|].
  pose proof (overrides_only_tighten "Resource Bottleneck" 35 0) as H.
  destruct H as [_ H]; [lia|].
  destruct H as [H _]; [reflexivity | reflexivity | exact H].
Defined.

(** ** Properties of [decision_model.py] *)

Lemma should_skip_repair_true (c : string) (s : number) (cfg : dict) :
  should_skip_repair c s cfg = true ↔
  truthy (get cfg "skip_recovery" (VBool false)) = true ∨
  num_ltb s 10 = true ∨
  c = "OS-level Failure" ∨ c = "Disk Corruption".
Proof.
  unfold should_skip_repair.
  destruct (truthy _); [tauto|].
  destruct (num_ltb s 10); [tauto|].
  case_bool_decide as Hc; rewrite !elem_of_cons, elem_of_nil in Hc.
  - tauto.
  - split; [discriminate|]. intros [?|[?|?]]; [discriminate..|tauto].
Qed.

Lemma should_replace_instance_true (s : number) (a : Z) :
  DecisionModel.should_replace_instance s a = true ↔
  num_ltb s 30 = true ∨ 2 ≤ a.
Proof.
  unfold DecisionModel.should_replace_instance.
  destruct (num_ltb s 30); [tauto|].
  destruct (Z.leb_spec 2 a) as [Ha|Ha].
  - tauto.
  - split; [discriminate|]. intros [?|?]; [discriminate | lia].
Qed.

(** The decision of the engine on an instance that is to be skipped: no
    action, and neither a priority nor a timeout. *)
Lemma decide_skip (id c : string) (s : number) (a : Z) (cfg : dict) :
  truthy (get cfg "skip_recovery" (VBool false)) = true ∨
  num_ltb s 10 = true ∨
  c = "OS-level Failure" ∨ c = "Disk Corruption" →
  let d := DecisionModel.decide id c s a cfg in
  DecisionModel.skip d = true ∧ DecisionModel.action d = None ∧
  DecisionModel.priority d = 0 ∧ DecisionModel.timeout_seconds d = 0.
Proof.
  intros H. apply should_skip_repair_true in H.
  unfold DecisionModel.decide. rewrite H. simpl. auto.
Qed.

(** C3: a decision that is not skipped replaces the instance, with a
    timeout of 1800 seconds, when the score is below 30 or there have been
    two or more repair attempts; otherwise it repairs, with the repair
    timeout of the classification. *)
Theorem decide_replace_or_repair (id c : string) (s : number) (a : Z) (cfg : dict) :
  DecisionModel.skip (DecisionModel.decide id c s a cfg) = false →
  (num_ltb s 30 = true ∨ 2 ≤ a →
   DecisionModel.action (DecisionModel.decide id c s a cfg) = Some "replace" ∧
   DecisionModel.timeout_seconds (DecisionModel.decide id c s a cfg) = 1800) ∧
  (¬ (num_ltb s 30 = true ∨ 2 ≤ a) →
   DecisionModel.action (DecisionModel.decide id c s a cfg) = Some "repair" ∧
   DecisionModel.timeout_seconds (DecisionModel.decide id c s a cfg)
   = get_repair_timeout c).
Proof.
  unfold DecisionModel.decide.
  destruct (should_skip_repair c s cfg); [discriminate|]. intros _.
  pose proof (should_replace_instance_true s a) as R.
  destruct (DecisionModel.should_replace_instance s a); simpl; split.
  - auto.
  - intros N. exfalso. apply N, R. reflexivity.
  - intros Y. apply R in Y. discriminate.
  - auto.
Qed.

Lemma decide_replace_or_repair_witness :
  DecisionModel.skip (DecisionModel.decide "i-1" "Agent Failure" 50 0 ∅) = false ∧
  DecisionModel.action (DecisionModel.decide "i-1" "Agent Failure" 50 0 ∅)
  = Some "repair" ∧
  DecisionModel.timeout_seconds (DecisionModel.decide "i-1" "Agent Failure" 50 0 ∅)
  = 900.
Proof.
  assert (DecisionModel.skip (DecisionModel.decide "i-1" "Agent Failure" 50 0 ∅)
          = false) as Hskip by reflexivity.
  split; [exact Hskip|].
  apply (proj2 (decide_replace_or_repair "i-1" "Agent Failure" 50 0 ∅ Hskip)).
  intros [H|H]; [discriminate H | lia].
Defined.

(** ** Properties of [auto_heal/handler.py] *)

Section AutoHealFacts.
Context `{Runtime}.

(** With [skip_recovery] set in the configuration of the instance the
    handler returns before it issues any request. *)
Lemma auto_heal_skip_recovery (env : AutoHeal.Env) (event : Event) (id : value) :
  _extract_instance_id event = Ok id →
  truthy id = true →
  truthy (get (AutoHeal._get_instance_config env) "skip_recovery" (VBool false))
  = true →
  run (AutoHeal.lambda_handler env event)
  = (Ok {| statusCode := 200;
           body := inl "Recovery skipped per configuration" |}, []).
Proof.
  intros Hid Ht Hs.
  unfold run, AutoHeal.lambda_handler, mbind, io_bind, lift.
  rewrite Hid, Ht. simpl. rewrite Hs. reflexivity.
Qed.

Lemma _repair_instance_action (env : AutoHeal.Env) (id tg c : value) :
  ∃ r t, AutoHeal._repair_instance env id tg c = (Ok r, t) ∧
         AutoHeal.action r = "repair".
Proof.
  unfold AutoHeal._repair_instance, AutoHeal.deregister, mbind, io_bind,
    try_io, request, mret, io_ret.
  destruct (AutoHeal.deregister_targets env),
    (AutoHeal.start_automation_execution env); simpl; eauto.
Qed.

Lemma _replace_instance_action (env : AutoHeal.Env) (id tg : value) :
  ∃ r t, AutoHeal._replace_instance env id tg = (Ok r, t) ∧
         AutoHeal.action r = "replace".
Proof.
  unfold AutoHeal._replace_instance, AutoHeal.deregister, mbind, io_bind,
    try_io, request, mret, io_ret.
  destruct (truthy (AutoHeal._get_asg_for_instance env)); simpl; [|eauto].
  destruct (AutoHeal.deregister_targets env); simpl;
    (destruct (AutoHeal.describe_auto_scaling_groups env) as [[|g gs]|];
     simpl; [eauto | | eauto]);
    (destruct (AutoHeal.terminate_instances env); simpl; [|eauto]);
    (destruct (AutoHeal.DesiredCapacity g <=? AutoHeal.MinSize g); simpl;
     [|eauto]);
    (destruct (AutoHeal.set_desired_capacity env); simpl; eauto).
Qed.

(** What the handler does otherwise: outside the cooldown it replaces or
    repairs the instance according to [should_replace_instance] alone. *)
Lemma auto_heal_acts (env : AutoHeal.Env) (event : Event) (id : value)
    (score : number) :
  _extract_instance_id event = Ok id →
  truthy id = true →
  truthy (get (AutoHeal._get_instance_config env) "skip_recovery" (VBool false))
  = false →
  AutoHeal._is_in_cooldown env (AutoHeal._get_instance_config env) = false →
  as_number (get (fields event) "diagnostic_score" (VNum 100)) = Some score →
  ∃ r t, run (AutoHeal.lambda_handler env event)
         = (Ok {| statusCode := 200; body := inr r |}, t) ∧
         AutoHeal.action r =
           if Helpers.should_replace_instance score
                (AutoHeal._get_repair_attempts env)
           then "replace" else "repair".
Proof.
  intros Hid Ht Hs Hc Hn.
  unfold run, AutoHeal.lambda_handler, mbind, io_bind, lift.
  rewrite Hid, Ht. simpl. rewrite Hs, Hc.
  unfold AutoHeal.should_replace_instance. rewrite Hn.
  set (tg := get (fields event) "target_group_arn" _).
  set (c := get (fields event) "classification" _).
  destruct (Helpers.should_replace_instance _ _).
  - destruct (_replace_instance_action env id tg) as (r & t' & E & A).
    rewrite E. exists r.
    unfold AutoHeal._record_auto_heal_action, AutoHeal._trigger_verification,
      try_io, request, mret, io_ret.
    destruct (AutoHeal.put_item env), (AutoHeal.success r),
      (AutoHeal.put_events env); simpl; eauto.
  - destruct (_repair_instance_action env id tg c) as (r & t' & E & A).
    rewrite E. exists r.
    unfold AutoHeal._record_auto_heal_action, AutoHeal._trigger_verification,
      try_io, request, mret, io_ret.
    destruct (AutoHeal.put_item env), (AutoHeal.success r),
      (AutoHeal.put_events env); simpl; eauto.
Qed.

End AutoHealFacts.

(** C1: an instance that is to be skipped must get no repair and no
    replacement, from the decision engine and from the handler that executes
    the remediation.  The engine does skip an instance whose score is 5, and
    one classified as an OS-level failure: no action.  The auto-heal handler
    does not: invoked for the same instances, with no [skip_recovery] in
    their configuration and no earlier action, it terminates the first for
    replacement and starts the repair automation on the second. *)
Theorem auto_heal_acts_where_engine_skips :
  (num_ltb 5 10 = true ∧
   DecisionModel.skip (DecisionModel.decide "i-0abc" "Unknown State" 5 0 ∅) = true ∧
   DecisionModel.action (DecisionModel.decide "i-0abc" "Unknown State" 5 0 ∅) = None ∧
   AutoHeal.action <$>
     payload (run (@AutoHeal.lambda_handler Scenario.runtime Scenario.aws
                     (Scenario.event 5 "Unknown State")))
   = Some "replace" ∧
   requests (run (@AutoHeal.lambda_handler Scenario.runtime Scenario.aws
                    (Scenario.event 5 "Unknown State")))
   = [DeregisterTargets (VStr "tg-web") (VStr "i-0abc");
      TerminateInstances (VStr "i-0abc");
      PutItem "AutoHealHistory" (VStr "i-0abc");
      PutEvents "auto-heal.auto-heal" "Auto-Heal Complete"
        {[ "instance_id" := VStr "i-0abc";
           "target_group_arn" := VStr "tg-web";
           "action" := VStr "replace" ]}]) ∧
  (DecisionModel.skip (DecisionModel.decide "i-0abc" "OS-level Failure" 60 0 ∅) = true ∧
   DecisionModel.action (DecisionModel.decide "i-0abc" "OS-level Failure" 60 0 ∅) = None ∧
   AutoHeal.action <$>
     payload (run (@AutoHeal.lambda_handler Scenario.runtime Scenario.aws
                     (Scenario.event 60 "OS-level Failure")))
   = Some "repair" ∧
   requests (run (@AutoHeal.lambda_handler Scenario.runtime Scenario.aws
                    (Scenario.event 60 "OS-level Failure")))
   = [DeregisterTargets (VStr "tg-web") (VStr "i-0abc");
      StartAutomationExecution "AutoHeal-RepairServices" (VStr "i-0abc")
        (VStr "OS-level Failure");
      PutItem "AutoHealHistory" (VStr "i-0abc");
      PutEvents "auto-heal.auto-heal" "Auto-Heal Complete"
        {[ "instance_id" := VStr "i-0abc";
           "target_group_arn" := VStr "tg-web";
           "action" := VStr "repair" ]}]).
Proof. vm_compute. repeat split; reflexivity. Qed.

(** ** Properties of [utils/helpers.py] *)

Lemma usage_penalty_branches (u : number) :
  usage_penalty u =
  if num_ltb 90 u then 20 else if num_ltb 80 u then 10 else 0.
Proof.
  unfold usage_penalty.
  destruct u as [q| | |]; simpl; try reflexivity.
  destruct (Qltb (inject_Z 90) q), (Qltb (inject_Z 80) q); reflexivity.
Qed.

(** The penalties never exceed 160. *)
Lemma penalties_bounds (d : dict) (cpu memory : number) :
  0 ≤ penalties d cpu memory ≤ 160.
Proof.
  unfold penalties. rewrite !usage_penalty_branches.
  repeat match goal with |- context [if ?b then _ else _] => destruct b end;
    lia.
Qed.



Lemma missing_flag (d : dict) (key : string) :
  d !! key = None → flag d key = false.
Proof. unfold flag, get. intros ->. reflexivity. Qed.

Lemma missing_usage (d : dict) (key : string) :
  d !! key = None →
  as_number (get d key (VNum 0)) = Some (Fin 0) ∧ usage_penalty 0 = 0.
Proof. unfold get. intros ->. split; reflexivity. Qed.

Lemma transitions_cons (x y : value) (s : list value) :
  transitions (x :: y :: s)
  = ((if py_eqb x y then 0 else 1) + transitions (y :: s))%nat.
Proof. reflexivity. Qed.

Lemma num_eqb_sym (a b : number) : num_eqb a b = num_eqb b a.
Proof.
  destruct a as [x| | |], b as [y| | |]; simpl; try reflexivity.
  apply eq_true_iff_eq. rewrite !Qeq_bool_iff. split; intros E; symmetry; exact E.
Qed.

Lemma py_eqb_sym (v w : value) : py_eqb v w = py_eqb w v.
Proof.
  destruct v as [|[]|n|s], w as [|[]|m|t]; try reflexivity;
    try apply String.eqb_sym;
    unfold py_eqb; cbn [as_number]; apply num_eqb_sym.
Qed.

Lemma flapping_loop (key : string) (dflt : value) (h : list dict) :
  ∀ (p : list dict) (acc : Z),
    foldl (Helpers.flapping_step key dflt (p ++ h)) acc
      (seq (length p + 1) (length h - 1))
    = acc + Z.of_nat (transitions (states_of key dflt h)).
Proof.
  induction h as [|x h IH]; intros p acc.
  - simpl. lia.
  - destruct h as [|y h].
    + simpl. lia.
    + replace (length (x :: y :: h) - 1)%nat with (S (length (y :: h) - 1))
        by (simpl; lia).
      cbn [seq foldl].
      replace (S (length p + 1)) with (length (p ++ [x]) + 1)%nat
        by (rewrite length_app; simpl; lia).
      replace (p ++ x :: y :: h) with ((p ++ [x]) ++ y :: h)
        by (rewrite <- app_assoc; reflexivity).
      rewrite IH.
      unfold Helpers.flapping_step.
      assert (((p ++ [x]) ++ y :: h) !!! (length p + 1)%nat = y) as ->
        by (apply list_lookup_total_middle; rewrite length_app; simpl; lia).
      assert (((p ++ [x]) ++ y :: h) !!! (length p + 1 - 1)%nat = x) as ->
        by (rewrite <- app_assoc; apply list_lookup_total_middle; lia).
      change (states_of key dflt (x :: y :: h))
        with (get x key dflt :: get y key dflt :: states_of key dflt h).
      change (states_of key dflt (y :: h))
        with (get y key dflt :: states_of key dflt h).
      cbn [transitions].
      destruct (py_eqb (get x key dflt) (get y key dflt)); simpl negb; cbv iota; lia.
Qed.

Lemma changes_loop (s : list value) :
  ∀ (p : list value) (acc : Z),
    foldl Z.add acc
      (map (fun _ => 1)
         (List.filter
            (fun i => negb (py_eqb ((p ++ s) !!! i) ((p ++ s) !!! (i - 1)%nat)))
            (seq (length p + 1) (length s - 1))))
    = acc + Z.of_nat (transitions s).
Proof.
  induction s as [|x s IH]; intros p acc.
  - simpl. lia.
  - destruct s as [|y s].
    + simpl. lia.
    + replace (length (x :: y :: s) - 1)%nat with (S (length (y :: s) - 1))
        by (simpl; lia).
      cbn [seq List.filter].
      assert ((p ++ x :: y :: s) !!! (length p + 1)%nat = y) as ->.
      { replace (p ++ x :: y :: s) with ((p ++ [x]) ++ y :: s)
          by (rewrite <- app_assoc; reflexivity).
        apply list_lookup_total_middle. rewrite length_app. simpl. lia. }
      assert ((p ++ x :: y :: s) !!! (length p + 1 - 1)%nat = x) as ->
        by (apply list_lookup_total_middle; lia).
      replace (S (length p + 1)) with (length (p ++ [x]) + 1)%nat
        by (rewrite length_app; simpl; lia).
      replace (p ++ x :: y :: s) with ((p ++ [x]) ++ y :: s)
        by (rewrite <- app_assoc; reflexivity).
      rewrite transitions_cons, (py_eqb_sym y x).
      destruct (py_eqb x y); cbn [negb map foldl]; rewrite IH; lia.
Qed.

Lemma changes_transitions (states : list value) :
  TargetMonitor.changes states = Z.of_nat (transitions states).
Proof. apply (changes_loop states [] 0). Qed.

Lemma check_flapping_iff (h : list dict) (threshold : Z) :
  Helpers.check_flapping h threshold = true ↔
  threshold * 2 ≤ Z.of_nat (length h) ∧
  threshold ≤ Z.of_nat (transitions (states_of "state" (VStr EmptyString) h)).
Proof.
  unfold Helpers.check_flapping.
  pose proof (flapping_loop "state" (VStr EmptyString) h [] 0) as L.
  cbn [app length Nat.add] in L. rewrite L. clear L.
  destruct (Z.ltb_spec (Z.of_nat (length h)) (threshold * 2)).
  - split; [discriminate | lia].
  - rewrite Z.leb_le. lia.
Qed.

Lemma transitions_le (states : list value) :
  (transitions states ≤ length states - 1)%nat.
Proof.
  induction states as [|x [|y s] IH]; simpl in *; try lia.
  destruct (py_eqb x y); lia.
Qed.

Lemma alternating_transitions (states : list value) :
  alternating states → transitions states = (length states - 1)%nat.
Proof.
  induction states as [|x [|y s] IH]; simpl in *; try lia.
  intros [-> A]. specialize (IH A). lia.
Qed.

(** C7: with the threshold 3, [check_flapping] is true exactly for a history
    of at least 6 samples with at least 3 transitions; so it is true for 6 or
    more samples that alternate, and false with at most one transition.
    [_check_target_flapping] decides in the same way on the history its
    query returns. *)
Theorem flapping_detection (h : list dict) :
  (Helpers.check_flapping h 3 = true ↔
   (6 ≤ length h)%nat ∧
   (3 ≤ transitions (states_of "state" (VStr EmptyString) h))%nat) ∧
  ((6 ≤ length h)%nat → alternating (states_of "state" (VStr EmptyString) h) →
   Helpers.check_flapping h 3 = true) ∧
  ((transitions (states_of "state" (VStr EmptyString) h) ≤ 1)%nat →
   Helpers.check_flapping h 3 = false) ∧
  (∀ env : TargetMonitor.Env,
     TargetMonitor.query env = Ok h →
     (TargetMonitor._check_target_flapping env = true ↔
      (6 ≤ length h)%nat ∧ (3 ≤ transitions (states_of "State" VNone h))%nat)).
Proof.
  pose proof (check_flapping_iff h 3) as F.
  split; [|split; [|split]].
  - rewrite F. lia.
  - intros Hlen Halt. apply F.
    apply alternating_transitions in Halt.
    unfold states_of in *. rewrite length_map in Halt. lia.
  - intros Hle. apply not_true_is_false. rewrite F. lia.
  - intros env Hq. unfold TargetMonitor._check_target_flapping.
    rewrite Hq. unfold mbind, result_bind, try_except.
    destruct (Z.ltb_spec (Z.of_nat (length h)) 6).
    + split; [discriminate | lia].
    + fold (states_of "State" VNone h). rewrite changes_transitions, Z.leb_le.
      lia.
Qed.

Lemma flapping_detection_witness :
  let h : list dict :=
    [ {[ "state" := VStr "healthy" ]}; {[ "state" := VStr "unhealthy" ]};
      {[ "state" := VStr "healthy" ]}; {[ "state" := VStr "unhealthy" ]};
      {[ "state" := VStr "healthy" ]}; {[ "state" := VStr "unhealthy" ]} ] in
  (6 ≤ length h)%nat ∧
  alternating (states_of "state" (VStr EmptyString) h) ∧
  Helpers.check_flapping h 3 = true.
Proof.
  intros h.
  assert (6 ≤ length h)%nat as Hlen by (simpl; lia).
  assert (alternating (states_of "state" (VStr EmptyString) h)) as Halt
    by (vm_compute; tauto).
  split; [exact Hlen|]. split; [exact Halt|].
  exact (proj1 (proj2 (flapping_detection h)) Hlen Halt).
Defined.

(** A failing query counts as no flapping. *)
Lemma _check_target_flapping_error (env : TargetMonitor.Env) (e : exn) :
  TargetMonitor.query env = Raise e →
  TargetMonitor._check_target_flapping env = false.
Proof.
  intros Hq. unfold TargetMonitor._check_target_flapping. rewrite Hq.
  reflexivity.
Qed.

(** ** Properties of [diagnostics/handler.py] *)

Lemma find_first {A : Type} (f : A → bool) (before after : list A) (x : A) :
  (∀ y, y ∈ before → f y = false) → f x = true →
  List.find f (before ++ x :: after) = Some x.
Proof.
  intros Hb Hx. induction before as [|y before IH]; simpl.
  - rewrite Hx. reflexivity.
  - rewrite (Hb y) by apply list_elem_of_here.
    apply IH. intros z Hz. apply Hb. apply list_elem_of_further. exact Hz.
Qed.

Lemma find_none {A : Type} (f : A → bool) (l : list A) :
  (∀ y, y ∈ l → f y = false) → List.find f l = None.
Proof.
  intros Hl. induction l as [|y l IH]; simpl; [reflexivity|].
  rewrite (Hl y) by apply list_elem_of_here.
  apply IH. intros z Hz. apply Hl. apply list_elem_of_further. exact Hz.
Qed.

Lemma _classify_failure_first_match (d : dict) :
  Diagnostics._classify_failure d = first_match d.
Proof.
  unfold Diagnostics._classify_failure, first_match, precedence, is_set.
  cbn [List.find fst snd].
  repeat match goal with
         | |- context [truthy ?v] => destruct (truthy v); [reflexivity|]
         end.
  reflexivity.
Qed.

(** C6: the classification of a report is that of the first flag set, in the
    order application failure, disk corruption, OS-level failure, network
    degradation, agent failure, resource bottleneck, unknown state; a report
    with no flag set is classified Unknown State. *)
Theorem classification_precedence (d : dict) :
  Diagnostics._classify_failure d = first_match d ∧
  (∀ (before after : list (string * string)) (key label : string),
     precedence = before ++ (key, label) :: after →
     (∀ entry, entry ∈ before → is_set d entry.1 = false) →
     is_set d key = true →
     Diagnostics._classify_failure d = label) ∧
  ((∀ entry, entry ∈ precedence → is_set d entry.1 = false) →
   Diagnostics._classify_failure d = "Unknown State").
Proof.
  rewrite _classify_failure_first_match. unfold first_match.
  split; [reflexivity|]. split.
  - intros before after key label -> Hb Hk.
    rewrite (find_first (fun entry => is_set d entry.1) before after (key, label))
      by assumption.
    reflexivity.
  - intros Hn. rewrite find_none by assumption. reflexivity.
Qed.

Lemma classification_precedence_witness :
  let d : dict := {[ "agent_failure" := VBool true; "unknown_state" := VBool true;
                     "network_degradation" := VBool false ]} in
  (∀ entry, entry ∈ take 4 precedence → is_set d entry.1 = false) ∧
  is_set d "agent_failure" = true ∧
  Diagnostics._classify_failure d = "Agent Failure".
Proof.
  intros d.
  assert (∀ entry, entry ∈ take 4 precedence → is_set d entry.1 = false) as Hb.
  { intros entry Hin. cbn [take precedence] in Hin.
    rewrite !elem_of_cons, elem_of_nil in Hin.
    decompose [or] Hin; subst; try reflexivity; contradiction. }
  split; [exact Hb|]. split; [reflexivity|].
  exact (proj1 (proj2 (classification_precedence d))
           (take 4 precedence) (drop 5 precedence)
           "agent_failure" "Agent Failure" eq_refl Hb eq_refl).
Defined.

Section DiagnosticsFacts.
Context `{Runtime}.


End DiagnosticsFacts.


(** A run that completes is one on an instance whose score was computed. *)
Lemma diagnostics_completed `{Runtime} (env : Diagnostics.Env) (event : Event)
    (report : Diagnostics.Report) (trace : list call) :
  run (Diagnostics.lambda_handler env event)
  = (Ok {| statusCode := 200; body := inr report |}, trace) →
  ∃ id : value,
    _extract_instance_id event = Ok id ∧ truthy id = true ∧
    Helpers.calculate_diagnostic_score (Diagnostics.run_ssm_diagnostics env)
    = Ok (Diagnostics.report_diagnostic_score report) ∧
    Diagnostics.report_classification report
    = Diagnostics._classify_failure (Diagnostics.run_ssm_diagnostics env).
Proof.
  unfold run, Diagnostics.lambda_handler, mbind, io_bind, lift.
  destruct (_extract_instance_id event) as [id|]; [|discriminate].
  destruct (truthy id) eqn:Ht; cbn [negb]; [|discriminate].
  destruct (Helpers.calculate_diagnostic_score _) as [score|]; [|discriminate].
  unfold Diagnostics._store_diagnostics, Diagnostics._trigger_auto_heal,
    try_io, request, mret, io_ret.
  intros E. exists id.
  destruct (Diagnostics.put_item env), (Qltb score 70 || bool_decide _),
    (Diagnostics.put_events env); inversion E; subst; auto.
Qed.

(** ** Properties of [verify/handler.py] *)

Lemma try_io_recovered {A : Type} (body : io A) (h : exn → A) :
  try_io body (fun e => mret (h e)) = (Ok (recovered body h), body.2).
Proof.
  unfold try_io, recovered. destruct body as [[a|e] t]; simpl; [reflexivity|].
  rewrite app_nil_r. reflexivity.
Qed.

Lemma bind_ok {A B : Type} (a : A) (t : list call) (k : A → io B) :
  mbind k ((Ok a, t) : io A) = ((k a).1, t ++ (k a).2).
Proof. unfold mbind, io_bind. destruct (k a). reflexivity. Qed.

Section VerifyFacts.
Context `{Runtime}.

Lemma _run_verification_checks_summary (env : Verify.Env) (id : value) :
  ∃ c1 c2 c3 c4 c5,
    (Verify._check_ssm_online env).1 = Ok c1 ∧
    (Verify._check_app_health_endpoint env id).1 = Ok c2 ∧
    (Verify._check_resource_usage env id).1 = Ok c3 ∧
    (Verify._check_log_anomalies env id).1 = Ok c4 ∧
    (Verify._simulate_lb_health_check env).1 = Ok c5 ∧
    (Verify._run_verification_checks env id).1 = Ok (summary c1 c2 c3 c4 c5).
Proof.
  unfold Verify._run_verification_checks.
  unfold Verify._check_ssm_online, Verify._check_app_health_endpoint,
    Verify._check_resource_usage, Verify._check_log_anomalies,
    Verify._simulate_lb_health_check.
  rewrite !try_io_recovered.
  set (c1 := recovered (Verify.ssm_online_probe env) _).
  set (c2 := recovered (Verify.app_health_probe env id) _).
  set (c3 := recovered (Verify.resource_usage_probe env id) _).
  set (c4 := recovered (Verify.log_anomalies_probe env id) _).
  set (c5 := recovered (Verify.lb_health_probe env) _).
  exists c1, c2, c3, c4, c5.
  repeat (split; [reflexivity|]).
  rewrite !bind_ok. cbn [fst snd].
  unfold mret, io_ret, summary, Verify.record_check.
  cbn [fst snd Verify.failed_checks Verify.checks Verify.all_checks_passed].
  destruct (Verify.passed c1), (Verify.passed c2), (Verify.passed c3),
    (Verify.passed c4), (Verify.passed c5); reflexivity.
Qed.

Ltac io_cases :=
  repeat (simpl;
          match goal with
          | |- context [match ?x with _ => _ end] =>
              lazymatch x with
              | context [match _ with _ => _ end] => fail
              | _ => destruct x
              end
          end);
  simpl.

Lemma ssm_online_probe_requests (env : Verify.Env) :
  (Verify.ssm_online_probe env).2 = [].
Proof.
  unfold Verify.ssm_online_probe, mbind, io_bind, lift, mret, io_ret.
  io_cases; reflexivity.
Qed.

Lemma app_health_probe_requests (env : Verify.Env) (id : value) :
  Forall is_send_command (Verify.app_health_probe env id).2.
Proof.
  unfold Verify.app_health_probe, mbind, io_bind, lift, mret, io_ret,
    request, try_io, fmap, result_fmap, Verify.as_str.
  io_cases; repeat constructor.
Qed.

Lemma resource_usage_probe_requests (env : Verify.Env) (id : value) :
  Forall is_send_command (Verify.resource_usage_probe env id).2.
Proof.
  unfold Verify.resource_usage_probe, mbind, io_bind, lift, mret, io_ret,
    request, try_io, fmap, result_fmap, Verify.as_str.
  io_cases; repeat constructor.
Qed.

Lemma log_anomalies_probe_requests (env : Verify.Env) (id : value) :
  Forall is_send_command (Verify.log_anomalies_probe env id).2.
Proof.
  unfold Verify.log_anomalies_probe, mbind, io_bind, lift, mret, io_ret,
    request, try_io, fmap, result_fmap, Verify.as_str.
  io_cases; repeat constructor.
Qed.

Lemma lb_health_probe_requests (env : Verify.Env) :
  (Verify.lb_health_probe env).2 = [].
Proof.
  unfold Verify.lb_health_probe, mbind, io_bind, lift, mret, io_ret.
  io_cases; reflexivity.
Qed.

Lemma _run_verification_checks_requests (env : Verify.Env) (id : value) :
  Forall is_send_command (Verify._run_verification_checks env id).2.
Proof.
  unfold Verify._run_verification_checks.
  unfold Verify._check_ssm_online, Verify._check_app_health_endpoint,
    Verify._check_resource_usage, Verify._check_log_anomalies,
    Verify._simulate_lb_health_check.
  rewrite !try_io_recovered, !bind_ok. cbn [fst snd].
  rewrite ssm_online_probe_requests, lb_health_probe_requests.
  unfold mret, io_ret. cbn [snd app]. rewrite !app_nil_r.
  repeat apply Forall_app_2;
    auto using app_health_probe_requests, resource_usage_probe_requests,
      log_anomalies_probe_requests.
Qed.








End VerifyFacts.



(** ** Further properties of the decision engine and the helpers *)

Ltac in_list :=
  repeat first [apply list_elem_of_here | apply list_elem_of_further].

Lemma timeouts_lookup (c : string) (n : Z) :
  timeouts !! c = Some n →
  (c = "Application Failure" ∧ n = 300) ∨
  (c = "Resource Bottleneck" ∧ n = 600) ∨
  (c = "Agent Failure" ∧ n = 900) ∨
  (c = "Network Degradation" ∧ n = 600) ∨
  (c = "OS-level Failure" ∧ n = 0) ∨
  (c = "Disk Corruption" ∧ n = 0) ∨
  (c = "Unknown State" ∧ n = 300).
Proof.
  unfold timeouts. intros H.
  repeat (apply lookup_insert_Some in H as [[<- <-]|[_ H]]; [tauto|]).
  apply lookup_singleton_Some in H as [<- <-]. tauto.
Qed.

Lemma get_repair_timeout_cases (c : string) :
  (get_repair_timeout c = 0 ∧ (c = "OS-level Failure" ∨ c = "Disk Corruption")) ∨
  (get_repair_timeout c ∈ [300; 600; 900] ∧
   c ≠ "OS-level Failure" ∧ c ≠ "Disk Corruption").
Proof.
  unfold get_repair_timeout.
  destruct (timeouts !! c) as [n|] eqn:E; simpl.
  - apply timeouts_lookup in E.
    decompose [and or] E; subst;
      first [left; split; [reflexivity | tauto]
            | right; split; [in_list | split; discriminate]].
  - right. split; [in_list|].
    split; intros ->; vm_compute in E; discriminate.
Qed.


(** X2: a decision is skipped exactly when recovery is switched off for
    the instance, the score is below 10 or the classification is OS-level
    Failure or Disk Corruption; it has no action exactly when it is skipped,
    and otherwise the action is repair or replace.  It carries the instance
    id it was made for and a reason that is not empty. *)
Theorem decide_skip_iff (id c : string) (s : number) (a : Z) (cfg : dict) :
  (DecisionModel.skip (DecisionModel.decide id c s a cfg) = true ↔
   truthy (get cfg "skip_recovery" (VBool false)) = true ∨
   num_ltb s 10 = true ∨ c = "OS-level Failure" ∨ c = "Disk Corruption") ∧
  (DecisionModel.action (DecisionModel.decide id c s a cfg) = None ↔
   DecisionModel.skip (DecisionModel.decide id c s a cfg) = true) ∧
  (DecisionModel.action (DecisionModel.decide id c s a cfg)
   ∈ [None; Some "repair"; Some "replace"]) ∧
  DecisionModel.instance_id (DecisionModel.decide id c s a cfg) = id ∧
  template (DecisionModel.reason (DecisionModel.decide id c s a cfg)) ≠ EmptyString.
Proof.
  rewrite <- should_skip_repair_true.
  unfold DecisionModel.decide.
  destruct (should_skip_repair c s cfg); simpl.
  - repeat split; try tauto; try discriminate. in_list.
  - destruct (DecisionModel.should_replace_instance s a); simpl;
      repeat split; try tauto; try discriminate; in_list.
Qed.

Lemma num_leb_ltb_trans (a b c : number) :
  num_leb a b = true → num_ltb b c = true → num_ltb a c = true.
Proof.
  destruct a as [x| | |], b as [y| | |], c as [z| | |]; simpl; try congruence.
  rewrite negb_true_iff, Qltb_ge, !Qltb_lt. apply Qle_lt_trans.
Qed.

(** X3: a decision to repair has a timeout of 300, 600 or 900 seconds,
    never 0: the classification is neither OS-level Failure nor Disk
    Corruption, there were fewer than two repair attempts, the score is not
    below 30 and recovery is not switched off. *)
Theorem repair_decision (id c : string) (s : number) (a : Z) (cfg : dict) :
  DecisionModel.action (DecisionModel.decide id c s a cfg) = Some "repair" →
  DecisionModel.timeout_seconds (DecisionModel.decide id c s a cfg)
  ∈ [300; 600; 900] ∧
  c ≠ "OS-level Failure" ∧ c ≠ "Disk Corruption" ∧
  a < 2 ∧ num_ltb s 30 = false ∧
  truthy (get cfg "skip_recovery" (VBool false)) = false.
Proof.
  unfold DecisionModel.decide.
  destruct (should_skip_repair c s cfg) eqn:Hskip; [discriminate|].
  destruct (DecisionModel.should_replace_instance s a) eqn:Hrep; [discriminate|].
  intros _. cbn [DecisionModel.timeout_seconds].
  assert (¬ (truthy (get cfg "skip_recovery" (VBool false)) = true ∨
             num_ltb s 10 = true ∨ c = "OS-level Failure" ∨
             c = "Disk Corruption")) as Hs
    by (rewrite <- should_skip_repair_true, Hskip; discriminate).
  assert (¬ (num_ltb s 30 = true ∨ 2 ≤ a)) as Hr
    by (rewrite <- should_replace_instance_true, Hrep; discriminate).
  destruct (get_repair_timeout_cases c) as [[_ Hc] | [Hin _]]; [tauto|].
  split; [exact Hin|]. split; [tauto|]. split; [tauto|].
  split; [lia|]. split.
  - destruct (num_ltb s 30); tauto.
  - destruct (truthy _); tauto.
Qed.

(** X4: a decision to replace has a timeout of 1800 seconds, a score that
    is not below 10 and a priority of 0, 1 or 2, never MEDIUM or LOW; the
    priority is 1 (CRITICAL) when the score is below 20 or there were two or
    more repair attempts. *)
Theorem replace_decision (id c : string) (s : number) (a : Z) (cfg : dict) :
  DecisionModel.action (DecisionModel.decide id c s a cfg) = Some "replace" →
  DecisionModel.timeout_seconds (DecisionModel.decide id c s a cfg) = 1800 ∧
  num_ltb s 10 = false ∧
  c ≠ "OS-level Failure" ∧ c ≠ "Disk Corruption" ∧
  DecisionModel.priority (DecisionModel.decide id c s a cfg) ∈ [0; 1; 2] ∧
  (num_ltb s 20 = true ∨ 2 ≤ a →
   DecisionModel.priority (DecisionModel.decide id c s a cfg) = 1).
Proof.
  unfold DecisionModel.decide.
  destruct (should_skip_repair c s cfg) eqn:Hskip; [discriminate|].
  destruct (DecisionModel.should_replace_instance s a) eqn:Hrep; [|discriminate].
  intros _. cbn [DecisionModel.timeout_seconds DecisionModel.priority].
  assert (¬ (truthy (get cfg "skip_recovery" (VBool false)) = true ∨
             num_ltb s 10 = true ∨ c = "OS-level Failure" ∨
             c = "Disk Corruption")) as Hs
    by (rewrite <- should_skip_repair_true, Hskip; discriminate).
  apply should_replace_instance_true in Hrep.
  rewrite calculate_repair_priority_unfold.
  split; [reflexivity|]. split; [destruct (num_ltb s 10); tauto|].
  split; [tauto|]. split; [tauto|]. split.
  - destruct (Z.leb_spec 2 a) as [Ha|Ha]; [in_list|].
    destruct Hrep as [H30|?]; [|lia].
    destruct (num_ltb s 20); [in_list|].
    rewrite (num_ltb_trans s 30 40 H30 eq_refl).
    destruct (base_priority_cases c) as [E|[E|[E|E]]]; rewrite E; in_list.
  - intros [H20|Ha].
    + rewrite H20. destruct (2 <=? a); reflexivity.
    + apply Z.leb_le in Ha. rewrite Ha. reflexivity.
Qed.

(** X5: a lower score together with at least as many repair attempts never
    gives a milder response: what was skipped stays skipped, what was to be
    replaced is still to be replaced, and the priority is at least as
    urgent. *)
Theorem worse_is_never_milder (c : string) (s s' : number) (a a' : Z) (cfg : dict) :
  num_leb s' s = true → a ≤ a' →
  (should_skip_repair c s cfg = true → should_skip_repair c s' cfg = true) ∧
  (DecisionModel.should_replace_instance s a = true →
   DecisionModel.should_replace_instance s' a' = true) ∧
  (urgency (of_int (calculate_repair_priority c s' a'))
   ≤ urgency (of_int (calculate_repair_priority c s a)))%nat.
Proof.
  intros Hs Ha.
  assert (∀ n : number, num_ltb s n = true → num_ltb s' n = true) as Hlt
    by (intros n; apply num_leb_ltb_trans, Hs).
  split; [|split].
  - rewrite !should_skip_repair_true. intros [?|[?|?]]; auto.
  - rewrite !should_replace_instance_true. intros [?|?]; [auto | right; lia].
  - rewrite !calculate_repair_priority_unfold.
    destruct (Z.leb_spec 2 a'); [simpl; lia|].
    destruct (Z.leb_spec 2 a); [lia|].
    pose proof (Hlt 20) as H20. pose proof (Hlt 40) as H40.
    assert (num_ltb s' 20 = true → num_ltb s' 40 = true) as H24
      by (intros E; exact (num_ltb_trans s' 20 40 E eq_refl)).
    destruct (num_ltb s' 20); [simpl; lia|].
    destruct (num_ltb s 20); [discriminate H20; reflexivity|].
    destruct (num_ltb s 40).
    + rewrite H40 by reflexivity. lia.
    + destruct (base_priority_cases c) as [E|[E|[E|E]]]; rewrite E;
        destruct (num_ltb s' 40); simpl; lia.
Qed.

Lemma transitions_app (l : list value) (x y : value) (r : list value) :
  transitions (l ++ [x] ++ y :: r)
  = (transitions (l ++ [x]) + transitions (x :: y :: r))%nat.
Proof.
  induction l as [|z l IH].
  - reflexivity.
  - destruct l as [|w l].
    + cbn [app]. rewrite (transitions_cons z x (y :: r)), (transitions_cons z x []).
      change (transitions [x]) with 0%nat. lia.
    + cbn [app] in *.
      rewrite (transitions_cons z w), (transitions_cons z w (l ++ [x])), IH.
      lia.
Qed.

Lemma transitions_rev (l : list value) :
  transitions (rev l) = transitions l.
Proof.
  induction l as [|x [|y l] IH]; try reflexivity.
  rewrite transitions_cons, <- IH.
  change (rev (x :: y :: l)) with ((rev l ++ [y]) ++ [x]).
  rewrite <- app_assoc.
  rewrite (transitions_app (rev l) y x []).
  cbn [rev]. rewrite (transitions_cons y x []), (py_eqb_sym y x).
  change (transitions [x]) with 0%nat.
  destruct (py_eqb x y); lia.
Qed.

(** X8: flapping detection does not depend on the direction of the
    history: the reversed history gives the same answer, for
    [check_flapping] and for [_check_target_flapping]. *)
Theorem flapping_order_irrelevant (h : list dict) (threshold : Z) :
  Helpers.check_flapping (rev h) threshold = Helpers.check_flapping h threshold ∧
  TargetMonitor._check_target_flapping {| TargetMonitor.query := Ok (rev h) |}
  = TargetMonitor._check_target_flapping {| TargetMonitor.query := Ok h |}.
Proof.
  split.
  - apply eq_true_iff_eq. rewrite !check_flapping_iff.
    unfold states_of. rewrite map_rev, transitions_rev, length_rev. reflexivity.
  - unfold TargetMonitor._check_target_flapping. cbn.
    rewrite length_rev, map_rev, !changes_transitions, transitions_rev.
    reflexivity.
Qed.

(** X9: with a threshold of 0 or less [check_flapping] is true for every
    history, the empty one included; a history of fewer than twice the
    threshold samples is never flapping. *)
Theorem flapping_threshold_edges (h : list dict) (threshold : Z) :
  (threshold ≤ 0 → Helpers.check_flapping h threshold = true) ∧
  (Z.of_nat (length h) < 2 * threshold →
   Helpers.check_flapping h threshold = false).
Proof.
  pose proof (check_flapping_iff h threshold) as F.
  pose proof (transitions_le (states_of "state" (VStr EmptyString) h)) as L.
  unfold states_of in L at 2. rewrite length_map in L.
  split.
  - intros Ht. apply F. lia.
  - intros Hl. apply not_true_is_false. rewrite F. lia.
Qed.

Lemma flapping_threshold_edges_witness :
  0 ≤ 0 ∧ Helpers.check_flapping [] 0 = true.
Proof.
  split; [lia|]. apply (proj1 (flapping_threshold_edges [] 0)). lia.
Defined.

Lemma repair_decision_witness :
  DecisionModel.action
    (DecisionModel.decide "i-1" "Resource Bottleneck" 35 0 ∅) = Some "repair" ∧
  DecisionModel.timeout_seconds
    (DecisionModel.decide "i-1" "Resource Bottleneck" 35 0 ∅) ∈ [300; 600; 900].
Proof.
  assert (DecisionModel.action
            (DecisionModel.decide "i-1" "Resource Bottleneck" 35 0 ∅)
          = Some "repair") as Ha by reflexivity.
  split; [exact Ha|].
  exact (proj1 (repair_decision "i-1" "Resource Bottleneck" 35 0 ∅ Ha)).
Defined.

Lemma replace_decision_witness :
  DecisionModel.action
    (DecisionModel.decide "i-1" "Network Degradation" 80 2 ∅) = Some "replace" ∧
  DecisionModel.timeout_seconds
    (DecisionModel.decide "i-1" "Network Degradation" 80 2 ∅) = 1800.
Proof.
  assert (DecisionModel.action
            (DecisionModel.decide "i-1" "Network Degradation" 80 2 ∅)
          = Some "replace") as Ha by reflexivity.
  split; [exact Ha|].
  exact (proj1 (replace_decision "i-1" "Network Degradation" 80 2 ∅ Ha)).
Defined.

Lemma worse_is_never_milder_witness :
  num_leb 25 35 = true ∧ 0 ≤ 1 ∧
  Nat.le (urgency (of_int (calculate_repair_priority "Resource Bottleneck" 25 1)))
    (urgency (of_int (calculate_repair_priority "Resource Bottleneck" 35 0))).
Proof.
  assert (num_leb 25 35 = true) as Hs by reflexivity.
  assert (0 ≤ 1) as Ha by lia.
  split; [exact Hs|]. split; [exact Ha|].
  exact (proj2 (proj2 (worse_is_never_milder "Resource Bottleneck" 35 25 0 1 ∅
                         Hs Ha))).
Defined.

(** X10: [calculate_diagnostic_score] raises [TypeError] exactly when the CPU
    or the memory usage of the report is present and not a number ([None] or
    a string), whatever its other entries; otherwise it returns a score. *)
Theorem calculate_diagnostic_score_type_error (d : dict) :
  (Helpers.calculate_diagnostic_score d = Raise TypeError ↔
   as_number (get d "cpu_usage" (VNum 0)) = None ∨
   as_number (get d "memory_usage" (VNum 0)) = None) ∧
  ((∃ score, Helpers.calculate_diagnostic_score d = Ok score) ↔
   is_Some (as_number (get d "cpu_usage" (VNum 0))) ∧
   is_Some (as_number (get d "memory_usage" (VNum 0)))).
Proof.
  unfold Helpers.calculate_diagnostic_score, Helpers.gt, mbind, result_bind.
  destruct (as_number (get d "cpu_usage" (VNum 0))) as [cpu|].
  - destruct (as_number (get d "memory_usage" (VNum 0))) as [memory|].
    + destruct (num_ltb 90 cpu), (num_ltb 80 cpu), (num_ltb 90 memory),
        (num_ltb 80 memory);
        (split; [split; [discriminate | intros [?|?]; discriminate]
                | split; [intros _; split; eexists; reflexivity
                         | intros _; eexists; reflexivity]]).
    + destruct (num_ltb 90 cpu), (num_ltb 80 cpu);
        (split; [split; [auto | reflexivity]
                | split; [intros [? ?]; discriminate
                         | intros [_ [? ?]]; discriminate]]).
  - split; [split; [auto | reflexivity]
           | split; [intros [? ?]; discriminate
                    | intros [[? ?] _]; discriminate]].
Qed.

(** X11: the classification is one of seven labels, and the [unknown_state]
    flag has no influence on it: two reports that agree on every other entry
    are classified alike. *)
Theorem classification_ignores_unknown_state (d d' : dict) :
  (∀ key : string, key ≠ "unknown_state" → d !! key = d' !! key) →
  Diagnostics._classify_failure d = Diagnostics._classify_failure d' ∧
  Diagnostics._classify_failure d
  ∈ ["Application Failure"; "Disk Corruption"; "OS-level Failure";
     "Network Degradation"; "Agent Failure"; "Resource Bottleneck";
     "Unknown State"].
Proof.
  intros Hd. unfold Diagnostics._classify_failure, get.
  rewrite <- !Hd by discriminate.
  repeat match goal with
         | |- context [truthy ?v] =>
             destruct (truthy v); [split; [reflexivity | in_list]|]
         end.
  destruct (truthy _), (truthy _); (split; [reflexivity | in_list]).
Qed.

Lemma classification_ignores_unknown_state_witness :
  (∀ key : string, key ≠ "unknown_state" →
     ({[ "agent_failure" := VBool true ]} : dict) !! key
     = ({[ "agent_failure" := VBool true; "unknown_state" := VBool true ]} : dict)
         !! key) ∧
  Diagnostics._classify_failure {[ "agent_failure" := VBool true ]}
  = Diagnostics._classify_failure
      {[ "agent_failure" := VBool true; "unknown_state" := VBool true ]}.
Proof.
  assert (∀ key : string, key ≠ "unknown_state" →
     ({[ "agent_failure" := VBool true ]} : dict) !! key
     = ({[ "agent_failure" := VBool true; "unknown_state" := VBool true ]} : dict)
         !! key) as Hd.
  { intros key Hk.
    destruct (decide (key = "agent_failure")) as [->|Hn]; [reflexivity|].
    rewrite lookup_singleton_ne, lookup_insert_ne, lookup_singleton_ne by congruence.
    reflexivity. }
  split; [exact Hd|].
  exact (proj1 (classification_ignores_unknown_state _ _ Hd)).
Defined.

(** ** Properties of the rest of [utils/helpers.py] *)

Ltac map_lookup :=
  repeat first [ rewrite lookup_insert_eq
               | rewrite lookup_insert_ne by discriminate
               | rewrite lookup_singleton_eq
               | rewrite lookup_singleton_ne by discriminate
               | rewrite lookup_empty ].

Lemma split_not_nil (sep : ascii) (s : string) : Metrics.split sep s ≠ [].
Proof.
  destruct s as [|c s]; simpl; [discriminate|].
  destruct (Ascii.eqb c sep); [discriminate|].
  destruct (Metrics.split sep s); discriminate.
Qed.

Lemma split_length (sep : ascii) (s : string) :
  length (Metrics.split sep s) = S (count_char sep s).
Proof.
  induction s as [|c s IH]; [reflexivity|].
  cbn [Metrics.split count_char].
  destruct (Ascii.eqb c sep).
  - cbn [length]. rewrite IH. reflexivity.
  - pose proof (split_not_nil sep s) as Hn.
    destruct (Metrics.split sep s) as [|part parts]; [contradiction|].
    exact IH.
Qed.

Lemma split_parts (sep : ascii) (s : string) :
  Forall (fun part => count_char sep part = 0%nat) (Metrics.split sep s).
Proof.
  induction s as [|c s IH]; [repeat constructor|].
  cbn [Metrics.split].
  destruct (Ascii.eqb c sep) eqn:E.
  - constructor; [reflexivity | exact IH].
  - destruct (Metrics.split sep s) as [|part parts]; [repeat constructor; simpl; rewrite E; reflexivity|].
    inversion IH as [|? ? Hp Hps]; subst.
    constructor; [|exact Hps]. simpl. rewrite E, Hp. reflexivity.
Qed.

Lemma last_Forall {A : Type} (P : A → Prop) (l : list A) (d : A) :
  l ≠ [] → Forall P l → P (List.last l d).
Proof.
  intros Hn F. induction F as [|x l Hx F IH]; [contradiction|].
  destruct l as [|y l]; [exact Hx|].
  apply IH. discriminate.
Qed.

Lemma item_ok (parts : list string) (i : nat) :
  (i < length parts)%nat → ∃ part, Metrics.item parts i = Ok part ∧ parts !! i = Some part.
Proof.
  intros Hi. destruct (lookup_lt_is_Some_2 parts i Hi) as [part E].
  exists part. unfold Metrics.item. rewrite E. auto.
Qed.

Lemma item_error (parts : list string) (i : nat) :
  (length parts ≤ i)%nat → Metrics.item parts i = Raise IndexError.
Proof.
  intros Hi. unfold Metrics.item. rewrite (lookup_ge_None_2 parts i Hi).
  reflexivity.
Qed.

(** X6: [parse_target_arn] needs seven parts between colons: with six or
    more colons it returns the fourth and fifth part as region and account,
    what follows the last slash of the sixth as target group, which holds no
    slash, and the seventh as target id; with fewer it raises [IndexError]. *)
Theorem parse_target_arn_parts (arn : string) :
  ((6 ≤ count_char ":" arn)%nat →
   ∃ region account_id part target_id,
     Metrics.split ":" arn !! 3%nat = Some region ∧
     Metrics.split ":" arn !! 4%nat = Some account_id ∧
     Metrics.split ":" arn !! 5%nat = Some part ∧
     Metrics.split ":" arn !! 6%nat = Some target_id ∧
     count_char "/" (List.last (Metrics.split "/" part) EmptyString) = 0%nat ∧
     Metrics.parse_target_arn arn
     = Ok {[ "region" := region; "account_id" := account_id;
             "target_group" := List.last (Metrics.split "/" part) EmptyString;
             "target_id" := target_id ]}) ∧
  ((count_char ":" arn < 6)%nat →
   Metrics.parse_target_arn arn = Raise IndexError).
Proof.
  pose proof (split_length ":" arn) as Hlen.
  unfold Metrics.parse_target_arn. split.
  - intros Hc.
    destruct (item_ok (Metrics.split ":" arn) 3) as (region & E3 & L3); [lia|].
    destruct (item_ok (Metrics.split ":" arn) 4) as (account & E4 & L4); [lia|].
    destruct (item_ok (Metrics.split ":" arn) 5) as (part & E5 & L5); [lia|].
    destruct (item_ok (Metrics.split ":" arn) 6) as (target & E6 & L6); [lia|].
    exists region, account, part, target.
    rewrite E3, E4, E5, E6. repeat (split; [assumption|]).
    split; [|reflexivity].
    apply (last_Forall (fun p => count_char "/" p = 0%nat)).
    + apply split_not_nil.
    + apply split_parts.
  - intros Hc.
    destruct (Metrics.item (Metrics.split ":" arn) 3) as [region|e] eqn:E3.
    2:{ unfold Metrics.item in E3. destruct (_ !! 3%nat); inversion E3. reflexivity. }
    destruct (Metrics.item (Metrics.split ":" arn) 4) as [account|e] eqn:E4.
    2:{ unfold Metrics.item in E4. destruct (_ !! 4%nat); inversion E4. reflexivity. }
    destruct (Metrics.item (Metrics.split ":" arn) 5) as [part|e] eqn:E5.
    2:{ unfold Metrics.item in E5. destruct (_ !! 5%nat); inversion E5. reflexivity. }
    cbn. rewrite item_error by lia. reflexivity.
Qed.

(** X7: [get_target_health_metrics] never raises and reports each of its
    four requests on its own: the datapoints under the name of the metric
    when the request was answered, the text of the exception under the name
    with [_error] when it failed, never both; the result has four entries. *)
Theorem metrics_isolated (cw : Metrics.CloudWatch) :
  reported "unhealthy_host_count" (Metrics.UnHealthyHostCount cw)
    (Metrics.get_target_health_metrics cw) ∧
  reported "healthy_host_count" (Metrics.HealthyHostCount cw)
    (Metrics.get_target_health_metrics cw) ∧
  reported "target_response_time" (Metrics.TargetResponseTime cw)
    (Metrics.get_target_health_metrics cw) ∧
  reported "http_5xx_count" (Metrics.HTTPCode_Target_5XX_Count cw)
    (Metrics.get_target_health_metrics cw) ∧
  size (Metrics.get_target_health_metrics cw) = 4%nat.
Proof.
  unfold Metrics.get_target_health_metrics, Metrics.metric, reported.
  destruct (Metrics.UnHealthyHostCount cw), (Metrics.HealthyHostCount cw),
    (Metrics.TargetResponseTime cw), (Metrics.HTTPCode_Target_5XX_Count cw);
    cbn [String.append];
    repeat match goal with |- _ ∧ _ => split end;
    first [ map_lookup; reflexivity
          | rewrite !map_size_insert_None by (map_lookup; reflexivity);
            rewrite map_size_empty; reflexivity ].
Qed.

(** ** Properties of the diagnostic probes *)

Lemma same_findings_score (d d' : dict) :
  same_findings d d' →
  Helpers.calculate_diagnostic_score d = Helpers.calculate_diagnostic_score d' ∧
  Diagnostics._classify_failure d = Diagnostics._classify_failure d'.
Proof.
  intros S.
  unfold Helpers.calculate_diagnostic_score, Diagnostics._classify_failure, get.
  rewrite !(S _) by (unfold finding_keys; rewrite !elem_of_cons; tauto).
  split; reflexivity.
Qed.

Lemma same_findings_trans (d1 d2 d3 : dict) :
  same_findings d1 d2 → same_findings d2 d3 → same_findings d1 d3.
Proof. intros A B k Hk. rewrite (A k Hk). apply B, Hk. Qed.

Ltac each_finding k Hk :=
  unfold finding_keys in Hk; rewrite !elem_of_cons, elem_of_nil in Hk;
  decompose [or] Hk; try contradiction; subst k.

Lemma update_initiated (d : dict) (name : string) (answer : result value) :
  name ∈ ["service"; "resource"; "network"; "log"] →
  same_findings (Probes.update d (Probes.initiated name answer)) d.
Proof.
  intros Hn k Hk. unfold Probes.update, Probes.initiated.
  rewrite !elem_of_cons, elem_of_nil in Hn.
  rewrite lookup_union_r; [reflexivity|].
  decompose [or] Hn; try contradiction; subst name;
    destruct answer; cbn [String.append]; each_finding k Hk; map_lookup; reflexivity.
Qed.

Lemma update_results (env : Probes.Env) (d : dict) :
  same_findings (Probes.update d (Probes._get_ssm_command_results env)) d ∨
  same_findings (Probes.update d (Probes._get_ssm_command_results env))
    (<["application_failure" := VBool true]> d).
Proof.
  unfold Probes._get_ssm_command_results, Probes.update.
  destruct (Probes.get_command_invocation env) as [response|e].
  2:{ left. intros k Hk. rewrite lookup_union_r by apply lookup_empty. reflexivity. }
  assert (∀ A B : value,
            same_findings
              ((<["ssm_command_output" := A]> (<["ssm_command_status" := B]> ∅)) ∪ d) d)
    as Hplain.
  { intros A B k Hk. rewrite lookup_union_r; [reflexivity|].
    each_finding k Hk; map_lookup; reflexivity. }
  destruct (get response "StandardOutputContent" (VStr EmptyString)) as [|b|n|text];
    try (left; apply Hplain).
  destruct (Text.contains "error" (Text.lower text) || py_eqb _ _);
    [right | left; apply Hplain].
  intros k Hk.
  destruct (decide (k = "application_failure")) as [->|Hne].
  - rewrite (lookup_union_l' _ d) by (map_lookup; eauto).
    map_lookup. reflexivity.
  - rewrite lookup_union_r by (each_finding k Hk; try congruence; map_lookup; reflexivity).
    rewrite lookup_insert_ne by congruence. reflexivity.
Qed.

Ltac findings :=
  let k := fresh "k" in
  let Hk := fresh "Hk" in
  intros k Hk; each_finding k Hk; map_lookup; reflexivity.

Lemma same_findings_insert (d d' : dict) (key : string) (v : value) :
  same_findings d d' → same_findings (<[key := v]> d) (<[key := v]> d').
Proof.
  intros S k Hk. destruct (decide (key = k)) as [->|Hne].
  - rewrite !lookup_insert_eq. reflexivity.
  - rewrite !lookup_insert_ne by assumption. apply S, Hk.
Qed.

Lemma same_findings_other (d : dict) (key : string) (v : value) :
  key ∉ finding_keys → same_findings (<[key := v]> d) d.
Proof.
  intros Hn k Hk. rewrite lookup_insert_ne; [reflexivity|].
  intros ->. contradiction.
Qed.

Lemma not_finding (key : string) :
  bool_decide (key ∈ finding_keys) = false → key ∉ finding_keys.
Proof. apply bool_decide_eq_false. Qed.

Lemma run_ssm_diagnostics_findings (env : Probes.Env) (id : value) :
  ∃ application agent unknown : bool,
    same_findings (Probes._run_ssm_diagnostics env id)
      (flags application agent unknown) ∧
    (application = true → agent = false ∧ unknown = false) ∧
    (Probes.describe_instance_information env = Ok [] →
     application = false ∧ agent = true).
Proof.
  unfold Probes._run_ssm_diagnostics. cbv zeta.
  destruct (Probes.describe_instance_information env) as [[|info infos]|e].
  - exists false, true, true. unfold flags.
    split; [findings|]. split; [discriminate | auto].
  - destruct (Probes.describe_instances env) as [reservation|e].
    + assert (∀ D : dict,
                (same_findings D (flags false false false) ∨
                 same_findings D (flags true false false)) →
                ∃ application agent unknown : bool,
                  same_findings D (flags application agent unknown) ∧
                  (application = true → agent = false ∧ unknown = false) ∧
                  (Ok (info :: infos) = Ok [] → application = false ∧ agent = true))
        as Hfin.
      { intros D [S|S]; [exists false, false, false | exists true, false, false];
          (split; [exact S|]); (split; [auto | discriminate]). }
      apply Hfin.
      unfold Probes._check_service_status, Probes._check_resource_usage,
        Probes._check_network_stats, Probes._check_logs.
      match goal with
      | |- context [if truthy _ then Probes.update ?D _ else _] => set (D2 := D)
      end.
      assert (same_findings D2 (flags false false false)) as S2
        by (subst D2; unfold flags; destruct reservation; findings).
      assert (same_findings
                (if truthy (Probes._execute_ssm_command env)
                 then Probes.update D2 (Probes._get_ssm_command_results env)
                 else D2) (flags false false false) ∨
              same_findings
                (if truthy (Probes._execute_ssm_command env)
                 then Probes.update D2 (Probes._get_ssm_command_results env)
                 else D2) (flags true false false)) as [S|S].
      { destruct (truthy (Probes._execute_ssm_command env)); [|left; exact S2].
        destruct (update_results env D2) as [S|S].
        - left. exact (same_findings_trans _ _ _ S S2).
        - right. apply (same_findings_trans _ _ _ S).
          apply (same_findings_trans _
                   (<["application_failure" := VBool true]> (flags false false false))).
          + apply same_findings_insert, S2.
          + unfold flags. findings. }
      * left.
        repeat (eapply same_findings_trans;
                [apply update_initiated; rewrite !elem_of_cons; tauto|]).
        exact S.
      * right.
        repeat (eapply same_findings_trans;
                [apply update_initiated; rewrite !elem_of_cons; tauto|]).
        exact S.
    + exists false, false, true. unfold flags, Probes.failed.
      split; [findings|]. split; [discriminate | discriminate].
  - exists false, false, true. unfold flags, Probes.failed.
    split; [findings|]. split; [discriminate | discriminate].
Qed.

Lemma flags_outcomes (application agent unknown : bool) :
  (application = true → agent = false ∧ unknown = false) →
  Helpers.calculate_diagnostic_score (flags application agent unknown)
  = Ok (if application then 60%Q else 100%Q) ∧
  Diagnostics._classify_failure (flags application agent unknown)
  = (if application then "Application Failure"
     else if agent then "Agent Failure" else "Unknown State").
Proof.
  destruct application, agent, unknown; intros Hc;
    try (destruct Hc; [reflexivity|]; discriminate);
    split; vm_compute; reflexivity.
Qed.

(** X13: whatever AWS answers, the report of [_run_ssm_diagnostics] has
    score 100, with the classification Agent Failure or Unknown State, or
    score 60 with the classification Application Failure: it never leads to
    another score or to one of the other four classifications. *)
Theorem diagnostics_outcomes (env : Probes.Env) (id : value) :
  (Helpers.calculate_diagnostic_score (Probes._run_ssm_diagnostics env id)
   = Ok 100%Q ∧
   Diagnostics._classify_failure (Probes._run_ssm_diagnostics env id)
   ∈ ["Agent Failure"; "Unknown State"]) ∨
  (Helpers.calculate_diagnostic_score (Probes._run_ssm_diagnostics env id)
   = Ok 60%Q ∧
   Diagnostics._classify_failure (Probes._run_ssm_diagnostics env id)
   = "Application Failure").
Proof.
  destruct (run_ssm_diagnostics_findings env id)
    as (application & agent & unknown & S & Hc & _).
  apply same_findings_score in S as [-> ->].
  destruct (flags_outcomes application agent unknown Hc) as [-> ->].
  destruct application; [right; auto|left].
  split; [reflexivity|].
  destruct agent; [apply list_elem_of_here | apply list_elem_of_further, list_elem_of_here].
Qed.

Section ProbesFacts.
Context `{Runtime}.

Lemma diagnostics_requests (env : Diagnostics.Env) (event : Event) (id : value)
    (score : Q) :
  _extract_instance_id event = Ok id →
  truthy id = true →
  Helpers.calculate_diagnostic_score (Diagnostics.run_ssm_diagnostics env)
  = Ok score →
  requests (run (Diagnostics.lambda_handler env event))
  = PutItem Diagnostics.DIAGNOSTICS_TABLE id ::
    (if Qltb score 70
        || bool_decide
             (Diagnostics._classify_failure (Diagnostics.run_ssm_diagnostics env)
              ∈ ["Application Failure"; "OS-level Failure"; "Disk Corruption"])
     then [trigger id (get (fields event) "target_group_arn" (VStr EmptyString))
             (Diagnostics._classify_failure (Diagnostics.run_ssm_diagnostics env))
             score]
     else []).
Proof.
  intros Hid Ht Hs.
  unfold requests, run, Diagnostics.lambda_handler, mbind, io_bind, lift.
  rewrite Hid, Ht, Hs. cbn [negb].
  unfold Diagnostics._store_diagnostics, Diagnostics._trigger_auto_heal,
    try_io, request, mret, io_ret, trigger.
  destruct (Qltb score 70 || bool_decide _), (Diagnostics.put_item env),
    (Diagnostics.put_events env); reflexivity.
Qed.

(** X12: an instance that is not registered with SSM is classified Agent
    Failure with score 100, and the diagnostics handler stores the report
    and does not send the event that starts auto-heal. *)
Theorem unreachable_agent_is_not_healed (env : Probes.Env) (event : Event)
    (id : value) (put_item put_events : result unit) :
  _extract_instance_id event = Ok id →
  truthy id = true →
  Probes.describe_instance_information env = Ok [] →
  Diagnostics._classify_failure (Probes._run_ssm_diagnostics env id)
  = "Agent Failure" ∧
  Helpers.calculate_diagnostic_score (Probes._run_ssm_diagnostics env id)
  = Ok 100%Q ∧
  requests (run (Diagnostics.lambda_handler
                   (Probes.handler_env env id put_item put_events) event))
  = [PutItem Diagnostics.DIAGNOSTICS_TABLE id].
Proof.
  intros Hid Ht Hinfo.
  destruct (run_ssm_diagnostics_findings env id)
    as (application & agent & unknown & S & Hc & Ha).
  destruct (Ha Hinfo) as [-> ->].
  apply same_findings_score in S as [Hs Hcl].
  destruct (flags_outcomes false true unknown Hc) as [Es Ec].
  rewrite Es in Hs. rewrite Ec in Hcl.
  split; [exact Hcl|]. split; [exact Hs|].
  rewrite (diagnostics_requests (Probes.handler_env env id put_item put_events)
             event id 100%Q Hid Ht Hs).
  cbn [Probes.handler_env Diagnostics.run_ssm_diagnostics]. rewrite Hcl.
  reflexivity.
Qed.


End ProbesFacts.

Lemma parse_target_arn_parts_witness :
  (count_char ":" Examples.target_group_arn < 6)%nat ∧
  Metrics.parse_target_arn Examples.target_group_arn = Raise IndexError.
Proof.
  assert (count_char ":" Examples.target_group_arn < 6)%nat as Hc
    by (vm_compute; lia).
  split; [exact Hc|].
  exact (proj2 (parse_target_arn_parts Examples.target_group_arn) Hc).
Defined.

Lemma unreachable_agent_is_not_healed_witness :
  @_extract_instance_id Scenario.runtime (Scenario.event 100 "Unknown State")
  = Ok (VStr "i-0abc") ∧
  truthy (VStr "i-0abc") = true ∧
  Probes.describe_instance_information Examples.no_agent = Ok [] ∧
  Diagnostics._classify_failure
    (Probes._run_ssm_diagnostics Examples.no_agent (VStr "i-0abc"))
  = "Agent Failure".
Proof.
  split; [reflexivity|]. split; [reflexivity|]. split; [reflexivity|].
  exact (proj1 (@unreachable_agent_is_not_healed Scenario.runtime
                  Examples.no_agent (Scenario.event 100 "Unknown State")
                  (VStr "i-0abc") (Ok tt) (Ok tt) eq_refl eq_refl eq_refl)).
Defined.


(** ** Further properties of [auto_heal/handler.py] *)

Ltac not_in_list :=
  rewrite ?elem_of_app, ?elem_of_cons, ?elem_of_nil;
  let Hin := fresh "Hin" in
  intros Hin; decompose [or] Hin; try discriminate; try contradiction.

Section AutoHealMore.
Context `{Runtime}.

(** X15: for an instance whose configuration sets [skip_recovery], or whose
    last action lies within the cooldown, the auto-heal handler answers 200
    with the reason as its body and issues no request at all; the
    configuration is looked at first. *)
Theorem auto_heal_stands_down (env : AutoHeal.Env) (event : Event) (id : value) :
  _extract_instance_id event = Ok id →
  truthy id = true →
  truthy (get (AutoHeal._get_instance_config env) "skip_recovery" (VBool false))
  = true ∨
  AutoHeal._is_in_cooldown env (AutoHeal._get_instance_config env) = true →
  run (AutoHeal.lambda_handler env event)
  = (Ok {| statusCode := 200;
           body :=
             inl (if truthy (get (AutoHeal._get_instance_config env)
                               "skip_recovery" (VBool false))
                  then "Recovery skipped per configuration"
                  else "Instance in cooldown period") |},
     []).
Proof.
  intros Hid Ht Hs.
  unfold run, AutoHeal.lambda_handler, mbind, io_bind, lift.
  rewrite Hid, Ht. simpl.
  destruct (truthy (get _ "skip_recovery" _)); [reflexivity|].
  destruct Hs as [Hs|Hc]; [discriminate|]. rewrite Hc. reflexivity.
Qed.

(** X16: the cooldown check fails open.  When the query for the last action
    raises or finds nothing, when the item has no text as its [Timestamp] or
    one that cannot be read, or when [cooldown_minutes] is not a number, the
    instance is not in cooldown. *)
Theorem cooldown_defaults (env : AutoHeal.Env) (config : dict) :
  (∃ e, AutoHeal.query_last_action env = Raise e) ∨
  AutoHeal.query_last_action env = Ok [] ∨
  (∃ item rest, AutoHeal.query_last_action env = Ok (item :: rest) ∧
     ((∀ s, item !! "Timestamp" ≠ Some (VStr s)) ∨
      (∃ s e, item !! "Timestamp" = Some (VStr s) ∧
              fromisoformat (AutoHeal.replace_Z s) = Raise e))) ∨
  as_number (get config "cooldown_minutes" (VNum 15)) = None →
  AutoHeal._is_in_cooldown env config = false.
Proof.
  unfold AutoHeal._is_in_cooldown, try_except, mbind, result_bind.
  intros [(e & ->)|[->|[(item & rest & -> & Hts)|Hm]]]; try reflexivity.
  - destruct Hts as [Hn|(s & e & Hts & Hp)].
    + destruct (item !! "Timestamp") as [[| | |s]|]; try reflexivity.
      exfalso. exact (Hn s eq_refl).
    + rewrite Hts. cbn. rewrite Hp. reflexivity.
  - rewrite Hm.
    destruct (AutoHeal.query_last_action env) as [[|item rest]|]; try reflexivity.
    destruct (item !! "Timestamp") as [[| | |s]|]; try reflexivity.
    cbn. destruct (fromisoformat _); reflexivity.
Qed.


(** The requests of a repair and of a replacement. *)
Lemma _repair_instance_requests (env : AutoHeal.Env) (id tg c : value) :
  (AutoHeal._repair_instance env id tg c).2
  = [DeregisterTargets tg id;
     StartAutomationExecution AutoHeal.SSM_REPAIR_DOCUMENT id c].
Proof.
  unfold AutoHeal._repair_instance, AutoHeal.deregister, mbind, io_bind,
    try_io, request, mret, io_ret.
  destruct (AutoHeal.deregister_targets env),
    (AutoHeal.start_automation_execution env); reflexivity.
Qed.

Lemma _replace_instance_requests (env : AutoHeal.Env) (id tg : value) :
  ∃ more : list call,
    (AutoHeal._replace_instance env id tg).2 = more ∧
    (more ≠ [] → truthy (AutoHeal._get_asg_for_instance env) = true) ∧
    (more = [] ∨
     more = [DeregisterTargets tg id] ∨
     more = [DeregisterTargets tg id; TerminateInstances id] ∨
     ∃ g gs,
       AutoHeal.describe_auto_scaling_groups env = Ok (g :: gs) ∧
       AutoHeal.terminate_instances env = Ok tt ∧
       AutoHeal.DesiredCapacity g ≤ AutoHeal.MinSize g ∧
       more = [DeregisterTargets tg id; TerminateInstances id;
               SetDesiredCapacity (AutoHeal._get_asg_for_instance env)
                 (AutoHeal.DesiredCapacity g + 1)]).
Proof.
  eexists. split; [reflexivity|].
  unfold AutoHeal._replace_instance, AutoHeal.deregister, mbind, io_bind,
    try_io, request, mret, io_ret.
  destruct (truthy (AutoHeal._get_asg_for_instance env)); simpl;
    [split; [reflexivity|] | split; [intros N; contradiction | auto]].
  destruct (AutoHeal.deregister_targets env); simpl;
    (destruct (AutoHeal.describe_auto_scaling_groups env) as [[|g gs]|];
     simpl; [auto | | auto]);
    (destruct (AutoHeal.terminate_instances env) as [[]|]; simpl; [|auto]);
    (destruct (Z.leb_spec (AutoHeal.DesiredCapacity g) (AutoHeal.MinSize g));
     simpl; [|auto]);
    (destruct (AutoHeal.set_desired_capacity env); simpl;
     right; right; right; exists g, gs; auto).
Qed.

(** When the handler acts: its response and its requests. *)
Lemma auto_heal_trace (env : AutoHeal.Env) (event : Event) (id : value)
    (score : number) :
  _extract_instance_id event = Ok id →
  truthy id = true →
  truthy (get (AutoHeal._get_instance_config env) "skip_recovery" (VBool false))
  = false →
  AutoHeal._is_in_cooldown env (AutoHeal._get_instance_config env) = false →
  as_number (get (fields event) "diagnostic_score" (VNum 100)) = Some score →
  ∃ (r : AutoHeal.Result) (remediation : list call),
    (if Helpers.should_replace_instance score (AutoHeal._get_repair_attempts env)
     then AutoHeal._replace_instance env id
            (get (fields event) "target_group_arn" (VStr EmptyString))
     else AutoHeal._repair_instance env id
            (get (fields event) "target_group_arn" (VStr EmptyString))
            (get (fields event) "classification" (VStr "Unknown State")))
    = (Ok r, remediation) ∧
    run (AutoHeal.lambda_handler env event)
    = (Ok {| statusCode := 200; body := inr r |},
       remediation ++
       PutItem AutoHeal.AUTO_HEAL_TABLE id ::
       (if AutoHeal.success r
        then [completed id (get (fields event) "target_group_arn" (VStr EmptyString))
                (AutoHeal.action r)]
        else [])).
Proof.
  intros Hid Ht Hs Hc Hn.
  unfold run, AutoHeal.lambda_handler, mbind, io_bind, lift.
  rewrite Hid, Ht. simpl. rewrite Hs, Hc.
  unfold AutoHeal.should_replace_instance. rewrite Hn.
  set (tg := get (fields event) "target_group_arn" _).
  set (c := get (fields event) "classification" _).
  destruct (Helpers.should_replace_instance _ _).
  - destruct (_replace_instance_action env id tg) as (r & t' & E & A).
    rewrite E. exists r, t'. split; [reflexivity|].
    unfold AutoHeal._record_auto_heal_action, AutoHeal._trigger_verification,
      try_io, request, mret, io_ret, completed.
    destruct (AutoHeal.put_item env), (AutoHeal.success r),
      (AutoHeal.put_events env); simpl; rewrite ?app_nil_r; reflexivity.
  - destruct (_repair_instance_action env id tg c) as (r & t' & E & A).
    rewrite E. exists r, t'. split; [reflexivity|].
    unfold AutoHeal._record_auto_heal_action, AutoHeal._trigger_verification,
      try_io, request, mret, io_ret, completed.
    destruct (AutoHeal.put_item env), (AutoHeal.success r),
      (AutoHeal.put_events env); simpl; rewrite ?app_nil_r; reflexivity.
Qed.

(** The handler issues requests only when it acts. *)
Lemma auto_heal_acted (env : AutoHeal.Env) (event : Event) :
  requests (run (AutoHeal.lambda_handler env event)) ≠ [] →
  ∃ (id : value) (score : number),
    _extract_instance_id event = Ok id ∧
    truthy id = true ∧
    truthy (get (AutoHeal._get_instance_config env) "skip_recovery" (VBool false))
    = false ∧
    AutoHeal._is_in_cooldown env (AutoHeal._get_instance_config env) = false ∧
    as_number (get (fields event) "diagnostic_score" (VNum 100)) = Some score.
Proof.
  unfold requests, run, AutoHeal.lambda_handler, mbind, io_bind, lift.
  destruct (_extract_instance_id event) as [id|e]; [|intros N; contradiction].
  destruct (truthy id) eqn:Ht; cbn [negb]; [|intros N; contradiction].
  destruct (truthy (get _ "skip_recovery" _)) eqn:Hs; [intros N; contradiction|].
  destruct (AutoHeal._is_in_cooldown _ _) eqn:Hc; [intros N; contradiction|].
  unfold AutoHeal.should_replace_instance.
  destruct (as_number _) as [score|] eqn:Hn; [|intros N; contradiction].
  intros _. exists id, score. auto.
Qed.

(** X18: the handler terminates an instance only when it is the instance of
    the event, the decision was to replace it (score below 30, or two repair
    attempts), recovery is not skipped, the instance is out of its cooldown
    and it belongs to an Auto Scaling group; such a run starts no repair
    automation. *)
Theorem terminate_only_to_replace (env : AutoHeal.Env) (event : Event) (i : value) :
  TerminateInstances i ∈ requests (run (AutoHeal.lambda_handler env event)) →
  ∃ (id : value) (score : number),
    _extract_instance_id event = Ok id ∧ i = id ∧
    as_number (get (fields event) "diagnostic_score" (VNum 100)) = Some score ∧
    (num_ltb score 30 = true ∨ 2 ≤ AutoHeal._get_repair_attempts env) ∧
    truthy (get (AutoHeal._get_instance_config env) "skip_recovery" (VBool false))
    = false ∧
    AutoHeal._is_in_cooldown env (AutoHeal._get_instance_config env) = false ∧
    truthy (AutoHeal._get_asg_for_instance env) = true ∧
    (∀ (document : string) (j c : value),
       StartAutomationExecution document j c
       ∉ requests (run (AutoHeal.lambda_handler env event))).
Proof.
  intros Hin.
  assert (requests (run (AutoHeal.lambda_handler env event)) ≠ []) as Hne
    by (intros E; rewrite E in Hin; exact (not_elem_of_nil _ Hin)).
  destruct (auto_heal_acted env event Hne) as (id & score & Hid & Ht & Hs & Hc & Hn).
  destruct (auto_heal_trace env event id score Hid Ht Hs Hc Hn)
    as (r & rem & Hrem & Hrun).
  unfold requests in *. rewrite Hrun in *. cbn [snd] in *.
  exists id, score.
  assert (TerminateInstances i ∈ rem) as Hin'.
  { rewrite elem_of_app, elem_of_cons in Hin.
    destruct Hin as [?|[?|Hin]]; [assumption | discriminate |].
    unfold completed in Hin. destruct (AutoHeal.success r); revert Hin; not_in_list. }
  pose proof (should_replace_instance_true score (AutoHeal._get_repair_attempts env))
    as Hiff.
  change (DecisionModel.should_replace_instance score
            (AutoHeal._get_repair_attempts env))
    with (Helpers.should_replace_instance score (AutoHeal._get_repair_attempts env))
    in Hiff.
  destruct (Helpers.should_replace_instance score (AutoHeal._get_repair_attempts env)).
  - destruct (_replace_instance_requests env id
                (get (fields event) "target_group_arn" (VStr EmptyString)))
      as (more & Em & Hasg & Hshape).
    rewrite Hrem in Em. cbn [snd] in Em. subst more.
    assert (rem ≠ []) as Hr
      by (intros E; rewrite E in Hin'; exact (not_elem_of_nil _ Hin')).
    assert (i = id ∧ ∀ document j c, StartAutomationExecution document j c ∉ rem)
      as [Hi Hno].
    { destruct Hshape as [->|[->|[->|(g & gs & _ & _ & _ & ->)]]];
        revert Hin'; rewrite ?elem_of_cons, ?elem_of_nil;
        intros Hin'; decompose [or] Hin'; try discriminate; try contradiction;
        (split; [congruence|]); intros document j c; not_in_list. }
    repeat (split; [first [assumption | apply Hiff; reflexivity | auto]|]).
    intros document j c. rewrite elem_of_app, elem_of_cons.
    intros [Hx|[Hx|Hx]]; [exact (Hno _ _ _ Hx) | discriminate |].
    unfold completed in Hx. destruct (AutoHeal.success r); revert Hx; not_in_list.
  - exfalso.
    pose proof (_repair_instance_requests env id
                  (get (fields event) "target_group_arn" (VStr EmptyString))
                  (get (fields event) "classification" (VStr "Unknown State")))
      as Er.
    rewrite Hrem in Er. cbn [snd] in Er. subst rem.
    revert Hin'. not_in_list.
Qed.

(** X19: when an instance that is to be replaced belongs to no Auto Scaling
    group (the lookup raises, finds no instance or no group name), it is left
    as it is, registered with its target group: the failed action is recorded
    and nothing else is requested. *)
Theorem replace_without_group (env : AutoHeal.Env) (event : Event) (id : value)
    (score : number) :
  _extract_instance_id event = Ok id →
  truthy id = true →
  truthy (get (AutoHeal._get_instance_config env) "skip_recovery" (VBool false))
  = false →
  AutoHeal._is_in_cooldown env (AutoHeal._get_instance_config env) = false →
  as_number (get (fields event) "diagnostic_score" (VNum 100)) = Some score →
  num_ltb score 30 = true ∨ 2 ≤ AutoHeal._get_repair_attempts env →
  (∃ e, AutoHeal.describe_auto_scaling_instances env = Raise e) ∨
  AutoHeal.describe_auto_scaling_instances env = Ok [] ∨
  (∃ instance rest,
     AutoHeal.describe_auto_scaling_instances env = Ok (instance :: rest) ∧
     truthy (get instance "AutoScalingGroupName" VNone) = false) →
  run (AutoHeal.lambda_handler env event)
  = (Ok {| statusCode := 200;
           body := inr {| AutoHeal.action := "replace";
                          AutoHeal.success := false;
                          AutoHeal.steps := [];
                          AutoHeal.error := Some (literal "No ASG found for instance");
                          AutoHeal.asg_name := None |} |},
     [PutItem AutoHeal.AUTO_HEAL_TABLE id]).
Proof.
  intros Hid Ht Hs Hc Hn Hr Hasg.
  assert (truthy (AutoHeal._get_asg_for_instance env) = false) as Ha.
  { unfold AutoHeal._get_asg_for_instance, try_except, mbind, result_bind.
    destruct Hasg as [(e & ->)|[->|(instance & rest & -> & Hi)]];
      [reflexivity | reflexivity | exact Hi]. }
  apply (should_replace_instance_true score) in Hr.
  change (DecisionModel.should_replace_instance score
            (AutoHeal._get_repair_attempts env))
    with (Helpers.should_replace_instance score (AutoHeal._get_repair_attempts env))
    in Hr.
  unfold run, AutoHeal.lambda_handler, mbind, io_bind, lift.
  rewrite Hid, Ht. simpl. rewrite Hs, Hc.
  unfold AutoHeal.should_replace_instance. rewrite Hn, Hr.
  unfold AutoHeal._replace_instance. rewrite Ha. simpl.
  unfold AutoHeal._record_auto_heal_action, try_io, request, mret, io_ret.
  destruct (AutoHeal.put_item env); reflexivity.
Qed.

(** X20: a run of the handler that returns the result of an action has
    issued the requests of the remediation, then recorded the action once,
    and then asked for the verification exactly when the action succeeded. *)
Theorem auto_heal_records_every_action (env : AutoHeal.Env) (event : Event)
    (code : Z) (r : AutoHeal.Result) (t : list call) :
  run (AutoHeal.lambda_handler env event)
  = (Ok {| statusCode := code; body := inr r |}, t) →
  ∃ (id : value) (remediation : list call),
    _extract_instance_id event = Ok id ∧
    Forall (fun c => is_remediation c = true) remediation ∧
    t = remediation ++
        PutItem AutoHeal.AUTO_HEAL_TABLE id ::
        (if AutoHeal.success r
         then [completed id (get (fields event) "target_group_arn" (VStr EmptyString))
                 (AutoHeal.action r)]
         else []).
Proof.
  intros Hrun.
  assert (∃ (id : value) (score : number),
    _extract_instance_id event = Ok id ∧
    truthy id = true ∧
    truthy (get (AutoHeal._get_instance_config env) "skip_recovery" (VBool false))
    = false ∧
    AutoHeal._is_in_cooldown env (AutoHeal._get_instance_config env) = false ∧
    as_number (get (fields event) "diagnostic_score" (VNum 100)) = Some score)
    as (id & score & Hid & Ht & Hs & Hc & Hn).
  { revert Hrun. unfold run, AutoHeal.lambda_handler, mbind, io_bind, lift.
    destruct (_extract_instance_id event) as [id|e]; [|discriminate].
    destruct (truthy id) eqn:Ht; cbn [negb]; [|discriminate].
    destruct (truthy (get _ "skip_recovery" _)) eqn:Hs; [discriminate|].
    destruct (AutoHeal._is_in_cooldown _ _) eqn:Hc; [discriminate|].
    unfold AutoHeal.should_replace_instance.
    destruct (as_number _) as [score|] eqn:Hn; [|discriminate].
    intros _. exists id, score. auto. }
  destruct (auto_heal_trace env event id score Hid Ht Hs Hc Hn)
    as (r' & rem & Hrem & Hrun').
  rewrite Hrun' in Hrun. injection Hrun as _ <- <-.
  exists id, rem. repeat split; [assumption|].
  destruct (Helpers.should_replace_instance score (AutoHeal._get_repair_attempts env)).
  - destruct (_replace_instance_requests env id
                (get (fields event) "target_group_arn" (VStr EmptyString)))
      as (more & Em & _ & Hshape).
    rewrite Hrem in Em. cbn [snd] in Em. subst more.
    destruct Hshape as [->|[->|[->|(g & gs & _ & _ & _ & ->)]]];
      repeat constructor.
  - pose proof (_repair_instance_requests env id
                  (get (fields event) "target_group_arn" (VStr EmptyString))
                  (get (fields event) "classification" (VStr "Unknown State")))
      as Er.
    rewrite Hrem in Er. cbn [snd] in Er. subst rem. repeat constructor.
Qed.

(** X21: a replacement raises the desired capacity of the group exactly
    when the instance was terminated and the desired capacity did not exceed
    the minimum size, and then by one. *)
Theorem capacity_raised_only_at_minimum (env : AutoHeal.Env) (id tg a : value)
    (n : Z) :
  SetDesiredCapacity a n ∈ (AutoHeal._replace_instance env id tg).2 ↔
  truthy (AutoHeal._get_asg_for_instance env) = true ∧
  a = AutoHeal._get_asg_for_instance env ∧
  ∃ g gs,
    AutoHeal.describe_auto_scaling_groups env = Ok (g :: gs) ∧
    AutoHeal.terminate_instances env = Ok tt ∧
    AutoHeal.DesiredCapacity g ≤ AutoHeal.MinSize g ∧
    n = AutoHeal.DesiredCapacity g + 1.
Proof.
  split.
  - intros Hin.
    destruct (_replace_instance_requests env id tg) as (more & Em & Hasg & Hshape).
    rewrite Em in Hin.
    assert (more ≠ []) as Hne
      by (intros E; rewrite E in Hin; exact (not_elem_of_nil _ Hin)).
    split; [exact (Hasg Hne)|].
    destruct Hshape as [->|[->|[->|(g & gs & Hg & Hterm & Hle & ->)]]];
      revert Hin; rewrite ?elem_of_cons, ?elem_of_nil;
      intros Hin; decompose [or] Hin; try discriminate; try contradiction.
    match goal with E : SetDesiredCapacity _ _ = _ |- _ => injection E as -> -> end.
    split; [reflexivity|]. exists g, gs. auto.
  - intros (Hasg & -> & g & gs & Hg & Hterm & Hle & ->).
    unfold AutoHeal._replace_instance, AutoHeal.deregister, mbind, io_bind,
      try_io, request, mret, io_ret.
    rewrite Hasg, Hg, Hterm. apply Z.leb_le in Hle.
    destruct (AutoHeal.deregister_targets env); simpl; rewrite Hle;
      destruct (AutoHeal.set_desired_capacity env); simpl;
      rewrite !elem_of_cons; auto.
Qed.

(** X22: of the [detail] of an event the handler reads the instance id
    only.  An event whose score, classification and target group are under
    [detail], as the events of the diagnostics are delivered, is handled with
    score 100, classification [Unknown State] and the empty target group: with
    fewer than two repair attempts the instance is repaired, whatever its
    score was. *)
Theorem detail_gives_the_instance_only (env : AutoHeal.Env) (event : Event)
    (d : dict) (id : value) :
  fields event !! "instance_id" = None →
  detail event = Some (DetailDict d) →
  d !! "instance_id" = Some id →
  truthy id = true →
  fields event !! "target_group_arn" = None →
  fields event !! "diagnostic_score" = None →
  fields event !! "classification" = None →
  truthy (get (AutoHeal._get_instance_config env) "skip_recovery" (VBool false))
  = false →
  AutoHeal._is_in_cooldown env (AutoHeal._get_instance_config env) = false →
  AutoHeal._get_repair_attempts env < 2 →
  ∃ r : AutoHeal.Result,
    AutoHeal.action r = "repair" ∧
    run (AutoHeal.lambda_handler env event)
    = (Ok {| statusCode := 200; body := inr r |},
       [DeregisterTargets (VStr EmptyString) id;
        StartAutomationExecution AutoHeal.SSM_REPAIR_DOCUMENT id
          (VStr "Unknown State");
        PutItem AutoHeal.AUTO_HEAL_TABLE id] ++
       (if AutoHeal.success r then [completed id (VStr EmptyString) "repair"]
        else [])).
Proof.
  intros Hf Hd Hi Ht Htg Hsc Hcl Hs Hc Ha.
  assert (_extract_instance_id event = Ok id) as Hid.
  { unfold _extract_instance_id. rewrite Hf, Hd. unfold get. rewrite Hi.
    reflexivity. }
  assert (as_number (get (fields event) "diagnostic_score" (VNum 100))
          = Some (Fin 100)) as Hn
    by (unfold get; rewrite Hsc; reflexivity).
  destruct (auto_heal_trace env event id (Fin 100) Hid Ht Hs Hc Hn)
    as (r & rem & Hrem & Hrun).
  assert (Helpers.should_replace_instance (Fin 100)
            (AutoHeal._get_repair_attempts env) = false) as Hr.
  { destruct (Helpers.should_replace_instance _ _) eqn:E; [|reflexivity].
    apply should_replace_instance_true in E as [E|E]; [discriminate | lia]. }
  rewrite Hr in Hrem. unfold get in Hrem, Hrun. rewrite Htg in Hrem, Hrun.
  rewrite Hcl in Hrem. cbn [default] in Hrem, Hrun.
  pose proof (_repair_instance_requests env id (VStr EmptyString)
                (VStr "Unknown State")) as Er.
  rewrite Hrem in Er. cbn [snd] in Er. subst rem.
  destruct (_repair_instance_action env id (VStr EmptyString)
              (VStr "Unknown State")) as (r' & t' & E & A).
  rewrite Hrem in E. injection E as <- _.
  exists r. split; [exact A|]. rewrite Hrun, A. reflexivity.
Qed.

(** X23: an event that names no instance (or an empty one) is answered with
    status 400 by the diagnostics, auto-heal and verify handlers, before any
    request. *)
Theorem missing_instance_id (event : Event) (id : value)
    (diagnostics : Diagnostics.Env) (remediation : AutoHeal.Env)
    (verification : Verify.Env) :
  _extract_instance_id event = Ok id →
  truthy id = false →
  run (Diagnostics.lambda_handler diagnostics event)
  = (Ok {| statusCode := 400; body := inl "Missing instance_id" |}, []) ∧
  run (AutoHeal.lambda_handler remediation event)
  = (Ok {| statusCode := 400; body := inl "Missing instance_id" |}, []) ∧
  run (Verify.lambda_handler verification event)
  = (Ok {| statusCode := 400; body := inl "Missing instance_id" |}, []).
Proof.
  intros Hid Ht.
  unfold run, Diagnostics.lambda_handler, AutoHeal.lambda_handler,
    Verify.lambda_handler, mbind, io_bind, lift.
  rewrite Hid, Ht. repeat split; reflexivity.
Qed.
End AutoHealMore.

Lemma auto_heal_stands_down_witness :
  requests (run (@AutoHeal.lambda_handler Scenario.runtime Remediation.opted_out
                   (Scenario.event 5 "Unknown State"))) = [].
Proof.
  rewrite (@auto_heal_stands_down Scenario.runtime Remediation.opted_out
             (Scenario.event 5 "Unknown State") (VStr "i-0abc"));
    [reflexivity | reflexivity | reflexivity | left; reflexivity].
Defined.

Lemma cooldown_defaults_witness :
  @AutoHeal._is_in_cooldown Scenario.runtime Scenario.aws ∅ = false.
Proof.
  apply (@cooldown_defaults Scenario.runtime Scenario.aws ∅).
  right. left. reflexivity.
Defined.


Lemma terminate_only_to_replace_witness :
  TerminateInstances (VStr "i-0abc")
  ∈ requests (run (@AutoHeal.lambda_handler Scenario.runtime Scenario.aws
                     (Scenario.event 5 "Unknown State"))) ∧
  truthy (AutoHeal._get_asg_for_instance Scenario.aws) = true.
Proof.
  assert (TerminateInstances (VStr "i-0abc")
          ∈ requests (run (@AutoHeal.lambda_handler Scenario.runtime Scenario.aws
                             (Scenario.event 5 "Unknown State")))) as Hin
    by (vm_compute; apply list_elem_of_further, list_elem_of_here).
  split; [exact Hin|].
  destruct (@terminate_only_to_replace Scenario.runtime Scenario.aws
              (Scenario.event 5 "Unknown State") (VStr "i-0abc") Hin)
    as (id & score & _ & _ & _ & _ & _ & _ & Hasg & _).
  exact Hasg.
Defined.

Lemma replace_without_group_witness :
  requests (run (@AutoHeal.lambda_handler Scenario.runtime Remediation.no_group
                   (Scenario.event 5 "Unknown State")))
  = [PutItem "AutoHealHistory" (VStr "i-0abc")].
Proof.
  rewrite (@replace_without_group Scenario.runtime Remediation.no_group
             (Scenario.event 5 "Unknown State") (VStr "i-0abc") 5);
    [reflexivity | reflexivity | reflexivity | reflexivity | reflexivity
    | reflexivity | left; reflexivity | right; left; reflexivity].
Defined.

Lemma auto_heal_records_every_action_witness :
  ∃ (r : AutoHeal.Result) (remediation : list call),
    Forall (fun c => is_remediation c = true) remediation ∧
    requests (run (@AutoHeal.lambda_handler Scenario.runtime Scenario.aws
                     (Scenario.event 60 "OS-level Failure")))
    = remediation ++
      PutItem "AutoHealHistory" (VStr "i-0abc") ::
      (if AutoHeal.success r
       then [completed (VStr "i-0abc") (VStr "tg-web") (AutoHeal.action r)]
       else []).
Proof.
  destruct (run (@AutoHeal.lambda_handler Scenario.runtime Scenario.aws
                   (Scenario.event 60 "OS-level Failure")))
    as [[[code [text|r]]|e] t] eqn:E; try (vm_compute in E; discriminate).
  destruct (@auto_heal_records_every_action Scenario.runtime Scenario.aws
              (Scenario.event 60 "OS-level Failure") code r t E)
    as (id & rem & Hid & Hrem & Ht).
  vm_compute in Hid. injection Hid as <-.
  exists r, rem. split; [exact Hrem|]. exact Ht.
Defined.

Lemma detail_gives_the_instance_only_witness :
  StartAutomationExecution "AutoHeal-RepairServices" (VStr "i-0abc")
    (VStr "Unknown State")
  ∈ requests (run (@AutoHeal.lambda_handler Scenario.runtime Scenario.aws
                     Remediation.delivered)).
Proof.
  destruct (@detail_gives_the_instance_only Scenario.runtime Scenario.aws
              Remediation.delivered
              {[ "instance_id" := VStr "i-0abc";
                 "target_group_arn" := VStr "tg-web";
                 "diagnostic_score" := VNum 5;
                 "classification" := VStr "Application Failure" ]}
              (VStr "i-0abc"))
    as (r & _ & E); try reflexivity.
  unfold requests. rewrite E.
  apply list_elem_of_further, list_elem_of_here.
Defined.

Lemma missing_instance_id_witness :
  requests (run (@Verify.lambda_handler Scenario.runtime Scenario.logs_unreachable
                   Remediation.anonymous)) = [].
Proof.
  destruct (@missing_instance_id Scenario.runtime Remediation.anonymous VNone
              Scenario.diagnosed Scenario.aws Scenario.logs_unreachable)
    as (_ & _ & E); [reflexivity | reflexivity |].
  rewrite E. reflexivity.
Defined.

(** ** Further properties of [verify/handler.py] *)

Lemma sublist_failed (b1 b2 b3 b4 b5 : bool) :
  sublist
    ((if b1 then [] else ["ssm_online"]) ++
     (if b2 then [] else ["app_health"]) ++
     (if b3 then [] else ["resource_usage"]) ++
     (if b4 then [] else ["log_anomalies"]) ++
     (if b5 then [] else ["lb_health_simulation"]))
    check_names.
Proof.
  unfold check_names.
  destruct b1, b2, b3, b4, b5; cbn [app];
    repeat first [apply sublist_nil | apply sublist_skip | apply sublist_cons].
Qed.

Section VerifyMore.
Context `{Runtime}.

(** X24: the verification runs the five checks, keeps a result for each of
    them and for nothing else, and lists as failed exactly the checks whose
    result did not pass, in the order they were run. *)
Theorem failed_checks_in_order (env : Verify.Env) (id : value) :
  ∃ v : Verify.Verification,
    (Verify._run_verification_checks env id).1 = Ok v ∧
    sublist (Verify.failed_checks v) check_names ∧
    (∀ name : string, is_Some (Verify.checks v !! name) ↔ name ∈ check_names) ∧
    (∀ name : string,
       name ∈ Verify.failed_checks v ↔
       ∃ c, Verify.checks v !! name = Some c ∧ Verify.passed c = false).
Proof.
  destruct (_run_verification_checks_summary env id)
    as (c1 & c2 & c3 & c4 & c5 & _ & _ & _ & _ & _ & Ev).
  exists (summary c1 c2 c3 c4 c5). split; [exact Ev|].
  unfold summary. cbn [Verify.failed_checks Verify.checks].
  split; [apply sublist_failed|]. split.
  - intros name. unfold check_names.
    rewrite !lookup_insert_is_Some, lookup_empty, is_Some_alt,
      !elem_of_cons, elem_of_nil.
    intuition congruence.
  - intros name. split.
    + rewrite !elem_of_app.
      intros [Hin|[Hin|[Hin|[Hin|Hin]]]];
        match type of Hin with
        | _ ∈ (if Verify.passed ?c then _ else _) =>
            destruct (Verify.passed c) eqn:Hp;
            [exfalso; exact (not_elem_of_nil _ Hin)|];
            apply list_elem_of_singleton in Hin as ->; exists c;
            split; [reflexivity | exact Hp]
        end.
    + intros (c & Hl & Hp).
      repeat (apply lookup_insert_Some in Hl as [[<- <-]|[_ Hl]];
              [rewrite Hp, !elem_of_app, !list_elem_of_singleton; tauto|]).
      rewrite lookup_empty in Hl. discriminate.
Qed.


Lemma startswith2_200 (s : string) :
  String.eqb s "200" || Verify.startswith2 s = Verify.startswith2 s.
Proof.
  destruct (String.eqb_spec s "200") as [->|_]; reflexivity.
Qed.

(** X25: the SSM and load balancer checks send nothing to the instance.  The
    first passes exactly when the first instance information reports
    [Online]; the second exactly when the target group and the instance can
    be described: no health check is simulated. *)
Theorem checks_without_commands (env : Verify.Env) :
  ∃ ssm lb : Verify.CheckResult,
    run (Verify._check_ssm_online env) = (Ok ssm, []) ∧
    run (Verify._simulate_lb_health_check env) = (Ok lb, []) ∧
    (Verify.passed ssm = true ↔
     ∃ info rest,
       Verify.describe_instance_information env = Ok (info :: rest) ∧
       py_eqb (get info "PingStatus" (VStr EmptyString)) (VStr "Online") = true) ∧
    (Verify.passed lb = true ↔
     ∃ tg rest instance,
       Verify.describe_target_groups env = Ok (tg :: rest) ∧
       Verify.lb_describe_instances env = Ok (Some instance)).
Proof.
  unfold run, Verify._check_ssm_online, Verify._simulate_lb_health_check,
    Verify.ssm_online_probe, Verify.lb_health_probe,
    try_io, mbind, io_bind, lift, mret, io_ret.
  destruct (Verify.describe_instance_information env) as [[|info rest]|e1];
    destruct (Verify.describe_target_groups env) as [[|tg tgs]|e2];
    destruct (Verify.lb_describe_instances env) as [[instance|]|e3];
    try destruct (py_eqb (get info "PingStatus" (VStr EmptyString)) (VStr "Online"))
      eqn:Hp;
    cbn [from_option head app];
    eexists _, _; (split; [reflexivity|]); (split; [reflexivity|]);
    cbn [Verify.passed Verify.outcome];
    (split;
     (split;
      [ first [ discriminate | intros _; eauto ]
      | first [ reflexivity
              | intros (? & ? & ? & ?); congruence
              | intros (? & ? & ? & ? & ?); congruence ] ])).
Qed.


(** X26: what the checks that run a command pass on.  Application health:
    the instance has a private address and the output of the command, once
    stripped, starts with [2] (the comparison with [200] adds nothing).
    Resource usage: the output has two lines that read as numbers below 90.
    The log check fails only when the error count was read and is 10 or
    more. *)
Theorem checks_by_command (env : Verify.Env) (id : value) :
  ∃ app usage logs : Verify.CheckResult,
    (Verify._check_app_health_endpoint env id).1 = Ok app ∧
    (Verify._check_resource_usage env id).1 = Ok usage ∧
    (Verify._check_log_anomalies env id).1 = Ok logs ∧
    (Verify.passed app = true ↔
     ∃ instance command answer output,
       Verify.app_describe_instances env = Ok (Some instance) ∧
       truthy (get instance "PrivateIpAddress" (VStr EmptyString)) = true ∧
       Verify.app_send_command env = Ok command ∧
       Verify.app_get_command_invocation env = Ok answer ∧
       get answer "StandardOutputContent" (VStr EmptyString) = VStr output ∧
       Verify.startswith2 (Verify.strip output) = true) ∧
    (Verify.passed usage = true ↔
     ∃ command answer output line0 line1 rest cpu memory,
       Verify.resource_send_command env = Ok command ∧
       Verify.resource_get_command_invocation env = Ok answer ∧
       get answer "StandardOutputContent" (VStr EmptyString) = VStr output ∧
       Verify.split_lines (Verify.strip output) = line0 :: line1 :: rest ∧
       float (Verify.strip line0) = Ok cpu ∧
       float (Verify.strip line1) = Ok memory ∧
       num_ltb cpu 90 = true ∧ num_ltb memory 90 = true) ∧
    (Verify.passed logs = false ↔
     ∃ command answer output errors,
       Verify.log_send_command env = Ok command ∧
       Verify.log_get_command_invocation env = Ok answer ∧
       get answer "StandardOutputContent" (VStr "0") = VStr output ∧
       parse_int (Verify.strip output) = Ok errors ∧
       10 ≤ errors).
Proof.
  assert (∃ app, (Verify._check_app_health_endpoint env id).1 = Ok app ∧
    (Verify.passed app = true ↔
     ∃ instance command answer output,
       Verify.app_describe_instances env = Ok (Some instance) ∧
       truthy (get instance "PrivateIpAddress" (VStr EmptyString)) = true ∧
       Verify.app_send_command env = Ok command ∧
       Verify.app_get_command_invocation env = Ok answer ∧
       get answer "StandardOutputContent" (VStr EmptyString) = VStr output ∧
       Verify.startswith2 (Verify.strip output) = true)) as (app & Eapp & Happ).
  { unfold Verify._check_app_health_endpoint, Verify.app_health_probe,
      try_io, request, mbind, io_bind, lift, mret, io_ret, fmap, result_fmap,
      Verify.as_str.
    destruct (Verify.app_describe_instances env) as [[instance|]|e1];
      try destruct (truthy (get instance "PrivateIpAddress" (VStr EmptyString)))
        eqn:Hip;
      destruct (Verify.app_send_command env) as [command|e2];
      destruct (Verify.app_get_command_invocation env) as [answer|e3];
      try destruct (get answer "StandardOutputContent" (VStr EmptyString))
        as [| | |output] eqn:Hout;
      try rewrite startswith2_200;
      try destruct (Verify.startswith2 (Verify.strip output)) eqn:H2;
      cbn [negb fst snd Verify.passed Verify.outcome];
      eexists; (split; [reflexivity|]);
      cbn [Verify.passed Verify.outcome];
      (split;
       [ first [ discriminate | intros _; eauto 10 ]
       | intros (? & ? & ? & ? & ? & ? & ? & ? & ? & ?); congruence ]). }
  assert (∃ usage, (Verify._check_resource_usage env id).1 = Ok usage ∧
    (Verify.passed usage = true ↔
     ∃ command answer output line0 line1 rest cpu memory,
       Verify.resource_send_command env = Ok command ∧
       Verify.resource_get_command_invocation env = Ok answer ∧
       get answer "StandardOutputContent" (VStr EmptyString) = VStr output ∧
       Verify.split_lines (Verify.strip output) = line0 :: line1 :: rest ∧
       float (Verify.strip line0) = Ok cpu ∧
       float (Verify.strip line1) = Ok memory ∧
       num_ltb cpu 90 = true ∧ num_ltb memory 90 = true))
    as (usage & Eusage & Husage).
  { unfold Verify._check_resource_usage, Verify.resource_usage_probe,
      try_io, request, mbind, io_bind, lift, mret, io_ret, fmap, result_fmap,
      Verify.as_str.
    destruct (Verify.resource_send_command env) as [command|e1];
      destruct (Verify.resource_get_command_invocation env) as [answer|e2];
      try destruct (get answer "StandardOutputContent" (VStr EmptyString))
        as [| | |output] eqn:Hout;
      try destruct (Verify.split_lines (Verify.strip output))
        as [|line0 [|line1 rest]] eqn:Hlines;
      try destruct (float (Verify.strip line0)) as [cpu|e3] eqn:Hcpu;
      try destruct (float (Verify.strip line1)) as [memory|e4] eqn:Hmem;
      try destruct (num_ltb cpu 90) eqn:Hc;
      try destruct (num_ltb memory 90) eqn:Hm;
      cbn [negb andb fst snd Verify.passed Verify.outcome];
      eexists; (split; [reflexivity|]);
      cbn [Verify.passed Verify.outcome];
      (split;
       [ first [ discriminate
               | intros _; do 8 eexists;
                 repeat split; first [eassumption | reflexivity] ]
       | intros (? & ? & ? & ? & ? & ? & ? & ? & ? & ? & ? & ? & ? & ? & ? & ?);
         congruence ]). }
  assert (∃ logs, (Verify._check_log_anomalies env id).1 = Ok logs ∧
    (Verify.passed logs = false ↔
     ∃ command answer output errors,
       Verify.log_send_command env = Ok command ∧
       Verify.log_get_command_invocation env = Ok answer ∧
       get answer "StandardOutputContent" (VStr "0") = VStr output ∧
       parse_int (Verify.strip output) = Ok errors ∧
       10 ≤ errors)) as (logs & Elogs & Hlogs).
  { unfold Verify._check_log_anomalies, Verify.log_anomalies_probe,
      try_io, request, mbind, io_bind, lift, mret, io_ret, fmap, result_fmap,
      Verify.as_str.
    destruct (Verify.log_send_command env) as [command|e1];
      destruct (Verify.log_get_command_invocation env) as [answer|e2];
      try destruct (get answer "StandardOutputContent" (VStr "0"))
        as [| | |output] eqn:Hout;
      try destruct (parse_int (Verify.strip output)) as [errors|e3] eqn:Hint;
      try destruct (Z.ltb_spec errors 10);
      cbn [negb fst snd Verify.passed Verify.outcome];
      eexists; (split; [reflexivity|]);
      cbn [Verify.passed Verify.outcome];
      (split;
       [ first [ discriminate | intros _; eauto 10 ]
       | intros (? & ? & ? & found & ? & ? & ? & ? & ?);
         first [ reflexivity | congruence
               | assert (found = errors) by congruence; lia ] ]). }
  exists app, usage, logs. repeat (split; [assumption|]). assumption.
Qed.


(** X27: a verification that is not held up by the wait for a replaced
    instance runs the checks, stores the result, registers the instance when
    all checks passed and then notifies, the latter only when [SNS_TOPIC_ARN]
    is set.  A registration that fails is raised, after the result was stored
    and with no notification. *)
Theorem verification_run (env : Verify.Env) (event : Event) (id : value) :
  _extract_instance_id event = Ok id →
  truthy id = true →
  py_eqb (get (fields event) "action" (VStr "repair")) (VStr "replace") = false ∨
  Verify.wait_for_instance_ready env = Ok tt →
  ∃ (v : Verify.Verification) (sent : list call),
    Verify._run_verification_checks env id = (Ok v, sent) ∧
    Forall is_send_command sent ∧
    run (Verify.lambda_handler env event)
    = if Verify.all_checks_passed v then
        match Verify.register_targets env with
        | Ok _ =>
            (Ok {| statusCode := 200; body := inr v |},
             sent ++
             [PutItem Verify.VERIFICATION_TABLE id;
              RegisterTargets
                (get (fields event) "target_group_arn" (VStr EmptyString)) id] ++
             notification id)
        | Raise e =>
            (Raise e,
             sent ++
             [PutItem Verify.VERIFICATION_TABLE id;
              RegisterTargets
                (get (fields event) "target_group_arn" (VStr EmptyString)) id])
        end
      else
        (Ok {| statusCode := 200; body := inr v |},
         sent ++ [PutItem Verify.VERIFICATION_TABLE id] ++ notification id).
Proof.
  intros Hid Ht Hw.
  destruct (_run_verification_checks_summary env id)
    as (c1 & c2 & c3 & c4 & c5 & _ & _ & _ & _ & _ & Ev).
  pose proof (_run_verification_checks_requests env id) as Hsent.
  destruct (Verify._run_verification_checks env id) as [r sent] eqn:E.
  cbn [fst snd] in Ev, Hsent. subst r.
  exists (summary c1 c2 c3 c4 c5), sent.
  split; [reflexivity|]. split; [exact Hsent|].
  unfold run, Verify.lambda_handler, Verify._store_verification_result,
    Verify._reregister_target, Verify._send_verification_notification,
    notification, mbind, io_bind, lift, mret, io_ret, try_io, request.
  rewrite Hid, Ht. cbn [negb].
  destruct Hw as [-> | ->];
    [|destruct (py_eqb (get (fields event) "action" (VStr "repair"))
                 (VStr "replace"))];
  (rewrite E;
  destruct (Verify.put_item env), (Verify.all_checks_passed _),
    (Verify.register_targets env) as [[]|],
    (String.eqb (environ_get "SNS_TOPIC_ARN" EmptyString) EmptyString),
    (Verify.publish env);
    cbn [app]; rewrite ?app_nil_r, <- ?app_assoc; reflexivity).
Qed.

(** X28: when a replaced instance does not become ready the handler raises
    the exception of the wait: nothing is checked, stored or registered. *)
Theorem replacement_not_ready (env : Verify.Env) (event : Event) (id : value)
    (e : exn) :
  _extract_instance_id event = Ok id →
  truthy id = true →
  py_eqb (get (fields event) "action" (VStr "repair")) (VStr "replace") = true →
  Verify.wait_for_instance_ready env = Raise e →
  run (Verify.lambda_handler env event) = (Raise e, []).
Proof.
  intros Hid Ht Ha Hw.
  unfold run, Verify.lambda_handler, mbind, io_bind, lift.
  rewrite Hid, Ht, Ha, Hw. reflexivity.
Qed.

End VerifyMore.

Lemma verification_run_witness :
  RegisterTargets (VStr "tg-web") (VStr "i-0abc")
  ∈ requests (run (@Verify.lambda_handler Scenario.runtime_with_float
                     Scenario.logs_unreachable Scenario.repaired)).
Proof.
  destruct (@verification_run Scenario.runtime_with_float
              Scenario.logs_unreachable Scenario.repaired (VStr "i-0abc"))
    as (v & sent & Ev & _ & E); [reflexivity | reflexivity | left; reflexivity |].
  vm_compute in Ev. injection Ev as <- <-.
  unfold requests. rewrite E. vm_compute.
  do 4 apply list_elem_of_further. apply list_elem_of_here.
Defined.

Lemma replacement_not_ready_witness :
  requests (run (@Verify.lambda_handler Scenario.runtime Verified.not_ready
                   Verified.replaced)) = [].
Proof.
  rewrite (@replacement_not_ready Scenario.runtime Verified.not_ready
             Verified.replaced (VStr "i-0abc")
             (ClientError "Timeout waiting for instance to be ready"));
    reflexivity.
Defined.

(** ** Properties of the rest of [target_monitor/handler.py] *)

Section MonitorMore.
Context `{Runtime}.

Lemma state_issues_text (tg id state description : value) (s : string) :
  ∃ found,
    Monitor.state_issues tg id state (VStr s) description = Ok found ∧
    (py_eqb state (VStr "unhealthy") = true →
     found = [Monitor.issue tg "unhealthy_target"
                {[ "instance_id" := id; "state" := state;
                   "reason" := VStr s; "description" := description ]}]).
Proof.
  unfold Monitor.state_issues, Monitor.contains_in, Monitor.contains_in_lower,
    mbind, result_bind.
  destruct (py_eqb state (VStr "unhealthy")); [eauto|].
  destruct (py_eqb state (VStr "unused")); cbn;
    [destruct (Text.contains "NotInUse" s); [eexists; split; [reflexivity|discriminate]|]|];
    (destruct (py_eqb state (VStr "draining")); cbn;
     [|destruct (Text.contains "degraded" (Text.lower s))];
     eexists; (split; [reflexivity|discriminate])).
Qed.

Lemma _record_health_event_requests (answer : result unit) (id : value) :
  (Monitor._record_health_event answer id).2
  = [PutItem Monitor.TARGET_HEALTH_TABLE id].
Proof.
  unfold Monitor._record_health_event, try_io, request, mret, io_ret.
  destruct answer; reflexivity.
Qed.

Lemma monitor_targets_text (env : Monitor.GroupEnv) (tg : value)
    (targets : list Monitor.TargetDescription) :
  Forall reason_is_text targets →
  ∀ (i : nat) (issues : list dict),
  ∃ found,
    Monitor.monitor_targets env tg i targets issues
    = ((issues ++ found, Ok tt), map health_event targets) ∧
    ∀ target, target ∈ targets →
      py_eqb (get (Monitor.TargetHealth target) "State" (VStr EmptyString))
        (VStr "unhealthy") = true →
      unhealthy tg target ∈ found.
Proof.
  induction 1 as [|target rest [s Hs] _ IH]; intros i issues.
  - exists []. cbn. rewrite app_nil_r. split; [reflexivity|].
    intros target Hin. exfalso. exact (not_elem_of_nil _ Hin).
  - cbn [Monitor.monitor_targets map]. rewrite Hs.
    destruct (state_issues_text tg (get (Monitor.Target target) "Id" VNone)
                (get (Monitor.TargetHealth target) "State" (VStr EmptyString))
                (get (Monitor.TargetHealth target) "Description" (VStr EmptyString))
                s) as (found & -> & Hu).
    rewrite _record_health_event_requests.
    set (flap := Monitor.flapping_issues _ _ _ _).
    destruct (IH (S i) ((issues ++ found) ++ flap)) as (more & -> & Hmore).
    exists (found ++ flap ++ more). split.
    + rewrite <- !app_assoc. reflexivity.
    + intros t Hin Hst. apply elem_of_cons in Hin as [->|Hin].
      * rewrite (Hu Hst). unfold unhealthy. rewrite Hs.
        apply elem_of_app. left. apply list_elem_of_here.
      * rewrite !elem_of_app. right. right. exact (Hmore t Hin Hst).
Qed.

(** X29: for a target group whose targets have a text as reason, the monitor
    records one health event for each target, in order, and reports an
    [unhealthy_target] issue for every target whose state is [unhealthy]. *)
Theorem targets_are_recorded_and_reported (env : Monitor.GroupEnv) (tg : value)
    (targets : list Monitor.TargetDescription) :
  Monitor.describe_target_health env = Ok targets →
  Forall reason_is_text targets →
  (Monitor._monitor_target_group env tg).2 = map health_event targets ∧
  ∀ target, target ∈ targets →
    py_eqb (get (Monitor.TargetHealth target) "State" (VStr EmptyString))
      (VStr "unhealthy") = true →
    unhealthy tg target ∈ (Monitor._monitor_target_group env tg).1.
Proof.
  intros Hd Htext. unfold Monitor._monitor_target_group. rewrite Hd.
  destruct (monitor_targets_text env tg targets Htext 0%nat [])
    as (found & -> & Hfound).
  cbn [fst snd app]. split; [reflexivity|].
  intros target Hin Hst. apply elem_of_app. left. exact (Hfound target Hin Hst).
Qed.

Lemma monitor_targets_requests (env : Monitor.GroupEnv) (tg : value)
    (targets : list Monitor.TargetDescription) :
  ∀ (i : nat) (issues : list dict),
    Forall is_put_item (Monitor.monitor_targets env tg i targets issues).2.
Proof.
  induction targets as [|target rest IH]; intros i issues.
  - constructor.
  - cbn [Monitor.monitor_targets]. rewrite _record_health_event_requests.
    destruct (Monitor.state_issues _ _ _ _ _) as [found|e]; cbn [snd].
    + match goal with
      | |- context [Monitor.monitor_targets env tg (S i) rest ?l] =>
          specialize (IH (S i) l);
          destruct (Monitor.monitor_targets env tg (S i) rest l)
            as [[issues' outcome] t]
      end.
      cbn [snd] in *. constructor; [exact I | exact IH].
    + repeat constructor.
Qed.

Lemma _monitor_target_group_requests (env : Monitor.GroupEnv) (tg : value) :
  Forall is_put_item (Monitor._monitor_target_group env tg).2.
Proof.
  unfold Monitor._monitor_target_group.
  destruct (Monitor.describe_target_health env) as [targets|e]; [|constructor].
  pose proof (monitor_targets_requests env tg targets 0%nat []) as F.
  destruct (Monitor.monitor_targets env tg 0 targets []) as [[issues [[]|]] t];
    exact F.
Qed.

Lemma monitor_groups_requests (env : Monitor.Env) (groups : list value) :
  ∀ i : nat, Forall is_put_item (Monitor.monitor_groups env i groups).2.
Proof.
  induction groups as [|tg rest IH]; intros i; [constructor|].
  cbn [Monitor.monitor_groups].
  pose proof (_monitor_target_group_requests (Monitor.group env i) tg) as F.
  destruct (Monitor._monitor_target_group (Monitor.group env i) tg) as [issues t].
  specialize (IH (S i)).
  destruct (Monitor.monitor_groups env (S i) rest) as [more t'].
  cbn [snd] in *. apply Forall_app_2; assumption.
Qed.

Lemma send_issues_events (env : Monitor.Env) (issues : list dict) :
  ∀ i : nat, Monitor.send_issues env i issues = map issue_event issues.
Proof.
  induction issues as [|an_issue rest IH]; intros i; [reflexivity|].
  cbn [Monitor.send_issues map]. rewrite IH.
  unfold Monitor._send_issue_event, try_io, request, mret, io_ret.
  destruct (Monitor.put_events env i); reflexivity.
Qed.

(** X30: the monitor answers 200.  With no target group to monitor it issues
    no request; otherwise it first records health events and then sends one
    event for each issue it reports, in the order of the report, whether or
    not sending succeeds. *)
Theorem monitor_sends_one_event_per_issue (env : Monitor.Env)
    (event : Monitor.MonitorEvent) :
  ∃ (found : list dict) (recorded : list call),
    Forall is_put_item recorded ∧
    run (Monitor.lambda_handler env event)
    = match Monitor._get_target_groups event with
      | [] =>
          (Ok {| statusCode := 200; body := inl "No target groups to monitor" |},
           [])
      | _ =>
          (Ok {| statusCode := 200;
                 body := inr {| Monitor.issues_detected := Z.of_nat (length found);
                                Monitor.issues := found |} |},
           recorded ++ map issue_event found)
      end.
Proof.
  unfold run, Monitor.lambda_handler.
  destruct (Monitor._get_target_groups event) as [|tg rest].
  - exists [], []. split; [constructor | reflexivity].
  - pose proof (monitor_groups_requests env (tg :: rest) 0%nat) as F.
    destruct (Monitor.monitor_groups env 0 (tg :: rest)) as [found t].
    exists found, t. split; [exact F|].
    rewrite send_issues_events. reflexivity.
Qed.

End MonitorMore.

Lemma targets_are_recorded_and_reported_witness :
  (@Monitor._monitor_target_group Scenario.runtime Monitored.one_failing
     (VStr "tg-web")).2
  = [PutItem "TargetHealthEvents" (VStr "i-0abc")].
Proof.
  destruct (@targets_are_recorded_and_reported Scenario.runtime
              Monitored.one_failing (VStr "tg-web") [Monitored.failing])
    as [E _].
  - reflexivity.
  - constructor; [|constructor].
    exists "Target.FailedHealthChecks". reflexivity.
  - rewrite E. reflexivity.
Defined.
